(** * Dynamic querying (src/core/dq.c): a shallow embedding and its properties

    The development follows the C file top-down: the arithmetic of the C
    types it uses ([guint32], [gdouble]), the horizon table, the dynamic
    query record and the process-wide indices, the callout queue interface,
    and then the routines of dq.c in the order of the file.  Routines that
    can hit a [g_assert] return [option]: [None] is the abort.

    Left out of the model: the debug messages ([dq_debug] only matters
    where it guards an assignment), the time stamps [start] and [stop],
    the bytes of the messages (a query keeps the MUID of its template and
    the set of TTLs it has a copy for), and the cached queue sizes of
    [struct next_up], which only the comparison routine given to [qsort]
    reads. *)

From Stdlib Require Import ZArith Lia List Bool.
From stdpp Require Import gmap list option.
Import ListNotations.
Open Scope Z_scope.

(** ** C arithmetic *)

(** [guint32] values are integers in [0, 2^32); arithmetic wraps. *)
Definition u32 (x : Z) : Z := x mod 2 ^ 32.

(** IEEE 754 binary64, the [gdouble] / [double] of the C code.  A value is
    [mant * 2^expo] with [mant >= 0] (dq.c only handles non-negative
    doubles).  Every operation computes the exact result and rounds it to
    53 significant bits, to nearest, ties to even.  Magnitudes in dq.c stay
    between 1e-6 and 1e16, far from the subnormal and overflow ranges,
    which are therefore not modelled. *)
Module B64.

Record t := mk { mant : Z; expo : Z }.

Definition prec : Z := 53.

(** The numerator and denominator of [p / (q * 2^e)]. *)
Definition scaled (p q e : Z) : Z * Z :=
  if 0 <=? e then (p, q * 2 ^ e) else (p * 2 ^ (- e), q).

(** [round p q s]: the double nearest to [p / q * 2^s] ([p >= 0], [q > 0]). *)
Definition round (p q s : Z) : t :=
  if p <=? 0 then mk 0 0 else
  let e0 := Z.log2 p - Z.log2 q - prec in
  let (n0, d0) := scaled p q e0 in
  let e := if n0 / d0 <? 2 ^ prec then e0 else e0 + 1 in
  let (n, d) := scaled p q e in
  let m := n / d in
  let r := n mod d in
  let up := (d <? 2 * r) || ((d =? 2 * r) && Z.odd m) in
  mk (if up then m + 1 else m) (e + s).

(** Conversion from an integer (exact below 2^53). *)
Definition of_Z (n : Z) : t := round n 1 0.

(** A decimal literal [n / d] of the source text. *)
Definition literal (n d : Z) : t := round n d 0.

Definition add (x y : t) : t :=
  let e := Z.min (expo x) (expo y) in
  round (mant x * 2 ^ (expo x - e) + mant y * 2 ^ (expo y - e)) 1 e.

Definition mul (x y : t) : t :=
  round (mant x * mant y) 1 (expo x + expo y).

Definition div (x y : t) : t :=
  round (mant x) (mant y) (expo x - expo y).

(** [pow(x, j)] of libm for an integral [j >= 0], taken as correctly
    rounded; [pow(x, 0)] is 1 and [pow(x, 1)] is [x]. *)
Definition pow (x : t) (j : Z) : t :=
  round (mant x ^ j) 1 (expo x * j).

Definition leb (x y : t) : bool :=
  let e := Z.min (expo x) (expo y) in
  mant x * 2 ^ (expo x - e) <=? mant y * 2 ^ (expo y - e).

(** The [MAX] macro: [(a) > (b) ? (a) : (b)]. *)
Definition max (x y : t) : t := if leb x y then y else x.

(** Conversion to an integer type truncates toward zero. *)
Definition trunc (x : t) : Z :=
  if 0 <=? expo x then mant x * 2 ^ expo x else mant x / 2 ^ (- expo x).

(** [x] moved by [k] units in the last place. *)
Definition nudge (k : Z) (x : t) : t := mk (mant x + k) (expo x).

End B64.

(** ** Constants of dq.c *)

Definition DQ_MAX_LIFETIME : Z := 600000.
Definition DQ_PROBE_TIMEOUT : Z := 1500.
Definition DQ_PENDING_TIMEOUT : Z := 1200.
Definition DQ_QUERY_TIMEOUT : Z := 3700.
Definition DQ_TIMEOUT_ADJUST : Z := 100.
Definition DQ_MIN_TIMEOUT : Z := 1500.
Definition DQ_LINGER_TIMEOUT : Z := 180000.
Definition DQ_STATUS_TIMEOUT : Z := 40000.
Definition DQ_MAX_PENDING : Z := 3.
Definition DQ_MAX_STAT_TIMEOUT : Z := 2.
Definition DQ_STAT_THRESHOLD : Z := 3.
Definition DQ_MIN_FOR_GUIDANCE : Z := 20.
Definition DQ_MAX_HORIZON : Z := 500000.
Definition DQ_MIN_HORIZON : Z := 3000.
Definition DQ_LOW_RESULTS : Z := 10.
Definition DQ_MAX_TTL : Z := 5.
Definition DQ_AVG_ULTRA_NODES : Z := 3.
Definition DQ_FUZZY_FACTOR : B64.t := B64.literal 80 100.

Definition MAX_DEGREE : Z := 50.
Definition MAX_TTL : Z := 5.

(** ** The horizon table *)

(** The inner loop of [fill_hosts] for row [i], from column [j] on:
    [hosts[i][j] = hosts[i][j-1] + pow(i, j)], the sum being computed in
    double and stored into a [guint32]. *)
Fixpoint fill_row (i prev j : Z) (n : nat) : list Z :=
  match n with
  | O => []
  | S n' =>
      let h := u32 (B64.trunc (B64.add (B64.of_Z prev) (B64.pow (B64.of_Z i) j))) in
      h :: fill_row i h (j + 1) n'
  end.

(** [fill_hosts]: the [hosts[MAX_DEGREE][MAX_TTL]] table. *)
Definition fill_hosts : list (list Z) :=
  map (fun i => 1 :: fill_row i 1 1 (Z.to_nat (MAX_TTL - 1))) (seqZ 0 MAX_DEGREE).

(** The table as [dq_init] leaves it. *)
Definition hosts : list (list Z) := Eval vm_compute in fill_hosts.

Definition hosts_at (i j : Z) : Z :=
  nth (Z.to_nat j) (nth (Z.to_nat i) hosts []) 0.

(** [dq_get_horizon]; [None] when one of its two assertions fails. *)
Definition dq_get_horizon (degree ttl : Z) : option Z :=
  if (0 <? degree) && (0 <? ttl) then
    let i := Z.min degree MAX_DEGREE - 1 in
    let j := Z.min ttl MAX_TTL - 1 in
    Some (u32 (B64.trunc (B64.mul (B64.of_Z (hosts_at i j)) (B64.pow DQ_FUZZY_FACTOR j))))
  else None.

(** [dq_get_horizon] on a libm whose [pow] is off by [k] units in the
    last place. *)
Definition dq_get_horizon_ulps (k degree ttl : Z) : option Z :=
  if (0 <? degree) && (0 <? ttl) then
    let i := Z.min degree MAX_DEGREE - 1 in
    let j := Z.min ttl MAX_TTL - 1 in
    Some (u32 (B64.trunc (B64.mul (B64.of_Z (hosts_at i j))
                                  (B64.nudge k (B64.pow DQ_FUZZY_FACTOR j)))))
  else None.

(** ** Data model *)

(** Operational flags of a dynamic query ([dq->flags]). *)
Definition DQ_F_ID_CLEANING : Z := Z.shiftl 1 0.
Definition DQ_F_LINGER : Z := Z.shiftl 1 1.
Definition DQ_F_LEAF_GUIDED : Z := Z.shiftl 1 2.
Definition DQ_F_WAITING : Z := Z.shiftl 1 3.
Definition DQ_F_GOT_GUIDANCE : Z := Z.shiftl 1 4.
Definition DQ_F_USR_CANCELLED : Z := Z.shiftl 1 5.
Definition DQ_F_ROUTING_HITS : Z := Z.shiftl 1 6.
Definition DQ_F_EXITING : Z := Z.shiftl 1 7.
Definition DQ_F_REMOVED : Z := Z.shiftl 1 8.

(** [fl & f] as a C condition. *)
Definition has_flag (fl f : Z) : bool := negb (Z.land fl f =? 0).
(** [fl | f] and [fl & ~f]. *)
Definition set_flag (fl f : Z) : Z := Z.lor fl f.
Definition clear_flag (fl f : Z) : Z := Z.land fl (Z.lnot f).

(** What dq.c reads of a [gnutella_node_t]. *)
Record gnutella_node := {
  n_id : Z;                      (* NODE_ID(n) *)
  n_is_ultra : bool;             (* NODE_IS_ULTRA(n) *)
  n_is_writable : bool;          (* NODE_IS_WRITABLE(n) *)
  n_received : Z;
  n_in_tx_flow_control : bool;   (* NODE_IN_TX_FLOW_CONTROL(n) *)
  n_hops_flow : Z;
  n_degree : Z;
  n_max_ttl : Z;
  n_up_qrp : bool                (* NODE_UP_QRP(n) *)
}.

(** [struct next_up]: the selected node and the cached answer of
    [qrp_node_can_route]. *)
Record next_up := {
  nu_nid : Z;
  nu_node : gnutella_node;
  nu_can_route : Z               (* -1 = unknown, otherwise TRUE / FALSE *)
}.

(** [dquery_t].  [muid] is the MUID in the header of the template message
    [dq->mb]; [by_ttl] records the TTLs for which a copy of the template
    has been made. *)
Record dquery := {
  node_id : Z;
  qid : Z;
  flags : Z;
  sh : Z;
  muid : Z;
  qhv : Z;
  queried : gset Z;
  lmuid : option Z;
  query_flags : Z;
  ttl : Z;
  horizon : Z;
  up_sent : Z;
  last_status : Z;
  pending : Z;
  max_results : Z;
  fin_results : Z;
  oob_results : Z;
  results : Z;
  linger_results : Z;
  new_results : Z;
  kept_results : Z;
  result_timeout : Z;
  stat_timeouts : Z;
  expire_ev : option Z;
  results_ev : option Z;
  alive : option Z;
  nv : list next_up;
  by_ttl : gset Z
}.

(** The integer fields that dq.c assigns after creation. *)
Inductive zfield :=
  | F_flags | F_horizon | F_up_sent | F_last_status | F_pending
  | F_oob_results | F_results | F_linger_results | F_new_results
  | F_kept_results | F_result_timeout | F_stat_timeouts.

Definition zfield_eqb (f g : zfield) : bool :=
  match f, g with
  | F_flags, F_flags | F_horizon, F_horizon | F_up_sent, F_up_sent
  | F_last_status, F_last_status | F_pending, F_pending
  | F_oob_results, F_oob_results | F_results, F_results
  | F_linger_results, F_linger_results | F_new_results, F_new_results
  | F_kept_results, F_kept_results | F_result_timeout, F_result_timeout
  | F_stat_timeouts, F_stat_timeouts => true
  | _, _ => false
  end.

(** [dq->f = v]. *)
Definition upd (f : zfield) (v : Z) (q : dquery) : dquery :=
  let pick g old := if zfield_eqb f g then v else old in
  {| node_id := node_id q; qid := qid q;
     flags := pick F_flags (flags q);
     sh := sh q; muid := muid q; qhv := qhv q; queried := queried q;
     lmuid := lmuid q; query_flags := query_flags q; ttl := ttl q;
     horizon := pick F_horizon (horizon q);
     up_sent := pick F_up_sent (up_sent q);
     last_status := pick F_last_status (last_status q);
     pending := pick F_pending (pending q);
     max_results := max_results q; fin_results := fin_results q;
     oob_results := pick F_oob_results (oob_results q);
     results := pick F_results (results q);
     linger_results := pick F_linger_results (linger_results q);
     new_results := pick F_new_results (new_results q);
     kept_results := pick F_kept_results (kept_results q);
     result_timeout := pick F_result_timeout (result_timeout q);
     stat_timeouts := pick F_stat_timeouts (stat_timeouts q);
     expire_ev := expire_ev q; results_ev := results_ev q;
     alive := alive q; nv := nv q; by_ttl := by_ttl q |}.

Definition set_queried (v : gset Z) (q : dquery) : dquery :=
  {| node_id := node_id q; qid := qid q; flags := flags q; sh := sh q;
     muid := muid q; qhv := qhv q; queried := v; lmuid := lmuid q;
     query_flags := query_flags q; ttl := ttl q; horizon := horizon q;
     up_sent := up_sent q; last_status := last_status q;
     pending := pending q; max_results := max_results q;
     fin_results := fin_results q; oob_results := oob_results q;
     results := results q; linger_results := linger_results q;
     new_results := new_results q; kept_results := kept_results q;
     result_timeout := result_timeout q; stat_timeouts := stat_timeouts q;
     expire_ev := expire_ev q; results_ev := results_ev q;
     alive := alive q; nv := nv q; by_ttl := by_ttl q |}.

Definition set_expire_ev (v : option Z) (q : dquery) : dquery :=
  {| node_id := node_id q; qid := qid q; flags := flags q; sh := sh q;
     muid := muid q; qhv := qhv q; queried := queried q; lmuid := lmuid q;
     query_flags := query_flags q; ttl := ttl q; horizon := horizon q;
     up_sent := up_sent q; last_status := last_status q;
     pending := pending q; max_results := max_results q;
     fin_results := fin_results q; oob_results := oob_results q;
     results := results q; linger_results := linger_results q;
     new_results := new_results q; kept_results := kept_results q;
     result_timeout := result_timeout q; stat_timeouts := stat_timeouts q;
     expire_ev := v; results_ev := results_ev q;
     alive := alive q; nv := nv q; by_ttl := by_ttl q |}.

Definition set_results_ev (v : option Z) (q : dquery) : dquery :=
  {| node_id := node_id q; qid := qid q; flags := flags q; sh := sh q;
     muid := muid q; qhv := qhv q; queried := queried q; lmuid := lmuid q;
     query_flags := query_flags q; ttl := ttl q; horizon := horizon q;
     up_sent := up_sent q; last_status := last_status q;
     pending := pending q; max_results := max_results q;
     fin_results := fin_results q; oob_results := oob_results q;
     results := results q; linger_results := linger_results q;
     new_results := new_results q; kept_results := kept_results q;
     result_timeout := result_timeout q; stat_timeouts := stat_timeouts q;
     expire_ev := expire_ev q; results_ev := v;
     alive := alive q; nv := nv q; by_ttl := by_ttl q |}.

Definition set_nv (v : list next_up) (q : dquery) : dquery :=
  {| node_id := node_id q; qid := qid q; flags := flags q; sh := sh q;
     muid := muid q; qhv := qhv q; queried := queried q; lmuid := lmuid q;
     query_flags := query_flags q; ttl := ttl q; horizon := horizon q;
     up_sent := up_sent q; last_status := last_status q;
     pending := pending q; max_results := max_results q;
     fin_results := fin_results q; oob_results := oob_results q;
     results := results q; linger_results := linger_results q;
     new_results := new_results q; kept_results := kept_results q;
     result_timeout := result_timeout q; stat_timeouts := stat_timeouts q;
     expire_ev := expire_ev q; results_ev := results_ev q;
     alive := alive q; nv := v; by_ttl := by_ttl q |}.

Definition set_by_ttl (v : gset Z) (q : dquery) : dquery :=
  {| node_id := node_id q; qid := qid q; flags := flags q; sh := sh q;
     muid := muid q; qhv := qhv q; queried := queried q; lmuid := lmuid q;
     query_flags := query_flags q; ttl := ttl q; horizon := horizon q;
     up_sent := up_sent q; last_status := last_status q;
     pending := pending q; max_results := max_results q;
     fin_results := fin_results q; oob_results := oob_results q;
     results := results q; linger_results := linger_results q;
     new_results := new_results q; kept_results := kept_results q;
     result_timeout := result_timeout q; stat_timeouts := stat_timeouts q;
     expire_ev := expire_ev q; results_ev := results_ev q;
     alive := alive q; nv := nv q; by_ttl := v |}.

(** [struct pmsg_info]. *)
Record pmsg_info := {
  pmi_node_id : Z;
  pmi_dq : Z;
  pmi_qid : Z;
  pmi_degree : Z;
  pmi_ttl : Z
}.

(** What the free routine asks of the message block it is given. *)
Record pmsg := {
  pmsg_is_extended : bool;
  pmsg_was_sent : bool
}.

(** The two callbacks dq.c registers in the callout queue. *)
Inductive callback := cb_dq_expired | cb_dq_results_expired.

(** A scheduled event: delay in ms, callback and its argument. *)
Record cevent := {
  ce_delay : Z;
  ce_fn : callback;
  ce_arg : Z
}.

(** General statistics counted by [dq_free]. *)
Inductive gnr_stat :=
  | GNR_DYN_QUERIES_COMPLETED_FULL
  | GNR_DYN_QUERIES_COMPLETED_PARTIAL
  | GNR_DYN_QUERIES_COMPLETED_ZERO
  | GNR_DYN_QUERIES_LINGER_EXTRA
  | GNR_DYN_QUERIES_LINGER_COMPLETED
  | GNR_DYN_QUERIES_LINGER_RESULTS.

(** Calls made to the other layers, in the order of the trace. *)
Inductive call :=
  | node_set_leaf_guidance (id : Z) (supported : bool)
  | vmsg_send_qstat_req (n : gnutella_node) (m : Z)
  | gmsg_mb_sendto_one (n : gnutella_node) (msg_ttl : Z) (pmi : Z)
  | gnet_stats_count_general (stat : gnr_stat).

(** The process-wide state of dq.c: the [dquery_t] and [pmsg_info] objects
    by address, the four tables, the callout queue, and the trace of calls
    made so far (most recent first). *)
Record dq_state := {
  mem : gmap Z dquery;
  pmi_mem : gmap Z pmsg_info;
  walloc_next : Z;
  dqueries : gset Z;
  by_node_id : gmap Z (list Z);
  by_muid : gmap Z Z;
  by_leaf_muid : gmap Z Z;
  callout_queue : gmap Z cevent;
  cq_next : Z;
  trace : list call
}.

Definition set_mem (v : gmap Z dquery) (s : dq_state) : dq_state :=
  {| mem := v; pmi_mem := pmi_mem s; walloc_next := walloc_next s;
     dqueries := dqueries s; by_node_id := by_node_id s;
     by_muid := by_muid s; by_leaf_muid := by_leaf_muid s;
     callout_queue := callout_queue s; cq_next := cq_next s;
     trace := trace s |}.

Definition set_pmi_mem (v : gmap Z pmsg_info) (nxt : Z) (s : dq_state) : dq_state :=
  {| mem := mem s; pmi_mem := v; walloc_next := nxt;
     dqueries := dqueries s; by_node_id := by_node_id s;
     by_muid := by_muid s; by_leaf_muid := by_leaf_muid s;
     callout_queue := callout_queue s; cq_next := cq_next s;
     trace := trace s |}.

Definition set_dqueries (v : gset Z) (s : dq_state) : dq_state :=
  {| mem := mem s; pmi_mem := pmi_mem s; walloc_next := walloc_next s;
     dqueries := v; by_node_id := by_node_id s;
     by_muid := by_muid s; by_leaf_muid := by_leaf_muid s;
     callout_queue := callout_queue s; cq_next := cq_next s;
     trace := trace s |}.

Definition set_by_node_id (v : gmap Z (list Z)) (s : dq_state) : dq_state :=
  {| mem := mem s; pmi_mem := pmi_mem s; walloc_next := walloc_next s;
     dqueries := dqueries s; by_node_id := v;
     by_muid := by_muid s; by_leaf_muid := by_leaf_muid s;
     callout_queue := callout_queue s; cq_next := cq_next s;
     trace := trace s |}.

Definition set_by_muid (v : gmap Z Z) (s : dq_state) : dq_state :=
  {| mem := mem s; pmi_mem := pmi_mem s; walloc_next := walloc_next s;
     dqueries := dqueries s; by_node_id := by_node_id s;
     by_muid := v; by_leaf_muid := by_leaf_muid s;
     callout_queue := callout_queue s; cq_next := cq_next s;
     trace := trace s |}.

Definition set_by_leaf_muid (v : gmap Z Z) (s : dq_state) : dq_state :=
  {| mem := mem s; pmi_mem := pmi_mem s; walloc_next := walloc_next s;
     dqueries := dqueries s; by_node_id := by_node_id s;
     by_muid := by_muid s; by_leaf_muid := v;
     callout_queue := callout_queue s; cq_next := cq_next s;
     trace := trace s |}.

Definition set_callout_queue (v : gmap Z cevent) (nxt : Z) (s : dq_state) : dq_state :=
  {| mem := mem s; pmi_mem := pmi_mem s; walloc_next := walloc_next s;
     dqueries := dqueries s; by_node_id := by_node_id s;
     by_muid := by_muid s; by_leaf_muid := by_leaf_muid s;
     callout_queue := v; cq_next := nxt;
     trace := trace s |}.

Definition set_trace (v : list call) (s : dq_state) : dq_state :=
  {| mem := mem s; pmi_mem := pmi_mem s; walloc_next := walloc_next s;
     dqueries := dqueries s; by_node_id := by_node_id s;
     by_muid := by_muid s; by_leaf_muid := by_leaf_muid s;
     callout_queue := callout_queue s; cq_next := cq_next s;
     trace := v |}.

(** ** The monad of dq.c routines: state passing, [None] on abort *)

Definition M (A : Type) : Type := dq_state -> option (A * dq_state).

Definition ret {A} (a : A) : M A := fun s => Some (a, s).

Definition bind {A B} (m : M A) (k : A -> M B) : M B :=
  fun s => match m s with
           | Some (a, s') => k a s'
           | None => None
           end.

Notation "'let*' x ':=' m 'in' k" := (bind m (fun x => k))
  (at level 10, x pattern, m at level 100, k at level 200).

(** [g_assert(b)]. *)
Definition g_assert (b : bool) : M unit :=
  fun s => if b then Some (tt, s) else None.

(** A pure computation that can abort. *)
Definition lift {A} (o : option A) : M A :=
  fun s => match o with Some a => Some (a, s) | None => None end.

(** Reading and writing the object [dq] points to. *)
Definition get_dq (dq : Z) : M dquery :=
  fun s => match mem s !! dq with Some q => Some (q, s) | None => None end.

Definition put_dq (dq : Z) (q : dquery) : M unit :=
  fun s => Some (tt, set_mem (<[dq := q]> (mem s)) s).

Definition get_pmi (p : Z) : M pmsg_info :=
  fun s => match pmi_mem s !! p with Some i => Some (i, s) | None => None end.

Definition the_state : M dq_state := fun s => Some (s, s).

Definition emit (c : call) : M unit :=
  fun s => Some (tt, set_trace (c :: trace s) s).

(** ** The callout queue (lib/cq.h) *)

(** Modelled from the spec: [cq_insert], the callout queue's
    [schedule(delay_ms, fn, arg)], which returns the handle of the new
    event. *)
Definition cq_insert (delay : Z) (fn : callback) (arg : Z) : M Z :=
  fun s =>
    let ev := cq_next s in
    Some (ev, set_callout_queue
                (<[ev := {| ce_delay := delay; ce_fn := fn; ce_arg := arg |}]>
                   (callout_queue s)) (ev + 1) s).

(** Modelled from the spec: [cq_resched], the callout queue's
    [reschedule(handle, delay_ms)] of an event that is still scheduled. *)
Definition cq_resched (ev : Z) (delay : Z) : M unit :=
  fun s =>
    match callout_queue s !! ev with
    | Some ce =>
        Some (tt, set_callout_queue
                    (<[ev := {| ce_delay := delay; ce_fn := ce_fn ce;
                                ce_arg := ce_arg ce |}]> (callout_queue s))
                    (cq_next s) s)
    | None => None
    end.

(** Modelled from the spec: [cq_cancel], the callout queue's
    [cancel(handle)]; a null handle is left alone.  The C routine also
    nulls the caller's handle, which the callers below do themselves. *)
Definition cq_cancel (ev : option Z) : M unit :=
  fun s =>
    match ev with
    | Some e => Some (tt, set_callout_queue (delete e (callout_queue s)) (cq_next s) s)
    | None => Some (tt, s)
    end.

(** ** The other layers *)

(** [gint] conversion of an unsigned value. *)
Definition s32 (x : Z) : Z := (x + 2 ^ 31) mod 2 ^ 32 - 2 ^ 31.

Definition INT_MAX : Z := 2 ^ 31 - 1.

(** What dq.c consults outside of its own file: properties, the node
    table, QRP, the local search store, the alive-ping statistics, the C
    library's [qsort] (applied with [node_mq_qrp_cmp]), and the constants
    of headers that are not part of this development. *)
Record env := {
  NODE_ID_SELF : Z;
  dq_debug : Z;
  current_peermode_ultra : bool;      (* current_peermode == NODE_P_ULTRA *)
  max_connections : Z;
  normal_connections : Z;
  node_all_nodes : list gnutella_node;
  node_active_by_id : Z -> option gnutella_node;
  qrp_node_can_route : gnutella_node -> Z -> bool;
  search_get_kept_results_by_handle : Z -> Z;
  alive_get_roundtrip_ms : Z -> Z * Z;
  qsort_next_up : list next_up -> list next_up;
  ST_FIREWALL : Z;
  ST_FW2FW : Z;
  QUERY_SPEED_FIREWALLED : Z;
  QUERY_SPEED_FW_TO_FW : Z
}.

(** ** The routines of dq.c *)

Section Routines.

Variable E : env.

(** [dq_kept_results]: the amount of results "kept" for the query. *)
Definition dq_kept_results (dq : Z) : M Z :=
  let* q := get_dq dq in
  if node_id q =? NODE_ID_SELF E then
    let k := search_get_kept_results_by_handle E (sh q) in
    let* _ := put_dq dq (upd F_kept_results k q) in
    ret k
  else
    ret (if has_flag (flags q) DQ_F_GOT_GUIDANCE
         then u32 (kept_results q / DQ_AVG_ULTRA_NODES + new_results q)
         else results q).

(** The three doubles of [dq_select_ttl], from the value [kept] returned
    by [dq_kept_results]. *)
Definition results_per_up (q : dquery) : B64.t :=
  B64.of_Z (results q / Z.max (horizon q) 1).

Definition hosts_to_reach (q : dquery) (kept : Z) : B64.t :=
  B64.div (B64.of_Z (u32 (max_results q - kept)))
          (B64.max (results_per_up q) (B64.literal 1 1000000)).

Definition hosts_to_reach_via_node (q : dquery) (kept connections : Z) : B64.t :=
  B64.div (hosts_to_reach q kept) (B64.of_Z connections).

(** The [for] loop of [dq_select_ttl], entered with [ttl = t]: the value
    of [ttl] when the loop is left (0 when no TTL was accepted). *)
Fixpoint select_ttl_loop (degree : Z) (target : B64.t) (t : nat) : option Z :=
  match t with
  | O => Some 0
  | S t' =>
      match dq_get_horizon degree (Z.of_nat t) with
      | Some h =>
          if B64.leb (B64.of_Z h) target then Some (Z.of_nat t)
          else select_ttl_loop degree target t'
      | None => None
      end
  end.

(** [dq_select_ttl]. *)
Definition dq_select_ttl (dq : Z) (node : gnutella_node) (connections : Z) : M Z :=
  let* _ := g_assert (0 <? connections) in
  let* kept := dq_kept_results dq in
  let* q := get_dq dq in
  let needed := u32 (max_results q - kept) in
  let* _ := g_assert (0 <? needed) in
  let start := Z.min (n_max_ttl node) (ttl q) in
  let* t := lift (select_ttl_loop (n_degree node)
                    (hosts_to_reach_via_node q kept connections)
                    (Z.to_nat start)) in
  let t := if t =? 0 then start else t in
  let* _ := g_assert (0 <? t) in
  ret t.

(** [dq_pmi_alloc]: the meta-information is allocated and the node is
    recorded as queried. *)
Definition dq_pmi_alloc (dq : Z) (degree t nid : Z) : M Z :=
  let* q := get_dq dq in
  let* s := the_state in
  let pmi := walloc_next s in
  let info := {| pmi_node_id := nid; pmi_dq := dq; pmi_qid := qid q;
                 pmi_degree := degree mod 2 ^ 16; pmi_ttl := t mod 2 ^ 8 |} in
  let* _ := (fun s => Some (tt, set_pmi_mem (<[pmi := info]> (pmi_mem s)) (pmi + 1) s)) in
  let* _ := put_dq dq (set_queried ({[nid]} ∪ queried q) q) in
  ret pmi.

(** [dq_pmi_free]. *)
Definition dq_pmi_free (pmi : Z) : M unit :=
  fun s => Some (tt, set_pmi_mem (delete pmi (pmi_mem s)) (walloc_next s) s).

(** [dq_alive]: the query is still in [dqueries] and bears the same ID. *)
Definition dq_alive (dq : Z) (id : Z) : M bool :=
  let* s := the_state in
  if negb (bool_decide (dq ∈ dqueries s)) then ret false
  else
    let* q := get_dq dq in
    ret (qid q =? id).

(** [dq_pmsg_free]: free routine for an extended message block. *)
Definition dq_pmsg_free (mb : pmsg) (arg : Z) : M unit :=
  let* pmi := get_pmi arg in
  let dq := pmi_dq pmi in
  let* _ := g_assert (pmsg_is_extended mb) in
  let* live := dq_alive dq (pmi_qid pmi) in
  let* _ :=
    if negb live then ret tt
    else
      let* q := get_dq dq in
      let* _ := g_assert (0 <? pending q) in
      let q := upd F_pending (u32 (pending q - 1)) q in
      let* _ := put_dq dq q in
      if negb (pmsg_was_sent mb) then
        let* _ := g_assert (bool_decide (pmi_node_id pmi ∈ queried q)) in
        let* _ := put_dq dq (set_queried (queried q ∖ {[pmi_node_id pmi]}) q) in
        match results_ev q with
        | Some ev => if pending q =? 0 then cq_resched ev 1 else ret tt
        | None => ret tt
        end
      else
        let* h := lift (dq_get_horizon (pmi_degree pmi) (pmi_ttl pmi)) in
        let q := upd F_horizon (u32 (horizon q + h)) q in
        put_dq dq (upd F_up_sent (u32 (up_sent q + 1)) q) in
  dq_pmi_free arg.

(** [dq_pmsg_by_ttl]: the copy for this TTL is made if it is not there. *)
Definition dq_pmsg_by_ttl (dq : Z) (t : Z) : M unit :=
  let* _ := g_assert ((0 <? t) && (t <=? DQ_MAX_TTL)) in
  let* q := get_dq dq in
  put_dq dq (set_by_ttl ({[t]} ∪ by_ttl q) q).

(** The test of [dq_fill_next_up] on a node of the node list. *)
Definition next_up_eligible (q : dquery) (n : gnutella_node) : bool :=
  n_is_ultra n && n_is_writable n
  && negb (n_received n =? 0)
  && negb (bool_decide (n_id n ∈ queried q))
  && negb (n_in_tx_flow_control n || (n_hops_flow n =? 0)).

(** The loop of [dq_fill_next_up] over the node list, with [room] free
    slots left in the vector; [old] maps node IDs to the entries of the
    previous vector. *)
Fixpoint fill_next_up (q : dquery) (old : gmap Z next_up)
    (nodes : list gnutella_node) (room : nat) : list next_up :=
  match nodes, room with
  | [], _ => []
  | _ :: _, O => []
  | n :: rest, S room' =>
      if next_up_eligible q n then
        {| nu_nid := n_id n; nu_node := n;
           nu_can_route := match old !! n_id n with
                           | Some o => nu_can_route o
                           | None => -1
                           end |} :: fill_next_up q old rest room'
      else fill_next_up q old rest room
  end.

(** [dq_fill_next_up]: the new vector is saved in [dq->nv]. *)
Definition dq_fill_next_up (dq : Z) (ncount : Z) : M (list next_up) :=
  let* q := get_dq dq in
  let old := foldl (fun m nup => <[nu_nid nup := nup]> m) ∅ (nv q) in
  let v := fill_next_up q old (node_all_nodes E) (Z.to_nat ncount) in
  let* _ := put_dq dq (set_nv v q) in
  ret v.

(** [g_slist_remove]: the first occurrence is removed. *)
Fixpoint g_slist_remove (l : list Z) (x : Z) : list Z :=
  match l with
  | [] => []
  | y :: l' => if y =? x then l' else y :: g_slist_remove l' x
  end.

(** [dq_free]: release the dynamic query object. *)
Definition dq_free (dq : Z) : M unit :=
  let* s := the_state in
  let* q := get_dq dq in
  let* _ := g_assert (bool_decide (dq ∈ dqueries s)) in
  let* _ := cq_cancel (results_ev q) in
  let* _ := cq_cancel (expire_ev q) in
  let* _ :=
    emit (gnet_stats_count_general
      (if (max_results q <=? results q)
          || has_flag (flags q) (Z.lor DQ_F_USR_CANCELLED DQ_F_ID_CLEANING)
          || (max_results q <=?
                kept_results q / (if node_id q =? NODE_ID_SELF E then 1
                                  else DQ_AVG_ULTRA_NODES))
       then GNR_DYN_QUERIES_COMPLETED_FULL
       else if 0 <? results q then GNR_DYN_QUERIES_COMPLETED_PARTIAL
       else GNR_DYN_QUERIES_COMPLETED_ZERO)) in
  let* _ :=
    if linger_results q =? 0 then ret tt
    else emit (gnet_stats_count_general
      (if max_results q <=? results q then GNR_DYN_QUERIES_LINGER_EXTRA
       else if u32 (max_results q - results q) <=? linger_results q
            then GNR_DYN_QUERIES_LINGER_COMPLETED
       else GNR_DYN_QUERIES_LINGER_RESULTS)) in
  let* _ :=
    if has_flag (flags q) DQ_F_EXITING then ret tt
    else fun s => Some (tt, set_dqueries (dqueries s ∖ {[dq]}) s) in
  let* _ :=
    if negb (node_id q =? NODE_ID_SELF E)
       && negb (has_flag (flags q) DQ_F_ID_CLEANING) then
      let* _ := g_assert (negb (has_flag (flags q) DQ_F_REMOVED)) in
      let* s := the_state in
      match by_node_id s !! node_id q with
      | None => g_assert false                                  (* g_error *)
      | Some l =>
          match g_slist_remove l dq with
          | [] => fun s => Some (tt, set_by_node_id (delete (node_id q) (by_node_id s)) s)
          | l' => fun s => Some (tt, set_by_node_id (<[node_id q := l']> (by_node_id s)) s)
          end
      end
    else ret tt in
  let* s := the_state in
  let* _ :=
    match by_muid s !! muid q with
    | Some v =>
        if v =? dq then fun s => Some (tt, set_by_muid (delete (muid q) (by_muid s)) s)
        else ret tt
    | None => ret tt
    end in
  let* s := the_state in
  let* _ :=
    match lmuid q with
    | Some l =>
        match by_leaf_muid s !! l with
        | Some v =>
            if v =? dq then
              fun s => Some (tt, set_by_leaf_muid (delete l (by_leaf_muid s)) s)
            else ret tt
        | None => ret tt
        end
    | None => ret tt
    end in
  fun s => Some (tt, set_mem (delete dq (mem s)) s).

(** [dq_terminate]: terminate active querying, start lingering. *)
Definition dq_terminate (dq : Z) : M unit :=
  let* q := get_dq dq in
  let* _ := g_assert (negb (has_flag (flags q) DQ_F_LINGER)) in
  let* _ := g_assert (bool_decide (results_ev q = None)) in
  let delay := if has_flag (flags q) DQ_F_USR_CANCELLED then 1
               else DQ_LINGER_TIMEOUT in
  let* _ :=
    match expire_ev q with
    | Some ev => cq_resched ev delay
    | None =>
        let* ev := cq_insert delay cb_dq_expired dq in
        put_dq dq (set_expire_ev (Some ev) q)
    end in
  let* q := get_dq dq in
  let q := upd F_flags (clear_flag (flags q) DQ_F_WAITING) q in
  put_dq dq (upd F_flags (set_flag (flags q) DQ_F_LINGER) q).

(** [dq_expired]: callout queue callback, the dynamic query has expired. *)
Definition dq_expired (dq : Z) : M unit :=
  let* q := get_dq dq in
  let* _ := put_dq dq (set_expire_ev None q) in
  if has_flag (flags q) DQ_F_LINGER then dq_free dq
  else
    let* q := get_dq dq in
    let* _ := cq_cancel (results_ev q) in
    let* _ := put_dq dq (set_results_ev None q) in
    dq_terminate dq.

(** [dq_send_query]: send the query to node [n] at the supplied TTL. *)
Definition dq_send_query (dq : Z) (n : gnutella_node) (t : Z) : M unit :=
  let* q := get_dq dq in
  let* _ := g_assert (negb (bool_decide (n_id n ∈ queried q))) in
  let* _ := g_assert (n_is_writable n) in
  let* pmi := dq_pmi_alloc dq (n_degree n) (Z.min (n_max_ttl n) t) (n_id n) in
  let* info := get_pmi pmi in
  let* _ := dq_pmsg_by_ttl dq (pmi_ttl info) in
  let* q := get_dq dq in
  let* _ := put_dq dq (upd F_pending (u32 (pending q + 1)) q) in
  emit (gmsg_mb_sendto_one n (pmi_ttl info) pmi).

(** The selection loop of [dq_send_next] over the sorted vector: whether
    the query was sent to one of the nodes. *)
Fixpoint send_next_loop (dq : Z) (v : list next_up) (found : Z) : M bool :=
  match v with
  | [] => ret false
  | c :: rest =>
      let node := nu_node c in
      let* t := dq_select_ttl dq node found in
      let* q := get_dq dq in
      if (t =? 1) && n_up_qrp node && negb (qrp_node_can_route E node (qhv q))
      then send_next_loop dq rest found
      else
        let* _ := dq_send_query dq node t in
        ret true
  end.

(** The amount of UPs we configured to query at most. *)
Definition up_bound : Z := u32 (max_connections E - normal_connections E).

(** The second half of [dq_send_next], reached when none of its tests
    ended the step: select one UP among those not queried yet, send it
    the query and install the watchdog.  [res] is the value of the local
    variable [results]. *)
Definition dq_send_next_select (dq : Z) (res : Z) : M unit :=
  let ncount := s32 (max_connections E) in
  let* v := dq_fill_next_up dq ncount in
  let found := Z.of_nat (length v) in
  if found =? 0 then dq_terminate dq else
  let sorted := qsort_next_up E v in
  let* q := get_dq dq in
  let* _ := put_dq dq (set_nv sorted q) in
  let* sent := send_next_loop dq sorted found in
  if negb sent then dq_terminate dq else
  let* q := get_dq dq in
  let* _ :=
    if (DQ_MIN_HORIZON <? horizon q)
       && (res <? u32 (DQ_LOW_RESULTS * horizon q) / DQ_MIN_HORIZON) then
      let rt := u32 (result_timeout q - DQ_TIMEOUT_ADJUST) in
      put_dq dq (upd F_result_timeout (Z.max DQ_MIN_TIMEOUT rt) q)
    else ret tt in
  let* q := get_dq dq in
  let timeout :=
    if 1 <? pending q
    then s32 (u32 (result_timeout q + u32 ((pending q - 1) * DQ_PENDING_TIMEOUT)))
    else s32 (result_timeout q) in
  let* ev := cq_insert timeout cb_dq_results_expired dq in
  put_dq dq (set_results_ev (Some ev) q).

(** [dq_send_next]: terminate the query, wait for the pending messages,
    or go on with the next UP. *)
Definition dq_send_next (dq : Z) : M unit :=
  let* q := get_dq dq in
  let* _ := g_assert (bool_decide (results_ev q = None)) in
  if negb (current_peermode_ultra E) then dq_terminate dq else
  let* res := dq_kept_results dq in
  let* q := get_dq dq in
  if (DQ_MAX_HORIZON <=? horizon q) || (max_results q <=? res) then dq_terminate dq else
  if fin_results q <? u32 (results q + oob_results q) then dq_terminate dq else
  if up_bound <=? up_sent q then dq_terminate dq else
  if DQ_MAX_PENDING <=? pending q then
    let* ev := cq_insert (result_timeout q) cb_dq_results_expired dq in
    put_dq dq (set_results_ev (Some ev) q)
  else dq_send_next_select dq res.

(** [dq_results_expired]: callout queue callback, the result timer has
    expired. *)
Definition dq_results_expired (dq : Z) : M unit :=
  let* q := get_dq dq in
  let* _ := g_assert (negb (has_flag (flags q) DQ_F_LINGER)) in
  let q := set_results_ev None q in
  let* _ := put_dq dq q in
  let was_waiting := has_flag (flags q) DQ_F_WAITING in
  let* _ :=
    if was_waiting then
      let q := upd F_stat_timeouts (u32 (stat_timeouts q + 1)) q in
      let q := upd F_flags (clear_flag (flags q) DQ_F_WAITING) q in
      if negb (has_flag (flags q) DQ_F_GOT_GUIDANCE)
         && (DQ_MAX_STAT_TIMEOUT <=? stat_timeouts q) then
        let* _ := put_dq dq (upd F_flags (clear_flag (flags q) DQ_F_LEAF_GUIDED) q) in
        emit (node_set_leaf_guidance (node_id q) false)
      else put_dq dq q
    else ret tt in
  let* q := get_dq dq in
  if negb (has_flag (flags q) (Z.lor DQ_F_LEAF_GUIDED DQ_F_ROUTING_HITS)) then
    dq_terminate dq
  else if was_waiting
          || negb (has_flag (flags q) DQ_F_LEAF_GUIDED)
          || (u32 (up_sent q - last_status q) <? DQ_STAT_THRESHOLD)
          || (has_flag (flags q) DQ_F_ROUTING_HITS
              && (new_results q <? DQ_MIN_FOR_GUIDANCE)) then
    dq_send_next dq
  else
    let* _ := g_assert (negb (node_id q =? NODE_ID_SELF E)) in
    match alive q with
    | None => g_assert false
    | Some pings =>
        match node_active_by_id E (node_id q) with
        | None => dq_free dq
        | Some n =>
            let q := upd F_flags (set_flag (flags q) DQ_F_WAITING) q in
            let* _ := put_dq dq q in
            let* _ := emit (vmsg_send_qstat_req n
                              (match lmuid q with Some l => l | None => muid q end)) in
            let (avg, last) := alive_get_roundtrip_ms E pings in
            let timeout := s32 (u32 (avg + last) / 2000) in
            let timeout := Z.max timeout DQ_STATUS_TIMEOUT in
            let* ev := cq_insert timeout cb_dq_results_expired dq in
            put_dq dq (set_results_ev (Some ev) q)
        end
    end.

(** The firewall test of [dq_count_results]: results that would be
    useless to the requester. *)
Definition firewalled_useless (q : dquery) (status : Z) : bool :=
  (has_flag status (ST_FIREWALL E)
   && (Z.land (query_flags q)
              (Z.lor (QUERY_SPEED_FIREWALLED E) (QUERY_SPEED_FW_TO_FW E))
       =? QUERY_SPEED_FIREWALLED E))
  || ((Z.land status (Z.lor (ST_FIREWALL E) (ST_FW2FW E)) =? ST_FIREWALL E)
      && has_flag (query_flags q) (QUERY_SPEED_FIREWALLED E)).

(** [dq_count_results]: common code to count the results.  Returns
    [false] when the results should not be forwarded. *)
Definition dq_count_results (m : Z) (count : Z) (status : Z) (oob : bool) : M bool :=
  let* _ := g_assert (0 <? count) in
  let* s := the_state in
  match by_muid s !! m with
  | None => ret true
  | Some dq =>
      let* q := get_dq dq in
      if negb oob && firewalled_useless q status then ret false
      else
        let* _ :=
          if has_flag (flags q) DQ_F_LINGER then
            put_dq dq (upd F_linger_results (u32 (linger_results q + count)) q)
          else if oob then
            put_dq dq (upd F_oob_results (u32 (oob_results q + count)) q)
          else
            let q := upd F_results (u32 (results q + count)) q in
            put_dq dq (upd F_new_results (u32 (new_results q + count)) q) in
        let* q := get_dq dq in
        let* _ :=
          if (19 <? dq_debug E) && (node_id q =? NODE_ID_SELF E) then
            put_dq dq (upd F_kept_results
                         (search_get_kept_results_by_handle E (sh q)) q)
          else ret tt in
        ret (negb (has_flag (flags q) DQ_F_USR_CANCELLED))
  end.

(** [dq_got_results]: a query hit was parsed; whether to forward it. *)
Definition dq_got_results (m : Z) (count : Z) (status : Z) : M bool :=
  dq_count_results m (s32 count) (status mod 2 ^ 16) false.

(** [dq_oob_results_ind]: unclaimed OOB hits were announced; whether to
    claim them. *)
Definition dq_oob_results_ind (m : Z) (count : Z) : M bool :=
  dq_count_results m count 0 true.

(** [dq_oob_results_got]: OOB results were received, undo the accounting
    made by [dq_oob_results_ind]. *)
Definition dq_oob_results_got (m : Z) (count : Z) : M unit :=
  let* _ := g_assert ((0 <? count) && (count <=? INT_MAX)) in
  let* s := the_state in
  match by_muid s !! m with
  | None => ret tt
  | Some dq =>
      let* q := get_dq dq in
      if count <? oob_results q then
        put_dq dq (upd F_oob_results (u32 (oob_results q - count)) q)
      else
        put_dq dq (upd F_oob_results 0 q)
  end.

(** [dq_got_query_status]: a "Query Status Response" from the querying
    node tells how many results it kept; 0xffff asks to stop. *)
Definition dq_got_query_status (m : Z) (nid : Z) (kept : Z) : M unit :=
  let* s := the_state in
  match (match by_muid s !! m with
         | Some dq => Some dq
         | None => by_leaf_muid s !! m
         end) with
  | None => ret tt
  | Some dq =>
      let* q := get_dq dq in
      if negb (node_id q =? nid) then ret tt
      else
        let q := upd F_kept_results kept q in
        let q := upd F_flags (set_flag (flags q) DQ_F_GOT_GUIDANCE) q in
        let q := upd F_last_status (up_sent q) q in
        let q := upd F_new_results 0 q in
        let* _ := put_dq dq q in
        let* _ :=
          if negb (has_flag (flags q) DQ_F_WAITING)
             && negb (has_flag (flags q) DQ_F_LEAF_GUIDED) then
            let* _ := emit (node_set_leaf_guidance nid true) in
            put_dq dq (upd F_flags (set_flag (flags q) DQ_F_LEAF_GUIDED) q)
          else ret tt in
        let* q := get_dq dq in
        if kept =? 65535 then
          let q := upd F_flags (set_flag (flags q) DQ_F_USR_CANCELLED) q in
          let* _ := put_dq dq q in
          if negb (has_flag (flags q) DQ_F_LINGER) then
            let* _ := cq_cancel (results_ev q) in
            let* _ := put_dq dq (set_results_ev None q) in
            dq_terminate dq
          else ret tt
        else if has_flag (flags q) DQ_F_WAITING then
          let* _ := g_assert (negb (bool_decide (results_ev q = None))) in
          let* _ := cq_cancel (results_ev q) in
          let q := set_results_ev None q in
          let* _ := put_dq dq (upd F_flags (clear_flag (flags q) DQ_F_WAITING) q) in
          dq_send_next dq
        else ret tt
  end.

(** [dq_get_results_wanted]: [None] is the FALSE return (no such query),
    [Some n] the TRUE return with [*wanted = n]. *)
Definition dq_get_results_wanted (m : Z) : M (option Z) :=
  let* s := the_state in
  match by_muid s !! m with
  | None => ret None
  | Some dq =>
      let* q := get_dq dq in
      if has_flag (flags q) DQ_F_USR_CANCELLED then ret (Some 0)
      else
        let* kept := dq_kept_results dq in
        let* q := get_dq dq in
        if kept <? max_results q then ret (Some (u32 (max_results q - kept)))
        else if has_flag (flags q) DQ_F_GOT_GUIDANCE
                && (kept_results q <? fin_results q) then ret (Some 1)
        else ret (Some 0)
  end.

End Routines.

(** ** Derived readings of a query *)

Section Readings.

Variable E : env.

(** The value [dq_kept_results] returns for the query [q]: the kept-results
    estimate. *)
Definition kept_estimate (q : dquery) : Z :=
  if node_id q =? NODE_ID_SELF E then search_get_kept_results_by_handle E (sh q)
  else if has_flag (flags q) DQ_F_GOT_GUIDANCE
       then u32 (kept_results q / DQ_AVG_ULTRA_NODES + new_results q)
       else results q.

(** The query as [dq_kept_results] leaves it: for a local query the
    [kept_results] field is refreshed from the search. *)
Definition kept_refreshed (q : dquery) : dquery :=
  if node_id q =? NODE_ID_SELF E
  then upd F_kept_results (search_get_kept_results_by_handle E (sh q)) q
  else q.

(** A sequence of query hits (count, status) for the MUID [m], handed to
    [dq_got_results] one after the other: the answers, in order. *)
Fixpoint dq_got_results_all (m : Z) (hits : list (Z * Z)) : M (list bool) :=
  match hits with
  | [] => ret []
  | (count, status) :: rest =>
      let* fwd := dq_got_results E m count status in
      let* others := dq_got_results_all m rest in
      ret (fwd :: others)
  end.

End Readings.

(** [results_wanted] in the words of the specification, [kept] being the
    quantity its "kept_results" stands for. *)
Definition spec_results_wanted (q : dquery) (kept : Z) : Z :=
  if has_flag (flags q) DQ_F_USR_CANCELLED then 0
  else if kept <? max_results q then max_results q - kept
  else if has_flag (flags q) DQ_F_GOT_GUIDANCE && (kept <? fin_results q) then 1
  else 0.

(** ** The tests of [dq_send_next] *)

Section Tests.

Variable E : env.

(** The state in which [dq_send_next] takes its decision: the query has
    been refreshed by [dq_kept_results]. *)
Definition refreshed (s : dq_state) (dq : Z) (q : dquery) : dq_state :=
  set_mem (<[dq := kept_refreshed E q]> (mem s)) s.

(** One of the four tests that follow the peer mode test succeeds. *)
Definition stop_test (q : dquery) : Prop :=
  DQ_MAX_HORIZON <= horizon q
  \/ max_results q <= kept_estimate E q
  \/ fin_results q < u32 (results q + oob_results q)
  \/ up_bound E <= up_sent q.

(** The same four conditions in the words of the specification. *)
Definition spec_stop_test (q : dquery) : Prop :=
  500000 <= horizon q
  \/ max_results q <= kept_estimate E q
  \/ fin_results q <= results q + oob_results q
  \/ up_bound E <= up_sent q.

(** The step that waits: the results event is armed for [result_timeout]
    and nothing else is done. *)
Definition wait_for_pending (dq : Z) (q : dquery) : M unit :=
  let* ev := cq_insert (result_timeout q) cb_dq_results_expired dq in
  put_dq dq (set_results_ev (Some ev) q).

End Tests.

(** ** TTL selection *)

(** [horizon(degree, t)] does not exceed [target]. *)
Definition ttl_fits (degree : Z) (target : B64.t) (t : Z) : bool :=
  match dq_get_horizon degree t with
  | Some h => B64.leb (B64.of_Z h) target
  | None => false
  end.

(** The selection in the words of the specification: the smallest TTL
    from [t] up to [t + n - 1] that fits, 0 when there is none. *)
Fixpoint smallest_fitting (degree : Z) (target : B64.t) (t : Z) (n : nat) : Z :=
  match n with
  | O => 0
  | S n' => if ttl_fits degree target t then t
            else smallest_fitting degree target (t + 1) n'
  end.

Definition spec_select_ttl (degree : Z) (target : B64.t) (limit : Z) : Z :=
  let t := smallest_fitting degree target 1 (Z.to_nat limit) in
  if t =? 0 then limit else t.

(** The query that [dq_got_query_status] finds for a MUID: by wire MUID
    first, then by leaf MUID. *)
Definition status_query (s : dq_state) (m : Z) : option Z :=
  match by_muid s !! m with
  | Some dq => Some dq
  | None => by_leaf_muid s !! m
  end.

(** ** The formulas of the specification, for comparison *)

(** Sum of [b^i] for [0 <= i < t]. *)
Definition geometric_sum (b t : Z) : Z :=
  foldr Z.add 0 (map (fun i => b ^ i) (seqZ 0 t)).

(** Floor of [0.80^(t-1) * s], the fuzzy factor being 4/5. *)
Definition fuzzy_floor (s t : Z) : Z := (4 ^ (t - 1) * s) / 5 ^ (t - 1).

(** The horizon in the words of the specification: the powers of the
    degree are summed, both arguments being clamped to the table. *)
Definition spec_horizon (degree ttl : Z) : Z :=
  let d := Z.min degree MAX_DEGREE in
  let t := Z.min ttl MAX_TTL in
  fuzzy_floor (geometric_sum d t) t.

(** The horizon of the comments of dq.c: the powers of [degree - 1] are
    summed. *)
Definition tree_horizon (degree ttl : Z) : Z :=
  let d := Z.min degree MAX_DEGREE in
  let t := Z.min ttl MAX_TTL in
  fuzzy_floor (geometric_sum (d - 1) t) t.

(** Decidable comparisons on the horizon table, used to check it entry
    by entry. *)
Definition horizon_is (f : Z -> Z -> Z) (d t : Z) : bool :=
  match dq_get_horizon d t with
  | Some h => h =? f d t
  | None => false
  end.

Definition horizon_leb (d t d' t' : Z) : bool :=
  match dq_get_horizon d t, dq_get_horizon d' t' with
  | Some a, Some b => a <=? b
  | _, _ => false
  end.

(** [horizon(d, t) <= horizon(d', t')], both being defined. *)
Definition horizon_le (d t d' t' : Z) : Prop :=
  exists a b, dq_get_horizon d t = Some a /\ dq_get_horizon d' t' = Some b /\ a <= b.

(** ** Predicates used in the statements *)

(** [cq'] is [cq] with the event [ev] rescheduled to fire in [delay] ms,
    its callback and argument being kept. *)
Definition rescheduled (cq cq' : gmap Z cevent) (ev delay : Z) : Prop :=
  exists ce, cq !! ev = Some ce
    /\ cq' = <[ev := {| ce_delay := delay; ce_fn := ce_fn ce; ce_arg := ce_arg ce |}]> cq.

(** Everything but the [pmsg_info] store is the same in [s] and [s']. *)
Definition same_queries (s s' : dq_state) : Prop :=
  mem s' = mem s /\ dqueries s' = dqueries s
  /\ by_node_id s' = by_node_id s /\ by_muid s' = by_muid s
  /\ by_leaf_muid s' = by_leaf_muid s
  /\ callout_queue s' = callout_queue s /\ cq_next s' = cq_next s
  /\ trace s' = trace s.

(** ** A concrete scenario *)

(** A query of leaf 7, registered under MUID 100 at address 1000, with
    one message in flight to node 12 (metadata at address 2000), the
    expiration event 1 and the results event 2 being scheduled. *)
Definition q0 : dquery :=
  {| node_id := 7; qid := 3; flags := DQ_F_ROUTING_HITS; sh := 0; muid := 100;
     qhv := 0; queried := {[ 11; 12 ]}; lmuid := None; query_flags := 0;
     ttl := 4; horizon := 10; up_sent := 1; last_status := 0; pending := 1;
     max_results := 50; fin_results := 1000; oob_results := 0; results := 5;
     linger_results := 0; new_results := 5; kept_results := 0;
     result_timeout := 3700; stat_timeouts := 0; expire_ev := Some 1;
     results_ev := Some 2; alive := Some 1; nv := []; by_ttl := {[ 2 ]} |}.

Definition pmi0 : pmsg_info :=
  {| pmi_node_id := 12; pmi_dq := 1000; pmi_qid := 3; pmi_degree := 6;
     pmi_ttl := 2 |}.

Definition s0 : dq_state :=
  {| mem := {[ 1000 := q0 ]};
     pmi_mem := {[ 2000 := pmi0 ]};
     walloc_next := 3000;
     dqueries := {[ 1000 ]};
     by_node_id := {[ 7 := [1000] ]};
     by_muid := {[ 100 := 1000 ]};
     by_leaf_muid := ∅;
     callout_queue :=
       {[ 1 := {| ce_delay := 600000; ce_fn := cb_dq_expired; ce_arg := 1000 |};
          2 := {| ce_delay := 3700; ce_fn := cb_dq_results_expired; ce_arg := 1000 |} ]};
     cq_next := 3;
     trace := [] |}.

(** The same metadata, captured for an earlier query that lived at the
    same address. *)
Definition pmi_ghost : pmsg_info :=
  {| pmi_node_id := 12; pmi_dq := 1000; pmi_qid := 2; pmi_degree := 6;
     pmi_ttl := 2 |}.

Definition s_ghost : dq_state := set_pmi_mem {[ 2000 := pmi_ghost ]} 3000 s0.

Definition mb_sent : pmsg := {| pmsg_is_extended := true; pmsg_was_sent := true |}.
Definition mb_dropped : pmsg := {| pmsg_is_extended := true; pmsg_was_sent := false |}.

(** The surroundings of the scenario: an ultrapeer with room for 32
    ultra connections, whose leaf 7 answers alive pings in 100 s. *)
Definition node7 : gnutella_node :=
  {| n_id := 7; n_is_ultra := false; n_is_writable := true; n_received := 1;
     n_in_tx_flow_control := false; n_hops_flow := 1; n_degree := 1;
     n_max_ttl := 1; n_up_qrp := false |}.

Definition E0 : env :=
  {| NODE_ID_SELF := 0; dq_debug := 0; current_peermode_ultra := true;
     max_connections := 40; normal_connections := 8;
     node_all_nodes := [node7];
     node_active_by_id := fun id => if id =? 7 then Some node7 else None;
     qrp_node_can_route := fun _ _ => true;
     search_get_kept_results_by_handle := fun _ => 0;
     alive_get_roundtrip_ms := fun _ => (100000, 100000);
     qsort_next_up := fun v => v;
     ST_FIREWALL := 1; ST_FW2FW := 2;
     QUERY_SPEED_FIREWALLED := 64; QUERY_SPEED_FW_TO_FW := 2 |}.

(** The query of the scenario once the leaf has reported 1200 kept
    results. *)
Definition q_guided : dquery :=
  upd F_kept_results 1200
    (upd F_new_results 0
       (upd F_flags (Z.lor DQ_F_LEAF_GUIDED DQ_F_GOT_GUIDANCE) q0)).

Definition s_guided : dq_state := set_mem {[ 1000 := q_guided ]} s0.

(** The query of the scenario while lingering, 5 announced OOB results
    being unclaimed. *)
Definition q_linger : dquery :=
  set_results_ev None
    (upd F_oob_results 5
       (upd F_pending 0
          (upd F_flags (Z.lor DQ_F_ROUTING_HITS DQ_F_LINGER) q0))).

Definition s_linger : dq_state :=
  set_callout_queue
    {[ 1 := {| ce_delay := 180000; ce_fn := cb_dq_expired; ce_arg := 1000 |} ]} 3
    (set_pmi_mem ∅ 3000 (set_mem {[ 1000 := q_linger ]} s0)).

(** The guided query of the scenario when its results timer fires with
    three messages pending: the leaf has reported no kept result, and the
    results seen are exactly [fin_results]. *)
Definition q_fin : dquery :=
  set_results_ev None
    (upd F_pending 3
       (upd F_up_sent 3
          (upd F_results 1000
             (upd F_new_results 0
                (upd F_flags (Z.lor DQ_F_LEAF_GUIDED DQ_F_GOT_GUIDANCE) q0))))).

Definition s_fin : dq_state :=
  set_callout_queue
    {[ 1 := {| ce_delay := 600000; ce_fn := cb_dq_expired; ce_arg := 1000 |} ]} 3
    (set_mem {[ 1000 := q_fin ]} s0).

(** The same with one more result seen. *)
Definition s_fin_more : dq_state :=
  set_mem {[ 1000 := upd F_results 1001 q_fin ]} s_fin.

(** The leaf-guided query of the scenario when its results timer fires
    after three UPs were queried: time to ask the leaf for guidance. *)
Definition q_ask : dquery :=
  upd F_pending 0
    (upd F_up_sent 3
       (upd F_flags DQ_F_LEAF_GUIDED q0)).

Definition s_ask : dq_state :=
  set_callout_queue
    {[ 1 := {| ce_delay := 600000; ce_fn := cb_dq_expired; ce_arg := 1000 |} ]} 3
    (set_pmi_mem ∅ 3000 (set_mem {[ 1000 := q_ask ]} s0)).

(** The query of the scenario with 20 results for a horizon of 10, and a
    candidate UP of degree 6 accepting a TTL of 4. *)
Definition q_sel : dquery := upd F_results 20 q0.

Definition s_sel : dq_state := set_mem {[ 1000 := q_sel ]} s0.

Definition node6 : gnutella_node :=
  {| n_id := 13; n_is_ultra := true; n_is_writable := true; n_received := 1;
     n_in_tx_flow_control := false; n_hops_flow := 1; n_degree := 6;
     n_max_ttl := 4; n_up_qrp := true |}.

(** ** More routines of dq.c *)

(** Not modelled: the launchers [dq_launch_net] and [dq_launch_local],
    which fill the record from the bytes of the query message before
    they call [dq_common_init] and [dq_send_probe]; [dq_sendto_leaves],
    [dq_init] and [dq_close], which call the other layers or set up and
    tear down the tables; and the comparison routines [node_mq_cmp] and
    [node_mq_qrp_cmp], which read queue sizes the model does not keep.
    The routines below take the filled record, and the sorted vector, as
    given. *)

Definition DQ_PROBE_UP : Z := 3.

(** [dq->qid = v]. *)
Definition set_qid (v : Z) (q : dquery) : dquery :=
  {| node_id := node_id q; qid := v; flags := flags q; sh := sh q;
     muid := muid q; qhv := qhv q; queried := queried q; lmuid := lmuid q;
     query_flags := query_flags q; ttl := ttl q; horizon := horizon q;
     up_sent := up_sent q; last_status := last_status q;
     pending := pending q; max_results := max_results q;
     fin_results := fin_results q; oob_results := oob_results q;
     results := results q; linger_results := linger_results q;
     new_results := new_results q; kept_results := kept_results q;
     result_timeout := result_timeout q; stat_timeouts := stat_timeouts q;
     expire_ev := expire_ev q; results_ev := results_ev q;
     alive := alive q; nv := nv q; by_ttl := by_ttl q |}.

Section MoreRoutines.

Variable E : env.

(** The C library's [qsort] applied with [node_mq_cmp] to the probe
    vector: the order it leaves depends on the queue sizes of the nodes. *)
Variable qsort_node_mq : list gnutella_node -> list gnutella_node.

(** The tests of [dq_fill_probe_up] on a node of the node list, up to the
    QRP test. *)
Definition probe_eligible (q : dquery) (n : gnutella_node) : bool :=
  n_is_ultra n
  && negb (n_received n =? 0)
  && negb (n_in_tx_flow_control n || (n_hops_flow n =? 0))
  && qrp_node_can_route E n (qhv q).

(** The loop of [dq_fill_probe_up], with [room] free slots left; [None]
    when a selected node turns out not to be writable (the assertion). *)
Fixpoint fill_probe_up (q : dquery) (nodes : list gnutella_node) (room : nat)
    : option (list gnutella_node) :=
  match nodes, room with
  | [], _ => Some []
  | _ :: _, O => Some []
  | n :: rest, S room' =>
      if probe_eligible q n then
        if n_is_writable n then
          match fill_probe_up q rest room' with
          | Some v => Some (n :: v)
          | None => None
          end
        else None
      else fill_probe_up q rest room
  end.

(** [dq_fill_probe_up]. *)
Definition dq_fill_probe_up (dq : Z) (ncount : Z) : M (list gnutella_node) :=
  let* q := get_dq dq in
  lift (fill_probe_up q (node_all_nodes E) (Z.to_nat ncount)).

(** The sending loop of [dq_send_probe] over the first nodes of the
    sorted vector. *)
Fixpoint send_probe_loop (dq : Z) (v : list gnutella_node) (t : Z) : M unit :=
  match v with
  | [] => ret tt
  | n :: rest =>
      let* _ := dq_send_query dq n t in
      send_probe_loop dq rest t
  end.

(** The TTL of the probe: that of the query, lowered when many UPs hold
    matching content. *)
Definition probe_ttl (t found : Z) : Z :=
  let t := if 6 * DQ_PROBE_UP <? found then t - 1 else t in
  let t := if 3 * DQ_PROBE_UP <? found then t - 1 else t in
  Z.max t 1.

(** [dq_send_probe]: initial querying, up to [DQ_PROBE_UP] queries. *)
Definition dq_send_probe (dq : Z) : M unit :=
  let ncount := s32 (max_connections E) in
  let* q := get_dq dq in
  let* _ := g_assert (bool_decide (results_ev q = None)) in
  let* v := dq_fill_probe_up dq ncount in
  let found := Z.of_nat (length v) in
  if found =? 0 then dq_send_next E dq else
  let t := probe_ttl (ttl q) found in
  let sorted := qsort_node_mq v in
  let* _ := send_probe_loop dq (take (Z.to_nat DQ_PROBE_UP) sorted) t in
  let* q := get_dq dq in
  let* ev := cq_insert
               (u32 (Z.min found DQ_PROBE_UP
                     * u32 (DQ_PROBE_TIMEOUT + result_timeout q)))
               cb_dq_results_expired dq in
  put_dq dq (set_results_ev (Some ev) q).

(** [dq_common_init]: common initialization of a query whose record the
    launcher has filled at address [dq].  The static counter
    [dyn_query_id] is passed in, and its new value is returned. *)
Definition dq_common_init (dyn_query_id : Z) (dq : Z) : M Z :=
  let* q := get_dq dq in
  let q := set_qid dyn_query_id q in
  let q := set_queried ∅ q in
  let q := upd F_result_timeout DQ_QUERY_TIMEOUT q in
  let* ev := cq_insert DQ_MAX_LIFETIME cb_dq_expired dq in
  let q := set_expire_ev (Some ev) q in
  let* _ := put_dq dq q in
  let* _ := (fun s => Some (tt, set_dqueries ({[dq]} ∪ dqueries s) s)) in
  let* _ :=
    if negb (node_id q =? NODE_ID_SELF E) then
      fun s =>
        match by_node_id s !! node_id q with
        | Some [] => None                          (* no head to insert after *)
        | Some (head :: rest) =>
            Some (tt, set_by_node_id
                        (<[node_id q := head :: dq :: rest]> (by_node_id s)) s)
        | None =>
            Some (tt, set_by_node_id (<[node_id q := [dq]]> (by_node_id s)) s)
        end
    else ret tt in
  let* _ :=
    fun s =>
      match by_muid s !! muid q with
      | Some _ => Some (tt, s)                     (* conflicting MUID, ignored *)
      | None => Some (tt, set_by_muid (<[muid q := dq]> (by_muid s)) s)
      end in
  let* _ :=
    match lmuid q with
    | Some l =>
        fun s =>
          match by_leaf_muid s !! l with
          | Some _ => Some (tt, s)                 (* conflicting leaf MUID *)
          | None => Some (tt, set_by_leaf_muid (<[l := dq]> (by_leaf_muid s)) s)
          end
    | None => ret tt
    end in
  ret (u32 (dyn_query_id + 1)).

(** The loop of [dq_node_removed] over the queries of the node: each is
    flagged so that [dq_free] leaves [by_node_id] alone, and freed. *)
Fixpoint free_cleaning (l : list Z) : M unit :=
  match l with
  | [] => ret tt
  | dq :: rest =>
      let* q := get_dq dq in
      let* _ := put_dq dq (upd F_flags (set_flag (flags q) DQ_F_ID_CLEANING) q) in
      let* _ := dq_free E dq in
      free_cleaning rest
  end.

(** [dq_node_removed]: get rid of all the queries registered for a node. *)
Definition dq_node_removed (nid : Z) : M unit :=
  let* s := the_state in
  match by_node_id s !! nid with
  | None => ret tt
  | Some l =>
      let* _ := (fun s => Some (tt, set_by_node_id (delete nid (by_node_id s)) s)) in
      free_cleaning l
  end.

(** [dq_cancel_local] applied by [g_hash_table_foreach] to the keys of
    [dqueries], traversed in the order [keys]: the local queries bearing
    the search handle are prepended to the list. *)
Fixpoint cancel_local (handle : Z) (keys : list Z) (cancelled : list Z) : M (list Z) :=
  match keys with
  | [] => ret cancelled
  | dq :: rest =>
      let* q := get_dq dq in
      if (NODE_ID_SELF E =? node_id q) && (sh q =? handle)
      then cancel_local handle rest (dq :: cancelled)
      else cancel_local handle rest cancelled
  end.

Fixpoint free_each (l : list Z) : M unit :=
  match l with
  | [] => ret tt
  | dq :: rest =>
      let* _ := dq_free E dq in
      free_each rest
  end.

(** [dq_search_closed]: a local search is closed, its queries are freed.
    [keys] is the order in which the hash table hands out its keys. *)
Definition dq_search_closed (keys : list Z) (handle : Z) : M unit :=
  let* cancelled := cancel_local handle keys [] in
  free_each cancelled.

End MoreRoutines.

(** ** Readings and scenarios for the routines above *)

(** The TTL recorded for a message to node [n] at the supplied TTL [t]. *)
Definition sent_ttl (n : gnutella_node) (t : Z) : Z :=
  Z.min (n_max_ttl n) t mod 2 ^ 8.

(** The query once a message for node [n] has been queued. *)
Definition dispatched (q : dquery) (n : gnutella_node) (t : Z) : dquery :=
  upd F_pending (u32 (pending q + 1))
    (set_by_ttl ({[sent_ttl n t]} ∪ by_ttl q)
       (set_queried ({[n_id n]} ∪ queried q) q)).

(** The meta-information attached to that message. *)
Definition dispatch_info (dq : Z) (q : dquery) (n : gnutella_node) (t : Z) : pmsg_info :=
  {| pmi_node_id := n_id n; pmi_dq := dq; pmi_qid := qid q;
     pmi_degree := n_degree n mod 2 ^ 16; pmi_ttl := sent_ttl n t |}.

(** A second query of leaf 7, registered after the one of the scenario
    under the same MUID: the MUID table keeps leading to the first. *)
Definition q_twin : dquery :=
  set_results_ev None (set_expire_ev None (set_qid 4 q0)).

Definition s_twins : dq_state :=
  set_by_node_id {[ 7 := [1000; 1001] ]}
    (set_dqueries {[ 1000; 1001 ]}
       (set_mem {[ 1000 := q0; 1001 := q_twin ]} s0)).

(** A query of the local node for the search handle 5, beside the query
    of leaf 7. *)
Definition q_local : dquery :=
  {| node_id := 0; qid := 4; flags := 0; sh := 5; muid := 101;
     qhv := 0; queried := ∅; lmuid := None; query_flags := 0;
     ttl := 4; horizon := 0; up_sent := 0; last_status := 0; pending := 0;
     max_results := 150; fin_results := 150; oob_results := 0; results := 0;
     linger_results := 0; new_results := 0; kept_results := 0;
     result_timeout := 3700; stat_timeouts := 0; expire_ev := None;
     results_ev := None; alive := None; nv := []; by_ttl := ∅ |}.

Definition s_local : dq_state :=
  set_by_muid {[ 100 := 1000; 101 := 1001 ]}
    (set_dqueries ({[ 1000 ]} ∪ {[ 1001 ]})
       (set_mem {[ 1000 := q0; 1001 := q_local ]} s0)).

(** The test of [dq_cancel_local] on the query at address [d]. *)
Definition closing (E : env) (s : dq_state) (handle : Z) (d : Z) : bool :=
  match mem s !! d with
  | Some q => (NODE_ID_SELF E =? node_id q) && (sh q =? handle)
  | None => false
  end.

(** The leaf-guided query of the scenario while it waits for the status
    it has asked its leaf for. *)
Definition q_waiting : dquery :=
  upd F_flags (Z.lor DQ_F_LEAF_GUIDED DQ_F_WAITING) q0.

Definition s_waiting : dq_state := set_mem {[ 1000 := q_waiting ]} s0.

(** The record of the query once the status is recorded, and whether the
    guidance was unsolicited. *)
Definition status_recorded (q : dquery) (kept : Z) : dquery :=
  upd F_new_results 0
    (upd F_last_status (up_sent q)
       (upd F_flags (set_flag (flags q) DQ_F_GOT_GUIDANCE)
          (upd F_kept_results kept q))).

Definition unsolicited (q : dquery) : bool :=
  negb (has_flag (flags q) DQ_F_WAITING) && negb (has_flag (flags q) DQ_F_LEAF_GUIDED).

(** A query of leaf 7 that has told it is firewalled, and a hit from a
    firewalled server. *)
Definition q_fw : dquery :=
  {| node_id := 7; qid := 3; flags := DQ_F_ROUTING_HITS; sh := 0; muid := 100;
     qhv := 0; queried := {[ 11; 12 ]}; lmuid := None; query_flags := 64;
     ttl := 4; horizon := 10; up_sent := 1; last_status := 0; pending := 1;
     max_results := 50; fin_results := 1000; oob_results := 0; results := 5;
     linger_results := 0; new_results := 5; kept_results := 0;
     result_timeout := 3700; stat_timeouts := 0; expire_ev := Some 1;
     results_ev := Some 2; alive := Some 1; nv := []; by_ttl := {[ 2 ]} |}.

Definition s_fw : dq_state := set_mem {[ 1000 := q_fw ]} s0.

(** The query of the scenario waiting for a status for which a first
    wait has already timed out; the query without guidance nor routing of
    hits, no message being pending; and surroundings in which leaf 7 is no
    longer active. *)
Definition q_waiting2 : dquery :=
  upd F_stat_timeouts 1
    (upd F_flags (Z.lor (Z.lor DQ_F_LEAF_GUIDED DQ_F_WAITING) DQ_F_ROUTING_HITS) q0).

Definition s_waiting2 : dq_state := set_mem {[ 1000 := q_waiting2 ]} s0.

Definition q_plain : dquery := upd F_pending 0 (upd F_flags 0 q0).

Definition s_plain : dq_state := set_mem {[ 1000 := q_plain ]} s0.

Definition E_dead : env :=
  {| NODE_ID_SELF := 0; dq_debug := 0; current_peermode_ultra := true;
     max_connections := 40; normal_connections := 8;
     node_all_nodes := [];
     node_active_by_id := fun _ => None;
     qrp_node_can_route := fun _ _ => true;
     search_get_kept_results_by_handle := fun _ => 0;
     alive_get_roundtrip_ms := fun _ => (100000, 100000);
     qsort_next_up := fun v => v;
     ST_FIREWALL := 1; ST_FW2FW := 2;
     QUERY_SPEED_FIREWALLED := 64; QUERY_SPEED_FW_TO_FW := 2 |}.

(** The first part of [dq_results_expired]: the event is forgotten and a
    wait for guidance that timed out is accounted for. *)
Definition timed_out (q : dquery) : dquery :=
  let q := set_results_ev None q in
  if has_flag (flags q) DQ_F_WAITING then
    let q := upd F_stat_timeouts (u32 (stat_timeouts q + 1)) q in
    let q := upd F_flags (clear_flag (flags q) DQ_F_WAITING) q in
    if negb (has_flag (flags q) DQ_F_GOT_GUIDANCE)
       && (DQ_MAX_STAT_TIMEOUT <=? stat_timeouts q)
    then upd F_flags (clear_flag (flags q) DQ_F_LEAF_GUIDED) q
    else q
  else q.

(** Whether that part turns leaf guidance off. *)
Definition gives_up (q : dquery) : bool :=
  has_flag (flags q) DQ_F_WAITING
  && negb (has_flag (flags q) DQ_F_GOT_GUIDANCE)
  && (DQ_MAX_STAT_TIMEOUT <=? u32 (stat_timeouts q + 1)).

(** The record for a new query of leaf 7 that the launcher has filled at
    address 1001, its MUID being that of the query of the scenario. *)
Definition q_new : dquery :=
  {| node_id := 7; qid := 0; flags := DQ_F_ROUTING_HITS; sh := 0; muid := 100;
     qhv := 0; queried := ∅; lmuid := Some 55; query_flags := 0;
     ttl := 4; horizon := 0; up_sent := 0; last_status := 0; pending := 0;
     max_results := 50; fin_results := 1000; oob_results := 0; results := 0;
     linger_results := 0; new_results := 0; kept_results := 0;
     result_timeout := 0; stat_timeouts := 0; expire_ev := None;
     results_ev := None; alive := Some 1; nv := []; by_ttl := ∅ |}.

Definition s_new : dq_state := set_mem (<[1001 := q_new]> (mem s0)) s0.

(** The surroundings of the scenario with two ultrapeers connected, and
    the query of the scenario holding a vector of candidates in which the
    first of them is known to route the query. *)
Definition node8 : gnutella_node :=
  {| n_id := 14; n_is_ultra := true; n_is_writable := true; n_received := 1;
     n_in_tx_flow_control := false; n_hops_flow := 1; n_degree := 6;
     n_max_ttl := 3; n_up_qrp := true |}.

Definition E_ups : env :=
  {| NODE_ID_SELF := 0; dq_debug := 0; current_peermode_ultra := true;
     max_connections := 40; normal_connections := 8;
     node_all_nodes := [node7; node6; node8];
     node_active_by_id := fun id => if id =? 7 then Some node7 else None;
     qrp_node_can_route := fun _ _ => true;
     search_get_kept_results_by_handle := fun _ => 0;
     alive_get_roundtrip_ms := fun _ => (100000, 100000);
     qsort_next_up := fun v => v;
     ST_FIREWALL := 1; ST_FW2FW := 2;
     QUERY_SPEED_FIREWALLED := 64; QUERY_SPEED_FW_TO_FW := 2 |}.

Definition q_prev : dquery :=
  set_nv [{| nu_nid := 13; nu_node := node6; nu_can_route := 1 |}] q_fin.

Definition s_prev : dq_state := set_mem {[ 1000 := q_prev ]} s_fin.

(** The query of the scenario with 19 results for a horizon of 10, which
    does not divide them. *)
Definition q_odd : dquery := upd F_results 19 q0.

Definition s_odd : dq_state := set_mem {[ 1000 := q_odd ]} s0.

(** * Properties *)

(** ** Generic facts *)

(** The test [b] of the code succeeds, or fails, by arithmetic. *)
Ltac test_holds b :=
  replace b with true
    by (symmetry; rewrite ?andb_true_iff, ?Z.ltb_lt, ?Z.leb_le, ?Z.eqb_eq;
        first [assumption | lia]).

Ltac test_fails b :=
  replace b with false
    by (symmetry; rewrite ?Z.ltb_ge, ?Z.leb_gt, ?Z.eqb_neq;
        first [assumption | lia]).

Lemma forallb_seqZ (P : Z -> bool) (lo n : Z) :
  forallb P (seqZ lo n) = true ->
  forall x, lo <= x < lo + n -> P x = true.
Proof.
  intros H x Hx.
  rewrite forallb_forall in H.
  apply H, list_elem_of_In, elem_of_seqZ. lia.
Qed.

(** A value in range is its own [guint32]. *)
Lemma u32_small (x : Z) : 0 <= x < 2 ^ 32 -> u32 x = x.
Proof. intros H. unfold u32. apply Z.mod_small. lia. Qed.

(** The literal table is the one [fill_hosts] computes. *)
Lemma hosts_filled : hosts = fill_hosts.
Proof. vm_compute. reflexivity. Qed.

(** ** Binary64 rounding *)

(** Known bit patterns: 0.8 is 0x3FE999999999999A, 1e-6 is
    0x3EB0C6F7A0B5ED8D, 0.1 + 0.2 is 0x3FD3333333333334, and halfway
    cases go to the even mantissa. *)
Example b64_literal_0_80 : B64.literal 80 100 = B64.mk 0x1999999999999A (-53).
Proof. reflexivity. Qed.

Example b64_literal_1e_6 : B64.literal 1 1000000 = B64.mk 0x10C6F7A0B5ED8D (-72).
Proof. reflexivity. Qed.

Example b64_add_inexact :
  B64.add (B64.literal 1 10) (B64.literal 2 10) = B64.mk 0x13333333333334 (-54).
Proof. reflexivity. Qed.

Example b64_ties_to_even :
  B64.of_Z (2 ^ 53 + 1) = B64.mk (2 ^ 52) 1
  /\ B64.of_Z (2 ^ 53 + 3) = B64.mk (2 ^ 52 + 2) 1.
Proof. split; reflexivity. Qed.

Lemma scaled_pos (p q e : Z) :
  0 < p -> 0 < q -> 0 < fst (B64.scaled p q e) /\ 0 < snd (B64.scaled p q e).
Proof.
  intros Hp Hq. unfold B64.scaled.
  destruct (0 <=? e) eqn:He; cbn [fst snd].
  - apply Z.leb_le in He. split; [lia|].
    apply Z.mul_pos_pos; [lia|]. apply Z.pow_pos_nonneg; lia.
  - apply Z.leb_gt in He. split; [|lia].
    apply Z.mul_pos_pos; [lia|]. apply Z.pow_pos_nonneg; lia.
Qed.

(** Raising the exponent by one halves the scaled quotient. *)
Lemma scaled_succ (p q e : Z) :
  fst (B64.scaled p q e) * snd (B64.scaled p q (e + 1)) =
  2 * fst (B64.scaled p q (e + 1)) * snd (B64.scaled p q e).
Proof.
  unfold B64.scaled.
  destruct (0 <=? e) eqn:He; destruct (0 <=? e + 1) eqn:He1; cbn [fst snd];
    try apply Z.leb_le in He; try apply Z.leb_gt in He;
    try apply Z.leb_le in He1; try apply Z.leb_gt in He1; try lia.
  - rewrite Z.pow_add_r by lia. change (2 ^ 1) with 2.
    generalize (2 ^ e). intros x. ring.
  - assert (e = -1) as -> by lia. change (2 ^ (- -1)) with 2.
    change (-1 + 1) with 0. ring.
  - replace (- e) with (- (e + 1) + 1) by lia.
    rewrite Z.pow_add_r by lia. change (2 ^ 1) with 2.
    generalize (2 ^ (- (e + 1))). intros x. ring.
Qed.

(** With the first guess of the exponent the scaled quotient lies
    strictly between 2^52 and 2^54. *)
Lemma scaled_first_guess (p q : Z) :
  0 < p -> 0 < q ->
  let e0 := Z.log2 p - Z.log2 q - B64.prec in
  2 ^ 52 * snd (B64.scaled p q e0) < fst (B64.scaled p q e0)
  /\ fst (B64.scaled p q e0) < 2 ^ 54 * snd (B64.scaled p q e0).
Proof.
  intros Hp Hq e0.
  destruct (Z.log2_spec p Hp) as [Hp1 Hp2].
  destruct (Z.log2_spec q Hq) as [Hq1 Hq2].
  pose proof (Z.log2_nonneg p) as Ha. pose proof (Z.log2_nonneg q) as Hb.
  set (a := Z.log2 p) in *. set (b := Z.log2 q) in *.
  unfold Z.succ in *. rewrite Z.pow_add_r in Hp2, Hq2 by lia.
  unfold B64.scaled, B64.prec in *.
  destruct (0 <=? e0) eqn:He; cbn [fst snd].
  - apply Z.leb_le in He.
    assert (Ha' : 2 ^ a = 2 ^ b * 2 ^ e0 * 2 ^ 53).
    { rewrite <- !Z.pow_add_r by lia. f_equal. unfold e0. lia. }
    assert (0 < 2 ^ e0) by (apply Z.pow_pos_nonneg; lia).
    assert (0 < 2 ^ b) by (apply Z.pow_pos_nonneg; lia).
    split; nia.
  - apply Z.leb_gt in He.
    assert (Hb' : 2 ^ b * 2 ^ 53 = 2 ^ a * 2 ^ (- e0)).
    { rewrite <- !Z.pow_add_r by lia. f_equal. unfold e0. lia. }
    assert (0 < 2 ^ (- e0)) by (apply Z.pow_pos_nonneg; lia).
    assert (0 < 2 ^ a) by (apply Z.pow_pos_nonneg; lia).
    split; nia.
Qed.

(** [B64.round] returns a mantissa of 53 bits (2^53 when the rounding
    carries) nearest to the scaled quotient: they differ by half a unit
    at most. *)
Lemma round_nearest (p q s : Z) :
  0 < p -> 0 < q ->
  let r := B64.round p q s in
  let e := B64.expo r - s in
  2 ^ 52 <= B64.mant r <= 2 ^ 53
  /\ Z.abs (2 * (fst (B64.scaled p q e) - B64.mant r * snd (B64.scaled p q e)))
     <= snd (B64.scaled p q e).
Proof.
  intros Hp Hq. unfold B64.round.
  test_fails (p <=? 0).
  pose proof (scaled_first_guess p q Hp Hq) as Hg. cbn zeta in Hg.
  set (e0 := Z.log2 p - Z.log2 q - B64.prec) in *.
  pose proof (scaled_pos p q e0 Hp Hq) as [Hn0 Hd0].
  pose proof (scaled_pos p q (e0 + 1) Hp Hq) as [Hn1 Hd1].
  pose proof (scaled_succ p q e0) as Hsucc.
  destruct (B64.scaled p q e0) as [n0 d0] eqn:Hs0. cbn [fst snd] in *.
  assert (Hchoice : exists e n d,
    (if n0 / d0 <? 2 ^ B64.prec then e0 else e0 + 1) = e
    /\ B64.scaled p q e = (n, d) /\ 0 < d
    /\ 2 ^ 52 * d <= n < 2 ^ 53 * d).
  { unfold B64.prec.
    pose proof (Z.div_mod n0 d0 ltac:(lia)) as Hdm0.
    pose proof (Z.mod_pos_bound n0 d0 Hd0) as Hr0.
    destruct (n0 / d0 <? 2 ^ 53) eqn:Hlt.
    - exists e0, n0, d0. repeat split; try assumption; try lia.
      apply Z.ltb_lt in Hlt. nia.
    - destruct (B64.scaled p q (e0 + 1)) as [n1 d1] eqn:Hs1. cbn [fst snd] in *.
      apply Z.ltb_ge in Hlt.
      assert (2 ^ 53 * d0 <= n0) by nia.
      exists (e0 + 1), n1, d1. repeat split; try assumption; nia. }
  destruct Hchoice as (e & n & d & -> & Hs & Hd & Hlo & Hhi).
  rewrite Hs. cbn [B64.mant B64.expo].
  replace (e + s - s) with e by lia. rewrite Hs. cbn [fst snd].
  pose proof (Z.div_mod n d ltac:(lia)) as Hdm.
  pose proof (Z.mod_pos_bound n d Hd) as Hr.
  assert (Hm : 2 ^ 52 <= n / d < 2 ^ 53).
  { split.
    - apply Z.div_le_lower_bound; lia.
    - apply Z.div_lt_upper_bound; lia. }
  set (m := n / d) in *. set (r := n mod d) in *.
  destruct ((d <? 2 * r) || ((d =? 2 * r) && Z.odd m)) eqn:Hup.
  - assert (d <= 2 * r).
    { apply orb_true_iff in Hup as [H|H].
      - apply Z.ltb_lt in H. lia.
      - apply andb_true_iff in H as [H _]. apply Z.eqb_eq in H. lia. }
    split; [lia|]. nia.
  - assert (2 * r <= d).
    { apply orb_false_iff in Hup as [H _]. apply Z.ltb_ge in H. lia. }
    split; [lia|]. nia.
Qed.

(** ** Exact quotients in binary64 *)

(** [B64.round] when the quotient scaled by the exponent it settles on is
    the integer [m]. *)
Lemma round_exact (p q s e m : Z) :
  0 < p -> 0 < q ->
  let e0 := Z.log2 p - Z.log2 q - B64.prec in
  e = (if fst (B64.scaled p q e0) / snd (B64.scaled p q e0) <? 2 ^ B64.prec
       then e0 else e0 + 1) ->
  fst (B64.scaled p q e) = m * snd (B64.scaled p q e) ->
  B64.round p q s = B64.mk m (e + s).
Proof.
  intros Hp Hq e0 He Hm. unfold B64.round.
  test_fails (p <=? 0). fold e0.
  destruct (B64.scaled p q e0) as [n0 d0] eqn:H0. cbn [fst snd] in He.
  rewrite <- He.
  pose proof (scaled_pos p q e Hp Hq) as [_ Hd].
  destruct (B64.scaled p q e) as [n d]. cbn [fst snd] in Hm, Hd. subst n.
  rewrite Z.div_mul, Z.mod_mul by lia.
  test_fails (d <? 2 * 0). test_fails (d =? 2 * 0). reflexivity.
Qed.

(** An integer below 2^53 converts to the normalised double of the same
    value. *)
Lemma b64_of_Z_normal (n : Z) :
  0 < n < 2 ^ 53 ->
  B64.of_Z n = B64.mk (n * 2 ^ (52 - Z.log2 n)) (Z.log2 n - 52).
Proof.
  intros Hn. unfold B64.of_Z.
  destruct (Z.log2_spec n) as [Hl1 Hl2]; [lia|].
  pose proof (Z.log2_nonneg n) as Hl0.
  assert (Hl : Z.log2 n < 53).
  { apply (Z.pow_lt_mono_r_iff 2); lia. }
  set (l := Z.log2 n) in *.
  rewrite <- (Z.add_0_r (l - 52)).
  apply round_exact; [lia | lia | |].
  - change (Z.log2 1) with 0. unfold B64.prec, B64.scaled. fold l.
    test_fails (0 <=? l - 0 - 53). cbn [fst snd].
    rewrite Z.div_1_r.
    assert (2 ^ 53 <= n * 2 ^ (- (l - 0 - 53))).
    { replace (2 ^ 53) with (2 ^ l * 2 ^ (- (l - 0 - 53)))
        by (rewrite <- Z.pow_add_r by lia; f_equal; lia).
      apply Z.mul_le_mono_nonneg_r; [apply Z.pow_nonneg; lia | lia]. }
    test_fails (n * 2 ^ (- (l - 0 - 53)) <? 2 ^ 53). lia.
  - unfold B64.scaled. destruct (0 <=? l - 52) eqn:He; cbn [fst snd].
    + apply Z.leb_le in He. assert (l = 52) as -> by lia.
      change (52 - 52) with 0. change (2 ^ 0) with 1. lia.
    + apply Z.leb_gt in He. replace (- (l - 52)) with (52 - l) by lia. lia.
Qed.

Lemma b64_normal_log2 (a : Z) :
  0 < a < 2 ^ 53 ->
  let P := a * 2 ^ (52 - Z.log2 a) in
  2 ^ 52 <= P < 2 ^ 53 /\ Z.log2 P = 52.
Proof.
  intros Ha P.
  destruct (Z.log2_spec a) as [Hl1 Hl2]; [lia|].
  pose proof (Z.log2_nonneg a) as Hl0.
  assert (Hl : Z.log2 a < 53) by (apply (Z.pow_lt_mono_r_iff 2); lia).
  set (l := Z.log2 a) in *.
  assert (Hpos : 0 < 2 ^ (52 - l)) by (apply Z.pow_pos_nonneg; lia).
  assert (H52 : 2 ^ 52 = 2 ^ l * 2 ^ (52 - l))
    by (rewrite <- Z.pow_add_r by lia; f_equal; lia).
  assert (H53 : 2 ^ 53 = 2 ^ Z.succ l * 2 ^ (52 - l))
    by (rewrite <- Z.pow_add_r by lia; f_equal; lia).
  assert (HP : 2 ^ 52 <= P < 2 ^ 53).
  { unfold P. rewrite H52, H53. split.
    - apply Z.mul_le_mono_nonneg_r; lia.
    - apply Z.mul_lt_mono_pos_r; lia. }
  split; [exact HP|].
  apply Z.log2_unique; [lia|]. change (52 + 1) with 53. exact HP.
Qed.

(** The double quotient of two [guint32] values is exact when the divisor
    divides the dividend: it is the double of the integer quotient. *)
Lemma b64_div_exact (a b : Z) :
  0 <= a < 2 ^ 32 -> 0 < b < 2 ^ 32 -> a mod b = 0 ->
  B64.div (B64.of_Z a) (B64.of_Z b) = B64.of_Z (a / b).
Proof.
  intros Ha Hb Hdiv.
  destruct (Z.eq_dec a 0) as [-> | Ha0].
  { rewrite Z.div_0_l by lia. rewrite (b64_of_Z_normal b) by lia. reflexivity. }
  set (c := a / b).
  assert (Hab : a = b * c).
  { unfold c. rewrite (Z.div_mod a b) at 1 by lia. lia. }
  assert (Hc : 0 < c < 2 ^ 32) by nia.
  rewrite (b64_of_Z_normal a), (b64_of_Z_normal b), (b64_of_Z_normal c) by lia.
  destruct (b64_normal_log2 a) as [HP HlP]; [lia|].
  destruct (b64_normal_log2 b) as [HQ HlQ]; [lia|].
  destruct (Z.log2_spec a) as [Ha1 Ha2]; [lia|].
  destruct (Z.log2_spec b) as [Hb1 Hb2]; [lia|].
  pose proof (Z.log2_nonneg a) as Hla0. pose proof (Z.log2_nonneg b) as Hlb0.
  assert (Hla : Z.log2 a < 32) by (apply (Z.pow_lt_mono_r_iff 2); lia).
  assert (Hlb : Z.log2 b < 32) by (apply (Z.pow_lt_mono_r_iff 2); lia).
  set (la := Z.log2 a) in *. set (lb := Z.log2 b) in *.
  unfold Z.succ in Ha2, Hb2. rewrite Z.pow_add_r in Ha2, Hb2 by lia.
  change (2 ^ 1) with 2 in Ha2, Hb2.
  assert (HA : 0 < 2 ^ la) by (apply Z.pow_pos_nonneg; lia).
  assert (HB : 0 < 2 ^ lb) by (apply Z.pow_pos_nonneg; lia).
  (* lb <= la *)
  assert (Hle : lb <= la).
  { assert (2 ^ lb < 2 ^ (la + 1)).
    { rewrite Z.pow_add_r by lia. change (2 ^ 1) with 2. nia. }
    apply Z.pow_lt_mono_r_iff in H; lia. }
  set (d := la - lb).
  assert (Hd : 2 ^ la = 2 ^ lb * 2 ^ d)
    by (rewrite <- Z.pow_add_r by (unfold d; lia); f_equal; unfold d; lia).
  assert (HD : 0 < 2 ^ d) by (apply Z.pow_pos_nonneg; unfold d; lia).
  assert (Hc1 : c < 2 * 2 ^ d) by nia.
  assert (Hc2 : 2 ^ d < 2 * c) by nia.
  set (P := a * 2 ^ (52 - la)) in *. set (Q := b * 2 ^ (52 - lb)) in *.
  assert (Hxa : 0 < 2 ^ (52 - la)) by (apply Z.pow_pos_nonneg; lia).
  assert (Hxb : 2 ^ (52 - lb) = 2 ^ (52 - la) * 2 ^ d)
    by (rewrite <- Z.pow_add_r by (unfold d; lia); f_equal; unfold d; lia).
  unfold B64.div. cbn [B64.mant B64.expo].
  assert (Hsc : B64.scaled P Q (Z.log2 P - Z.log2 Q - B64.prec) = (P * 2 ^ 53, Q)).
  { rewrite HlP, HlQ. reflexivity. }
  assert (Hsc53 : B64.scaled P Q (-53) = (P * 2 ^ 53, Q)) by reflexivity.
  assert (Hsc52 : B64.scaled P Q (-52) = (P * 2 ^ 52, Q)) by reflexivity.
  assert (He0 : Z.log2 P - Z.log2 Q - B64.prec = -53) by (rewrite HlP, HlQ; reflexivity).
  destruct (Z_lt_ge_dec P Q) as [Hlt | Hge].
  - (* the quotient is below 1: one more bit *)
    assert (Hcd : c < 2 ^ d).
    { unfold P, Q in Hlt. rewrite Hab, Hxb in Hlt.
      apply (Z.mul_lt_mono_pos_l (b * 2 ^ (52 - la))); [apply Z.mul_pos_pos; lia|].
      revert Hlt. generalize (2 ^ (52 - la)) (2 ^ d). intros x y Hlt. lia. }
    assert (Hd1 : 1 <= d).
    { destruct (Z.eq_dec d 0) as [H0|]; [|unfold d in *; lia].
      rewrite H0 in Hcd. change (2 ^ 0) with 1 in Hcd. lia. }
    assert (Hd' : 2 ^ d = 2 * 2 ^ (d - 1)).
    { replace d with (1 + (d - 1)) at 1 by lia.
      rewrite Z.pow_add_r by lia. reflexivity. }
    assert (Hlc : Z.log2 c = d - 1).
    { apply Z.log2_unique; [lia|]. replace (Z.succ (d - 1)) with d by lia. lia. }
    rewrite Hlc.
    replace (d - 1 - 52) with (-53 + (la - 52 - (lb - 52))) by (unfold d; lia).
    apply round_exact; [lia | lia | |].
    + rewrite Hsc, He0. cbn [fst snd]. unfold B64.prec.
      assert (P * 2 ^ 53 / Q < 2 ^ 53)
        by (apply Z.div_lt_upper_bound; lia).
      test_holds (P * 2 ^ 53 / Q <? 2 ^ 53). reflexivity.
    + rewrite Hsc53. cbn [fst snd].
      assert (H53 : 2 ^ 53 = 2 ^ (52 - (d - 1)) * 2 ^ d)
        by (rewrite <- Z.pow_add_r by (unfold d; lia); f_equal; lia).
      rewrite H53. unfold P, Q. rewrite Hab, Hxb.
      generalize (2 ^ (52 - (d - 1))) (2 ^ d) (2 ^ (52 - la)). intros x y z. ring.
  - assert (Hcd : 2 ^ d <= c).
    { unfold P, Q in Hge. rewrite Hab, Hxb in Hge.
      apply (Z.mul_le_mono_pos_l _ _ (b * 2 ^ (52 - la))); [apply Z.mul_pos_pos; lia|].
      revert Hge. generalize (2 ^ (52 - la)) (2 ^ d). intros x y Hge. lia. }
    assert (Hlc : Z.log2 c = d).
    { apply Z.log2_unique; [unfold d; lia|]. unfold Z.succ.
      rewrite Z.pow_add_r by (unfold d; lia). change (2 ^ 1) with 2. lia. }
    rewrite Hlc.
    replace (d - 52) with (-53 + 1 + (la - 52 - (lb - 52))) by (unfold d; lia).
    apply round_exact; [lia | lia | |].
    + rewrite Hsc, He0. cbn [fst snd]. unfold B64.prec.
      assert (2 ^ 53 <= P * 2 ^ 53 / Q)
        by (apply Z.div_le_lower_bound; lia).
      test_fails (P * 2 ^ 53 / Q <? 2 ^ 53). reflexivity.
    + change (-53 + 1) with (-52). rewrite Hsc52. cbn [fst snd].
      assert (H52 : 2 ^ 52 = 2 ^ (52 - d) * 2 ^ d)
        by (rewrite <- Z.pow_add_r by (unfold d; lia); f_equal; lia).
      rewrite H52. unfold P, Q. rewrite Hab, Hxb.
      generalize (2 ^ (52 - d)) (2 ^ d) (2 ^ (52 - la)). intros x y z. ring.
Qed.

(** ** The horizon model *)

(** [dq_get_horizon] returns when its two assertions hold. *)
Lemma dq_get_horizon_defined (degree ttl : Z) :
  0 < degree -> 0 < ttl -> exists h, dq_get_horizon degree ttl = Some h.
Proof.
  intros Hd Ht. unfold dq_get_horizon.
  test_holds (0 <? degree). test_holds (0 <? ttl).
  eexists. reflexivity.
Qed.

(** Arguments beyond the table are clamped to its last row and column. *)
Lemma dq_get_horizon_clamp (degree ttl : Z) :
  1 <= degree -> 1 <= ttl ->
  dq_get_horizon degree ttl =
  dq_get_horizon (Z.min degree MAX_DEGREE) (Z.min ttl MAX_TTL).
Proof.
  intros Hd Ht. unfold dq_get_horizon, MAX_DEGREE, MAX_TTL.
  replace (Z.min (Z.min degree 50) 50) with (Z.min degree 50) by lia.
  replace (Z.min (Z.min ttl 5) 5) with (Z.min ttl 5) by lia.
  assert (H1 : (0 <? degree) = true) by (apply Z.ltb_lt; lia).
  assert (H2 : (0 <? ttl) = true) by (apply Z.ltb_lt; lia).
  assert (H3 : (0 <? Z.min degree 50) = true) by (apply Z.ltb_lt; lia).
  assert (H4 : (0 <? Z.min ttl 5) = true) by (apply Z.ltb_lt; lia).
  rewrite H1, H2, H3, H4. reflexivity.
Qed.

Lemma tree_horizon_clamp (degree ttl : Z) :
  tree_horizon degree ttl =
  tree_horizon (Z.min degree MAX_DEGREE) (Z.min ttl MAX_TTL).
Proof.
  unfold tree_horizon, MAX_DEGREE, MAX_TTL.
  replace (Z.min (Z.min degree 50) 50) with (Z.min degree 50) by lia.
  replace (Z.min (Z.min ttl 5) 5) with (Z.min ttl 5) by lia.
  reflexivity.
Qed.

Lemma horizon_table_tree :
  forallb (fun d => forallb (horizon_is tree_horizon d) (seqZ 1 MAX_TTL))
          (seqZ 1 MAX_DEGREE) = true.
Proof. vm_compute. reflexivity. Qed.

Lemma dq_get_horizon_table (d t : Z) :
  1 <= d <= MAX_DEGREE -> 1 <= t <= MAX_TTL ->
  dq_get_horizon d t = Some (tree_horizon d t).
Proof.
  intros Hd Ht.
  pose proof (forallb_seqZ _ _ _ horizon_table_tree d ltac:(lia)) as H.
  pose proof (forallb_seqZ _ _ _ H t ltac:(lia)) as H'.
  unfold horizon_is in H'.
  destruct (dq_get_horizon d t) as [h|]; [|discriminate].
  apply Z.eqb_eq in H'. now subst.
Qed.

(** C4, as the code has it: for every degree >= 1 and ttl >= 1,
    [dq_get_horizon] returns the floor of 0.80^(ttl-1) times the sum of
    (degree-1)^i for i from 0 to ttl-1, the degree being clamped to at
    most 50 and the ttl to at most 5. *)
Theorem dq_get_horizon_formula (degree ttl : Z) :
  1 <= degree -> 1 <= ttl ->
  dq_get_horizon degree ttl = Some (tree_horizon degree ttl).
Proof.
  intros Hd Ht.
  rewrite dq_get_horizon_clamp, tree_horizon_clamp by assumption.
  apply dq_get_horizon_table; unfold MAX_DEGREE, MAX_TTL; lia.
Qed.

Lemma dq_get_horizon_formula_witness :
  dq_get_horizon 7 3 = Some (tree_horizon 7 3).
Proof. apply dq_get_horizon_formula; lia. Defined.

(** The table does not depend on the last bits of [pow]: with a result
    off by up to 4 units in the last place for the exponents 2, 3 and 4
    (for the exponents 0 and 1 [pow] is exact), every horizon is the
    same. *)
Lemma horizon_table_pow_ulps :
  forallb (fun k => forallb (fun d => forallb (fun t =>
    match dq_get_horizon_ulps k d t, dq_get_horizon d t with
    | Some a, Some b => a =? b
    | _, _ => false
    end) (seqZ 3 3)) (seqZ 1 MAX_DEGREE)) (seqZ (-4) 9) = true.
Proof. vm_compute. reflexivity. Qed.

Lemma dq_get_horizon_pow_ulps (k d t : Z) :
  -4 <= k <= 4 -> 1 <= d <= MAX_DEGREE -> 3 <= t <= MAX_TTL ->
  dq_get_horizon_ulps k d t = dq_get_horizon d t.
Proof.
  intros Hk Hd Ht.
  pose proof (forallb_seqZ _ _ _ horizon_table_pow_ulps k ltac:(lia)) as H1.
  pose proof (forallb_seqZ _ _ _ H1 d ltac:(unfold MAX_DEGREE in *; lia)) as H2.
  pose proof (forallb_seqZ _ _ _ H2 t ltac:(unfold MAX_TTL in *; lia)) as H3.
  cbv beta in H3.
  destruct (dq_get_horizon_ulps k d t) as [a|]; [|discriminate].
  destruct (dq_get_horizon d t) as [b|]; [|discriminate].
  apply Z.eqb_eq in H3. now subst.
Qed.

(** C4, as stated, fails: with the powers of the degree itself the
    horizon of a node of degree 2 at TTL 2 would be floor(0.8 * 3) = 2,
    and the code returns floor(0.8 * 2) = 1. *)
Lemma dq_get_horizon_not_spec :
  dq_get_horizon 2 2 = Some 1 /\ spec_horizon 2 2 = 2.
Proof. split; vm_compute; reflexivity. Qed.

Lemma horizon_leb_le (d t d' t' : Z) :
  horizon_leb d t d' t' = true -> horizon_le d t d' t'.
Proof.
  unfold horizon_leb, horizon_le. intros H.
  destruct (dq_get_horizon d t) as [a|]; [|discriminate].
  destruct (dq_get_horizon d' t') as [b|]; [|discriminate].
  exists a, b. repeat split. now apply Z.leb_le.
Qed.

Lemma horizon_le_trans (d1 t1 d2 t2 d3 t3 : Z) :
  horizon_le d1 t1 d2 t2 -> horizon_le d2 t2 d3 t3 -> horizon_le d1 t1 d3 t3.
Proof.
  intros (a & b & Ha & Hb & Hab) (b' & c & Hb' & Hc & Hbc).
  rewrite Hb in Hb'. injection Hb' as <-.
  exists a, c. repeat split; try assumption. lia.
Qed.

Lemma horizon_le_refl (d t : Z) :
  1 <= d -> 1 <= t -> horizon_le d t d t.
Proof.
  intros Hd Ht.
  destruct (dq_get_horizon_defined d t) as [h Hh]; [lia | lia |].
  exists h, h. repeat split; try assumption. lia.
Qed.

(** One step to the right and one step down in the table. *)
Lemma horizon_table_step_degree :
  forallb (fun d => forallb (fun t => horizon_leb d t (d + 1) t)
    (seqZ 1 MAX_TTL)) (seqZ 1 (MAX_DEGREE - 1)) = true.
Proof. vm_compute. reflexivity. Qed.

Lemma horizon_table_step_ttl :
  forallb (fun d => forallb (fun t => horizon_leb d t d (t + 1))
    (seqZ 1 (MAX_TTL - 1))) (seqZ 2 (MAX_DEGREE - 1)) = true.
Proof. vm_compute. reflexivity. Qed.

Lemma horizon_table_first_column :
  forallb (fun d => horizon_is (fun _ _ => 1) d 1) (seqZ 1 MAX_DEGREE) = true.
Proof. vm_compute. reflexivity. Qed.

Lemma horizon_mono_degree_steps (n : nat) (d t : Z) :
  1 <= d -> d + Z.of_nat n <= MAX_DEGREE -> 1 <= t <= MAX_TTL ->
  horizon_le d t (d + Z.of_nat n) t.
Proof.
  unfold MAX_DEGREE, MAX_TTL. intros Hd Hn Ht. induction n as [|n IH].
  - replace (d + Z.of_nat 0) with d by lia. apply horizon_le_refl; lia.
  - apply horizon_le_trans with (d2 := d + Z.of_nat n) (t2 := t).
    + apply IH. lia.
    + replace (d + Z.of_nat (S n)) with (d + Z.of_nat n + 1) by lia.
      apply horizon_leb_le.
      pose proof (forallb_seqZ _ _ _ horizon_table_step_degree (d + Z.of_nat n)
                    ltac:(unfold MAX_DEGREE; lia)) as H1.
      exact (forallb_seqZ _ _ _ H1 t ltac:(unfold MAX_TTL; lia)).
Qed.

Lemma horizon_mono_ttl_steps (n : nat) (d t : Z) :
  2 <= d <= MAX_DEGREE -> 1 <= t -> t + Z.of_nat n <= MAX_TTL ->
  horizon_le d t d (t + Z.of_nat n).
Proof.
  unfold MAX_DEGREE, MAX_TTL. intros Hd Ht Hn. induction n as [|n IH].
  - replace (t + Z.of_nat 0) with t by lia. apply horizon_le_refl; lia.
  - apply horizon_le_trans with (d2 := d) (t2 := t + Z.of_nat n).
    + apply IH. lia.
    + replace (t + Z.of_nat (S n)) with (t + Z.of_nat n + 1) by lia.
      apply horizon_leb_le.
      pose proof (forallb_seqZ _ _ _ horizon_table_step_ttl d
                    ltac:(unfold MAX_DEGREE; lia)) as H1.
      exact (forallb_seqZ _ _ _ H1 (t + Z.of_nat n) ltac:(unfold MAX_TTL; lia)).
Qed.

(** C6, as the code has it: over the tabulated domain the horizon is
    non-decreasing in the degree for a fixed ttl, non-decreasing in the
    ttl for a fixed degree of at least 2, and equal to 1 at ttl 1. *)
Theorem dq_get_horizon_monotone (d d' t t' : Z) :
  1 <= d <= d' -> d' <= MAX_DEGREE ->
  1 <= t <= t' -> t' <= MAX_TTL ->
  horizon_le d t d' t
  /\ (2 <= d -> horizon_le d t d t')
  /\ dq_get_horizon d 1 = Some 1.
Proof.
  intros Hd Hd' Ht Ht'. repeat split.
  - replace d' with (d + Z.of_nat (Z.to_nat (d' - d))) by lia.
    apply horizon_mono_degree_steps; lia.
  - intros Hd2.
    replace t' with (t + Z.of_nat (Z.to_nat (t' - t))) by lia.
    apply horizon_mono_ttl_steps; lia.
  - pose proof (forallb_seqZ _ _ _ horizon_table_first_column d
                  ltac:(unfold MAX_DEGREE in *; lia)) as H1.
    unfold horizon_is in H1.
    destruct (dq_get_horizon d 1) as [h|]; [|discriminate].
    apply Z.eqb_eq in H1. now subst.
Qed.

Lemma dq_get_horizon_monotone_witness :
  horizon_le 3 2 6 2
  /\ (2 <= 3 -> horizon_le 3 2 3 4)
  /\ dq_get_horizon 3 1 = Some 1.
Proof. apply (dq_get_horizon_monotone 3 6 2 4); unfold MAX_DEGREE, MAX_TTL; lia. Defined.

(** C6, as stated, fails at degree 1: the table row is 1, 1, 1, 1, 1 and
    the fuzzy factor brings every entry after the first below 1, so the
    horizon drops from 1 at ttl 1 to 0 at ttl 2. *)
Lemma dq_get_horizon_degree_1_decreases :
  dq_get_horizon 1 1 = Some 1 /\ dq_get_horizon 1 2 = Some 0
  /\ ~ horizon_le 1 1 1 2.
Proof.
  assert (H1 : dq_get_horizon 1 1 = Some 1) by (vm_compute; reflexivity).
  assert (H2 : dq_get_horizon 1 2 = Some 0) by (vm_compute; reflexivity).
  repeat split; try assumption.
  intros (a & b & Ha & Hb & Hab).
  rewrite H1 in Ha. rewrite H2 in Hb.
  injection Ha as <-. injection Hb as <-. lia.
Qed.

(** ** The send bookkeeper *)

Lemma dq_alive_true (s : dq_state) (dq id : Z) (q : dquery) :
  dq ∈ dqueries s -> mem s !! dq = Some q -> qid q = id ->
  dq_alive dq id s = Some (true, s).
Proof.
  intros Hin Hq Hid. unfold dq_alive, bind, the_state, get_dq, ret.
  rewrite bool_decide_eq_true_2 by assumption. simpl.
  rewrite Hq. f_equal. f_equal. apply Z.eqb_eq. assumption.
Qed.

Lemma dq_alive_stale (s : dq_state) (dq id : Z) :
  (dq ∉ dqueries s \/ exists q, mem s !! dq = Some q /\ qid q <> id) ->
  dq_alive dq id s = Some (false, s).
Proof.
  intros H. unfold dq_alive, bind, the_state, get_dq, ret.
  destruct (bool_decide (dq ∈ dqueries s)) eqn:Hd; simpl; [|reflexivity].
  destruct H as [H|(q & Hq & Hid)].
  - apply bool_decide_eq_true_1 in Hd. contradiction.
  - rewrite Hq. f_equal. f_equal. apply Z.eqb_neq. assumption.
Qed.

(** C2: when the free routine runs for a message whose query is still
    alive with the same query ID, [pending] is decremented by one in
    either case.  If the message was not sent, the target leaves the
    queried set, and when [pending] has reached zero with a results event
    armed, that event is rescheduled to fire in 1 ms; the counters
    [up_sent] and [horizon] are left alone.  If it was sent, [up_sent] is
    incremented and the horizon of (degree, ttl) is added to [horizon]
    (both [guint32]), the queried set and the callout queue being left
    alone.  The hypotheses are the assertions of the routine and the
    presence in the callout queue of the event the query holds. *)
Theorem dq_pmsg_free_accounting (s : dq_state) (mb : pmsg) (arg : Z)
    (pmi : pmsg_info) (q : dquery) :
  pmi_mem s !! arg = Some pmi ->
  pmsg_is_extended mb = true ->
  pmi_dq pmi ∈ dqueries s ->
  mem s !! pmi_dq pmi = Some q ->
  qid q = pmi_qid pmi ->
  0 < pending q < 2 ^ 32 ->
  (pmsg_was_sent mb = false -> pmi_node_id pmi ∈ queried q) ->
  (pmsg_was_sent mb = true -> 0 < pmi_degree pmi /\ 0 < pmi_ttl pmi) ->
  (forall ev, results_ev q = Some ev -> is_Some (callout_queue s !! ev)) ->
  exists s' q',
    dq_pmsg_free mb arg s = Some (tt, s')
    /\ mem s' !! pmi_dq pmi = Some q'
    /\ pmi_mem s' = delete arg (pmi_mem s)
    /\ pending q' = pending q - 1
    /\ (pmsg_was_sent mb = false ->
        queried q' = queried q ∖ {[pmi_node_id pmi]}
        /\ up_sent q' = up_sent q /\ horizon q' = horizon q
        /\ match results_ev q with
           | Some ev =>
               if pending q' =? 0
               then rescheduled (callout_queue s) (callout_queue s') ev 1
               else callout_queue s' = callout_queue s
           | None => callout_queue s' = callout_queue s
           end)
    /\ (pmsg_was_sent mb = true ->
        exists h, dq_get_horizon (pmi_degree pmi) (pmi_ttl pmi) = Some h
        /\ up_sent q' = u32 (up_sent q + 1)
        /\ horizon q' = u32 (horizon q + h)
        /\ queried q' = queried q
        /\ callout_queue s' = callout_queue s).
Proof.
  intros Hp Hx Hin Hq Hid Hpend Hdrop Hsent Hev.
  unfold dq_pmsg_free, bind at 1, get_pmi. rewrite Hp.
  unfold bind at 1, g_assert. rewrite Hx.
  unfold bind at 1. rewrite (dq_alive_true s _ _ q) by assumption.
  cbn [negb].
  assert (Hpos : (0 <? pending q) = true) by (apply Z.ltb_lt; lia).
  assert (Hdec : u32 (pending q - 1) = pending q - 1) by (apply u32_small; lia).
  destruct (pmsg_was_sent mb) eqn:Hs.
  - destruct (Hsent eq_refl) as [Hdeg Httl].
    destruct (dq_get_horizon_defined (pmi_degree pmi) (pmi_ttl pmi) Hdeg Httl)
      as [h Hh].
    unfold bind, get_dq, put_dq, g_assert, lift, dq_pmi_free. rewrite Hq, Hpos.
    cbn. rewrite Hh.
    eexists _, _. split; [reflexivity|]. cbn.
    rewrite lookup_insert_eq.
    repeat split; try discriminate.
    + exact Hdec.
    + intros _. eexists. repeat split.
  - unfold bind, get_dq, put_dq, g_assert, lift, dq_pmi_free. rewrite Hq, Hpos.
    cbn.
    rewrite (bool_decide_eq_true_2 _ (Hdrop eq_refl)).
    destruct (results_ev q) as [ev|] eqn:Hrev.
    + rewrite Hdec. destruct (pending q - 1 =? 0) eqn:Hz.
      * destruct (Hev ev eq_refl) as [ce Hce].
        unfold cq_resched. cbn. rewrite Hce.
        eexists _, _. split; [reflexivity|]. cbn.
        rewrite lookup_insert_eq. repeat split; try discriminate.
        cbn. rewrite Hz. exists ce. split; [assumption|reflexivity].
      * unfold ret. eexists _, _. split; [reflexivity|]. cbn.
        rewrite lookup_insert_eq. repeat split; try discriminate.
        cbn. rewrite Hz. reflexivity.
    + unfold ret. eexists _, _. split; [reflexivity|]. cbn.
      rewrite lookup_insert_eq. repeat split; try discriminate.
      exact Hdec.
Qed.

Lemma dq_pmsg_free_accounting_witness :
  (exists s' q',
     dq_pmsg_free mb_dropped 2000 s0 = Some (tt, s')
     /\ mem s' !! 1000 = Some q'
     /\ pending q' = 0
     /\ queried q' = queried q0 ∖ {[ 12 ]}
     /\ rescheduled (callout_queue s0) (callout_queue s') 2 1)
  /\ (exists s' q',
     dq_pmsg_free mb_sent 2000 s0 = Some (tt, s')
     /\ mem s' !! 1000 = Some q'
     /\ pending q' = 0
     /\ up_sent q' = 2
     /\ horizon q' = 14).
Proof.
  assert (Hev : forall ev, results_ev q0 = Some ev ->
                           is_Some (callout_queue s0 !! ev)).
  { intros ev Hev. injection Hev as <-. eexists. reflexivity. }
  split.
  - destruct (dq_pmsg_free_accounting s0 mb_dropped 2000 pmi0 q0)
      as (s' & q' & Hrun & Hq' & _ & Hpend & Hdrop & _);
      [reflexivity | reflexivity | vm_compute; reflexivity | reflexivity
      | reflexivity | vm_compute; split; reflexivity
      | intros _; vm_compute; reflexivity | discriminate | exact Hev |].
    destruct (Hdrop eq_refl) as (Hqd & _ & _ & Hcq).
    exists s', q'. cbn in Hpend, Hcq. rewrite Hpend in Hcq. cbn in Hcq.
    repeat split; assumption.
  - destruct (dq_pmsg_free_accounting s0 mb_sent 2000 pmi0 q0)
      as (s' & q' & Hrun & Hq' & _ & Hpend & _ & Hsent);
      [reflexivity | reflexivity | vm_compute; reflexivity | reflexivity
      | reflexivity | vm_compute; split; reflexivity
      | discriminate | intros _; vm_compute; split; reflexivity | exact Hev |].
    destruct (Hsent eq_refl) as (h & Hh & Hup & Hhor & _).
    assert (h = 4) as -> by (vm_compute in Hh; congruence).
    exists s', q'. repeat split; assumption.
Defined.

(** C3: a free routine invoked with a stale (query, query ID) pair, the
    query being no longer in [dqueries] or bearing another ID, only
    discards the metadata: memory, tables, callout queue and trace are
    what they were. *)
Theorem dq_pmsg_free_stale (s : dq_state) (mb : pmsg) (arg : Z) (pmi : pmsg_info) :
  pmi_mem s !! arg = Some pmi ->
  pmsg_is_extended mb = true ->
  (pmi_dq pmi ∉ dqueries s
   \/ exists q, mem s !! pmi_dq pmi = Some q /\ qid q <> pmi_qid pmi) ->
  exists s',
    dq_pmsg_free mb arg s = Some (tt, s')
    /\ same_queries s s'
    /\ pmi_mem s' = delete arg (pmi_mem s).
Proof.
  intros Hp Hx Hstale.
  unfold dq_pmsg_free, bind at 1, get_pmi. rewrite Hp.
  unfold bind at 1, g_assert. rewrite Hx.
  unfold bind at 1. rewrite dq_alive_stale by assumption.
  cbn. eexists. split; [reflexivity|].
  unfold same_queries. cbn. repeat split.
Qed.

Lemma dq_pmsg_free_stale_witness :
  exists s',
    dq_pmsg_free mb_sent 2000 s_ghost = Some (tt, s')
    /\ same_queries s_ghost s'
    /\ pmi_mem s' = delete 2000 (pmi_mem s_ghost).
Proof.
  apply (dq_pmsg_free_stale s_ghost mb_sent 2000 pmi_ghost).
  - reflexivity.
  - reflexivity.
  - right. exists q0. split; [reflexivity | discriminate].
Defined.

(** ** Flags *)

Lemma has_flag_set_flag (fl g f : Z) :
  has_flag (set_flag fl g) f = has_flag fl f || has_flag g f.
Proof.
  unfold has_flag, set_flag. rewrite Z.land_lor_distr_l.
  destruct (Z.land fl f =? 0) eqn:H1, (Z.land g f =? 0) eqn:H2; cbn.
  - apply Z.eqb_eq in H1, H2. rewrite H1, H2. reflexivity.
  - apply negb_true_iff, Z.eqb_neq. rewrite Z.lor_eq_0_iff.
    apply Z.eqb_neq in H2. tauto.
  - apply negb_true_iff, Z.eqb_neq. rewrite Z.lor_eq_0_iff.
    apply Z.eqb_neq in H1. tauto.
  - apply negb_true_iff, Z.eqb_neq. rewrite Z.lor_eq_0_iff.
    apply Z.eqb_neq in H1. tauto.
Qed.

Lemma has_flag_either (fl f g : Z) :
  has_flag fl (Z.lor f g) = has_flag fl f || has_flag fl g.
Proof.
  unfold has_flag. rewrite Z.land_lor_distr_r.
  destruct (Z.land fl f =? 0) eqn:H1, (Z.land fl g =? 0) eqn:H2; cbn.
  - apply Z.eqb_eq in H1, H2. rewrite H1, H2. reflexivity.
  - apply negb_true_iff, Z.eqb_neq. rewrite Z.lor_eq_0_iff.
    apply Z.eqb_neq in H2. tauto.
  - apply negb_true_iff, Z.eqb_neq. rewrite Z.lor_eq_0_iff.
    apply Z.eqb_neq in H1. tauto.
  - apply negb_true_iff, Z.eqb_neq. rewrite Z.lor_eq_0_iff.
    apply Z.eqb_neq in H1. tauto.
Qed.

(** ** The kept-results estimate *)

Lemma set_mem_id (s : dq_state) : set_mem (mem s) s = s.
Proof. destruct s. reflexivity. Qed.

Lemma dq_kept_results_run (E : env) (s : dq_state) (dq : Z) (q : dquery) :
  mem s !! dq = Some q ->
  dq_kept_results E dq s =
  Some (kept_estimate E q, set_mem (<[dq := kept_refreshed E q]> (mem s)) s).
Proof.
  intros Hq. unfold dq_kept_results, kept_estimate, kept_refreshed, bind, get_dq.
  rewrite Hq. destruct (node_id q =? NODE_ID_SELF E).
  - reflexivity.
  - unfold ret. rewrite insert_id by assumption. rewrite set_mem_id. reflexivity.
Qed.

Lemma kept_refreshed_fields (E : env) (q : dquery) :
  horizon (kept_refreshed E q) = horizon q
  /\ max_results (kept_refreshed E q) = max_results q
  /\ fin_results (kept_refreshed E q) = fin_results q
  /\ results (kept_refreshed E q) = results q
  /\ oob_results (kept_refreshed E q) = oob_results q
  /\ up_sent (kept_refreshed E q) = up_sent q
  /\ pending (kept_refreshed E q) = pending q
  /\ result_timeout (kept_refreshed E q) = result_timeout q
  /\ flags (kept_refreshed E q) = flags q
  /\ ttl (kept_refreshed E q) = ttl q.
Proof. unfold kept_refreshed. destruct (_ =? _); repeat split. Qed.

(** ** TTL selection *)

(** The descending loop stops at the largest TTL that fits. *)
Lemma select_ttl_loop_largest (degree : Z) (target : B64.t) (n : nat) :
  0 < degree ->
  exists t,
    select_ttl_loop degree target n = Some t
    /\ 0 <= t <= Z.of_nat n
    /\ (0 < t -> ttl_fits degree target t = true)
    /\ (forall t', t < t' <= Z.of_nat n -> ttl_fits degree target t' = false).
Proof.
  intros Hd. induction n as [|n IH].
  - exists 0. cbn. repeat split; try lia.
  - cbn [select_ttl_loop].
    destruct (dq_get_horizon degree (Z.of_nat (S n))) as [h|] eqn:Hh.
    + destruct (B64.leb (B64.of_Z h) target) eqn:Hfit.
      * exists (Z.of_nat (S n)). split; [reflexivity|]. split; [lia|].
        split; [|intros t' Ht'; lia].
        intros _. unfold ttl_fits. rewrite Hh. exact Hfit.
      * destruct IH as (t & Ht & Hr & Hf & Hl).
        exists t. split; [exact Ht|]. split; [lia|]. split; [exact Hf|].
        intros t' Ht'.
        destruct (Z.eq_dec t' (Z.of_nat (S n))) as [->|Hne].
        -- unfold ttl_fits. rewrite Hh. exact Hfit.
        -- apply Hl. lia.
    + unfold dq_get_horizon in Hh.
      replace (0 <? degree) with true in Hh by (symmetry; apply Z.ltb_lt; lia).
      replace (0 <? Z.of_nat (S n)) with true in Hh by (symmetry; apply Z.ltb_lt; lia).
      discriminate.
Qed.

Lemma hosts_to_reach_refreshed (E : env) (q : dquery) (kept connections : Z) :
  hosts_to_reach_via_node (kept_refreshed E q) kept connections =
  hosts_to_reach_via_node q kept connections.
Proof.
  unfold kept_refreshed. destruct (_ =? _); reflexivity.
Qed.

(** C5, as the code has it: for a query whose kept-results estimate is
    below [max_results] and a positive number of connections,
    [dq_select_ttl] returns the largest TTL up to min(node max_ttl, query
    ttl) whose horizon for the node's degree does not exceed the number of
    hosts to reach through the node that it has computed; when no TTL
    qualifies it returns that minimum.  The result lies between 1 and the
    minimum.  Whenever max(horizon, 1) divides [results], the number of
    hosts to reach through the node is the one of the specification: the
    results still needed, divided by max(results_per_up, 0.000001) and
    then by the connections, results_per_up being the ratio of [results]
    to max(horizon, 1). *)
Theorem dq_select_ttl_largest (E : env) (s : dq_state) (dq : Z) (q : dquery)
    (node : gnutella_node) (connections : Z) :
  mem s !! dq = Some q ->
  0 <= kept_estimate E q < max_results q -> max_results q < 2 ^ 32 ->
  0 < connections ->
  0 < n_degree node ->
  1 <= Z.min (n_max_ttl node) (ttl q) ->
  let limit := Z.min (n_max_ttl node) (ttl q) in
  let target := hosts_to_reach_via_node q (kept_estimate E q) connections in
  (0 <= results q < 2 ^ 32 -> 0 <= horizon q < 2 ^ 32 ->
   results q mod Z.max (horizon q) 1 = 0 ->
   target =
     B64.div
       (B64.div (B64.of_Z (max_results q - kept_estimate E q))
                (B64.max (B64.div (B64.of_Z (results q))
                                  (B64.of_Z (Z.max (horizon q) 1)))
                         (B64.literal 1 1000000)))
       (B64.of_Z connections))
  /\ exists t s',
    dq_select_ttl E dq node connections s = Some (t, s')
    /\ 1 <= t <= limit
    /\ ((exists t0, 1 <= t0 <= limit /\ ttl_fits (n_degree node) target t0 = true) ->
        ttl_fits (n_degree node) target t = true
        /\ forall t', t < t' <= limit -> ttl_fits (n_degree node) target t' = false)
    /\ ((forall t0, 1 <= t0 <= limit -> ttl_fits (n_degree node) target t0 = false) ->
        t = limit).
Proof.
  intros Hq Hest Hmax Hconn Hdeg Hlim limit target.
  split.
  { intros Hres Hhor Hdiv.
    unfold target, hosts_to_reach_via_node, hosts_to_reach, results_per_up.
    rewrite u32_small by lia.
    rewrite (b64_div_exact (results q) (Z.max (horizon q) 1)) by (assumption || lia).
    reflexivity. }
  destruct (kept_refreshed_fields E q) as (_ & Hmr & _ & _ & _ & _ & _ & _ & _ & Httl).
  destruct (select_ttl_loop_largest (n_degree node) target (Z.to_nat limit) Hdeg)
    as (t & Hloop & Hr & Hfit & Hlarger).
  rewrite Z2Nat.id in Hr, Hlarger by (unfold limit; lia).
  unfold dq_select_ttl, bind at 1, g_assert.
  test_holds (0 <? connections).
  unfold bind at 1. rewrite (dq_kept_results_run E s dq q Hq).
  unfold bind at 1, get_dq at 1. cbn [mem set_mem]. rewrite lookup_insert_eq.
  rewrite Hmr, Httl, hosts_to_reach_refreshed.
  unfold bind at 1, g_assert.
  rewrite u32_small by lia.
  test_holds (0 <? max_results q - kept_estimate E q).
  fold limit. fold target. unfold bind at 1, lift. rewrite Hloop.
  destruct (t =? 0) eqn:Ht0.
  - apply Z.eqb_eq in Ht0. subst t.
    unfold bind, g_assert, ret.
    replace (0 <? limit) with true by (symmetry; apply Z.ltb_lt; unfold limit; lia).
    eexists _, _. split; [reflexivity|]. split; [unfold limit; lia|]. split.
    + intros (t0 & Ht0 & Hf0). rewrite Hlarger in Hf0 by lia. discriminate.
    + reflexivity.
  - apply Z.eqb_neq in Ht0.
    unfold bind, g_assert, ret.
    test_holds (0 <? t).
    eexists _, _. split; [reflexivity|]. split; [lia|]. split.
    + intros _. split; [apply Hfit; lia | exact Hlarger].
    + intros Hnone. rewrite Hnone in Hfit by lia.
      assert (0 < t) by lia. specialize (Hfit H). discriminate.
Qed.

Lemma dq_select_ttl_largest_witness :
  (exists t s',
     dq_select_ttl E0 1000 node6 1 s_sel = Some (t, s')
     /\ 1 <= t <= 4
     /\ ttl_fits 6 (hosts_to_reach_via_node q_sel 20 1) t = true)
  /\ hosts_to_reach_via_node q_sel 20 1 =
     B64.div
       (B64.div (B64.of_Z 30)
                (B64.max (B64.div (B64.of_Z 20) (B64.of_Z 10))
                         (B64.literal 1 1000000)))
       (B64.of_Z 1).
Proof.
  destruct (dq_select_ttl_largest E0 s_sel 1000 q_sel node6 1)
    as (Htarget & t & s' & Hrun & Hr & Hsome & _);
    [reflexivity | vm_compute; split; [discriminate | reflexivity]
    | reflexivity | reflexivity | reflexivity | vm_compute; discriminate |].
  split.
  - destruct Hsome as [Hfit _].
    { exists 1. split; [lia | vm_compute; reflexivity]. }
    exists t, s'. split; [exact Hrun|]. split; [exact Hr | exact Hfit].
  - apply Htarget;
      [ vm_compute; split; [discriminate | reflexivity]
      | vm_compute; split; [discriminate | reflexivity]
      | reflexivity ].
Defined.

(** C5, as stated, fails: with 30 results needed, 2 results per UP and
    one connection, 15 hosts are to be reached through a node of degree
    6, whose horizons are 1, 4, 19 and 79; the smallest TTL that fits is
    1, and the code returns 2. *)
Lemma dq_select_ttl_not_smallest :
  (exists s', dq_select_ttl E0 1000 node6 1 s_sel = Some (2, s'))
  /\ spec_select_ttl (n_degree node6)
       (hosts_to_reach_via_node q_sel (kept_estimate E0 q_sel) 1)
       (Z.min (n_max_ttl node6) (ttl q_sel)) = 1.
Proof.
  split; [eexists; vm_compute; reflexivity | vm_compute; reflexivity].
Qed.

(** Off the multiples of the horizon the routine does not work on the
    ratio: [results / MAX(horizon, 1)] divides two [guint32] before the
    conversion to [gdouble].  With 19 results for a horizon of 10 it
    takes 1 result per UP where the ratio is 1.9, and returns the TTL 3
    where the largest TTL that fits the ratio is 2. *)
Lemma dq_select_ttl_truncated_quotient :
  results_per_up q_odd = B64.of_Z 1
  /\ (exists s', dq_select_ttl E0 1000 node6 1 s_odd = Some (3, s'))
  /\ (let ratio := B64.div (B64.of_Z 19) (B64.of_Z 10) in
      let target :=
        B64.div (B64.div (B64.of_Z 31) (B64.max ratio (B64.literal 1 1000000)))
                (B64.of_Z 1) in
      ttl_fits 6 target 2 = true /\ ttl_fits 6 target 3 = false).
Proof.
  split; [vm_compute; reflexivity|].
  split; [eexists; vm_compute; reflexivity|].
  split; vm_compute; reflexivity.
Qed.

(** ** The tests of [dq_send_next] *)

(** The decision of [dq_send_next], test by test: the query is terminated
    when we are no longer an ultrapeer, or when one of the four tests
    succeeds; otherwise, with 3 or more messages pending, the results
    event is armed for [result_timeout] and nothing is sent; otherwise the
    step goes on with the selection of an UP. *)
Lemma dq_send_next_checks (E : env) (s : dq_state) (dq : Z) (q : dquery) :
  mem s !! dq = Some q -> results_ev q = None ->
  (current_peermode_ultra E = false ->
   dq_send_next E dq s = dq_terminate dq s)
  /\ (current_peermode_ultra E = true -> stop_test E q ->
      dq_send_next E dq s = dq_terminate dq (refreshed E s dq q))
  /\ (current_peermode_ultra E = true -> ~ stop_test E q ->
      DQ_MAX_PENDING <= pending q ->
      dq_send_next E dq s =
      wait_for_pending dq (kept_refreshed E q) (refreshed E s dq q))
  /\ (current_peermode_ultra E = true -> ~ stop_test E q ->
      pending q < DQ_MAX_PENDING ->
      dq_send_next E dq s =
      dq_send_next_select E dq (kept_estimate E q) (refreshed E s dq q)).
Proof.
  intros Hq Hre.
  destruct (kept_refreshed_fields E q)
    as (Hh & Hmr & Hfr & Hr & Ho & Hu & Hp & Hrt & _).
  assert (Hrun : dq_send_next E dq s =
    if negb (current_peermode_ultra E) then dq_terminate dq s
    else if (DQ_MAX_HORIZON <=? horizon q) || (max_results q <=? kept_estimate E q)
    then dq_terminate dq (refreshed E s dq q)
    else if fin_results q <? u32 (results q + oob_results q)
    then dq_terminate dq (refreshed E s dq q)
    else if up_bound E <=? up_sent q
    then dq_terminate dq (refreshed E s dq q)
    else if DQ_MAX_PENDING <=? pending q
    then wait_for_pending dq (kept_refreshed E q) (refreshed E s dq q)
    else dq_send_next_select E dq (kept_estimate E q) (refreshed E s dq q)).
  { unfold dq_send_next. unfold bind at 1, get_dq at 1. rewrite Hq.
    unfold bind at 1, g_assert. rewrite Hre.
    rewrite bool_decide_eq_true_2 by reflexivity.
    destruct (current_peermode_ultra E); cbn [negb]; [|reflexivity].
    unfold bind at 1. rewrite (dq_kept_results_run E s dq q Hq).
    unfold bind at 1, get_dq at 1. cbn [mem set_mem]. rewrite lookup_insert_eq.
    rewrite Hh, Hmr, Hfr, Hr, Ho, Hu, Hp. fold (refreshed E s dq q).
    repeat match goal with |- context [if ?b then _ else _] => destruct b end;
      reflexivity. }
  rewrite Hrun. clear Hrun.
  destruct (current_peermode_ultra E); cbn [negb].
  2:{ split; [reflexivity|]. repeat split; discriminate. }
  split; [discriminate|].
  unfold stop_test.
  destruct (DQ_MAX_HORIZON <=? horizon q) eqn:T1; cbn [orb].
  { apply Z.leb_le in T1. split; [reflexivity|]. split; intros _ Hn; tauto. }
  apply Z.leb_gt in T1.
  destruct (max_results q <=? kept_estimate E q) eqn:T2.
  { apply Z.leb_le in T2. split; [reflexivity|]. split; intros _ Hn; tauto. }
  apply Z.leb_gt in T2.
  destruct (fin_results q <? u32 (results q + oob_results q)) eqn:T3.
  { apply Z.ltb_lt in T3. split; [reflexivity|]. split; intros _ Hn; tauto. }
  apply Z.ltb_ge in T3.
  destruct (up_bound E <=? up_sent q) eqn:T4.
  { apply Z.leb_le in T4. split; [reflexivity|]. split; intros _ Hn; tauto. }
  apply Z.leb_gt in T4.
  split; [intros _ Hs; lia|].
  destruct (DQ_MAX_PENDING <=? pending q) eqn:T5.
  - apply Z.leb_le in T5. split; [reflexivity|]. intros _ _ Hlt. lia.
  - apply Z.leb_gt in T5. split; [intros _ _ Hge; lia | reflexivity].
Qed.

(** The four tests as the specification words them differ from those of
    the code at one point only: results seen and announced that sum
    exactly to [fin_results]. *)
Lemma stop_test_boundary (E : env) (q : dquery) :
  0 <= results q + oob_results q < 2 ^ 32 ->
  spec_stop_test E q <->
  stop_test E q \/ results q + oob_results q = fin_results q.
Proof.
  intros Hr. unfold spec_stop_test, stop_test, DQ_MAX_HORIZON.
  rewrite u32_small by assumption. lia.
Qed.

(** C1 at the boundary: we are an ultrapeer, the results seen are
    exactly [fin_results], so that the tests hold as the specification
    words them and not as the code has them, and three messages are
    pending.  The query is not terminated: the results event is armed for
    [result_timeout].  With one more result it is terminated. *)
Theorem dq_send_next_at_fin_results :
  current_peermode_ultra E0 = true
  /\ results q_fin + oob_results q_fin = fin_results q_fin
  /\ spec_stop_test E0 q_fin
  /\ ~ stop_test E0 q_fin
  /\ (exists s' q',
        dq_send_next E0 1000 s_fin = Some (tt, s')
        /\ mem s' !! 1000 = Some q'
        /\ has_flag (flags q') DQ_F_LINGER = false
        /\ results_ev q' = Some 3
        /\ callout_queue s' !! 3 =
           Some {| ce_delay := 3700; ce_fn := cb_dq_results_expired; ce_arg := 1000 |})
  /\ (exists s' q',
        dq_send_next E0 1000 s_fin_more = Some (tt, s')
        /\ mem s' !! 1000 = Some q'
        /\ has_flag (flags q') DQ_F_LINGER = true
        /\ results_ev q' = None).
Proof.
  split; [reflexivity|]. split; [reflexivity|].
  split; [right; right; left; vm_compute; discriminate|]. split.
  - unfold stop_test. intros [H|[H|[H|H]]]; vm_compute in H;
      first [discriminate H | apply H; reflexivity].
  - split; eexists _, _.
    + split; [vm_compute; reflexivity|].
      split; [vm_compute; reflexivity|]. repeat split.
    + split; [vm_compute; reflexivity|].
      split; [vm_compute; reflexivity|]. repeat split.
Qed.

(** ** The guidance request *)

(** When the results timer fires for a leaf-guided query that is due for
    guidance, the status request is sent to the leaf and the results event
    is armed with the delay computed from the round-trip statistics. *)
Lemma dq_results_expired_asks (E : env) (s : dq_state) (dq : Z) (q : dquery)
    (n : gnutella_node) (pings : Z) :
  mem s !! dq = Some q ->
  has_flag (flags q) DQ_F_LINGER = false ->
  has_flag (flags q) DQ_F_WAITING = false ->
  has_flag (flags q) DQ_F_LEAF_GUIDED = true ->
  DQ_STAT_THRESHOLD <= u32 (up_sent q - last_status q) ->
  (has_flag (flags q) DQ_F_ROUTING_HITS = false \/ DQ_MIN_FOR_GUIDANCE <= new_results q) ->
  node_id q <> NODE_ID_SELF E ->
  alive q = Some pings ->
  node_active_by_id E (node_id q) = Some n ->
  exists s' q',
    dq_results_expired E dq s = Some (tt, s')
    /\ trace s' = vmsg_send_qstat_req n (default (muid q) (lmuid q)) :: trace s
    /\ mem s' !! dq = Some q'
    /\ has_flag (flags q') DQ_F_WAITING = true
    /\ results_ev q' = Some (cq_next s)
    /\ callout_queue s' =
       <[cq_next s :=
           {| ce_delay :=
                Z.max (s32 (u32 (fst (alive_get_roundtrip_ms E pings)
                                 + snd (alive_get_roundtrip_ms E pings)) / 2000))
                      DQ_STATUS_TIMEOUT;
              ce_fn := cb_dq_results_expired; ce_arg := dq |}]> (callout_queue s).
Proof.
  intros Hq Hl Hw Hg Hth Hnew Hself Halive Hnode.
  unfold dq_results_expired, bind at 1, get_dq at 1. rewrite Hq.
  unfold bind at 1, g_assert. rewrite Hl. cbn [negb].
  unfold bind at 1, put_dq at 1.
  cbn [flags set_results_ev]. rewrite Hw.
  unfold bind at 1, ret at 1.
  unfold bind at 1, get_dq at 1. cbn [mem set_mem]. rewrite lookup_insert_eq.
  cbn [flags set_results_ev up_sent last_status new_results node_id alive lmuid muid].
  rewrite has_flag_either, Hg. cbn [orb negb].
  test_fails (u32 (up_sent q - last_status q) <? DQ_STAT_THRESHOLD).
  replace (has_flag (flags q) DQ_F_ROUTING_HITS && (new_results q <? DQ_MIN_FOR_GUIDANCE))
    with false.
  2:{ symmetry. apply andb_false_iff. destruct Hnew as [H|H]; [left; exact H|].
      right. apply Z.ltb_ge. lia. }
  cbn [orb].
  unfold bind at 1, g_assert.
  test_fails (node_id q =? NODE_ID_SELF E).
  cbn [negb]. rewrite Halive, Hnode.
  destruct (alive_get_roundtrip_ms E pings) as [avg last] eqn:Hrtt.
  unfold bind, put_dq, emit, cq_insert. cbn.
  eexists _, _. split; [reflexivity|]. cbn.
  split. { destruct (lmuid q); reflexivity. }
  rewrite lookup_insert_eq. split; [reflexivity|]. cbn.
  split. { rewrite has_flag_set_flag. apply orb_true_r. }
  split; reflexivity.
Qed.

(** C9 at round trips of 100 s: half the sum of the average and the last
    round trip is 100000 ms, above the 40 s floor, and the results event
    that waits for the leaf's answer is armed at 40000 ms. *)
Theorem dq_results_expired_rtt_100s :
  alive_get_roundtrip_ms E0 1 = (100000, 100000)
  /\ Z.max 40000 ((100000 + 100000) / 2) = 100000
  /\ exists s' q',
       dq_results_expired E0 1000 s_ask = Some (tt, s')
       /\ trace s' = [vmsg_send_qstat_req node7 100]
       /\ mem s' !! 1000 = Some q'
       /\ has_flag (flags q') DQ_F_WAITING = true
       /\ results_ev q' = Some 3
       /\ callout_queue s' !! 3 =
          Some {| ce_delay := 40000; ce_fn := cb_dq_results_expired; ce_arg := 1000 |}.
Proof.
  split; [reflexivity|]. split; [reflexivity|].
  eexists _, _.
  split; [vm_compute; reflexivity|].
  split; [reflexivity|].
  split; [vm_compute; reflexivity|]. repeat split.
Qed.

(** ** Results wanted *)

(** C7, as the code has it: [dq_get_results_wanted] reports no query for
    an unregistered MUID; otherwise 0 for a user-cancelled query; else
    [max_results] minus the kept-results estimate when that estimate is
    below [max_results]; else 1 when guidance was received and the
    [kept_results] field is below [fin_results]; else 0. *)
Theorem dq_get_results_wanted_cases (E : env) (s : dq_state) (m : Z) :
  (by_muid s !! m = None -> dq_get_results_wanted E m s = Some (None, s))
  /\ (forall dq q,
        by_muid s !! m = Some dq -> mem s !! dq = Some q ->
        0 <= kept_estimate E q -> max_results q < 2 ^ 32 ->
        exists n s',
          dq_get_results_wanted E m s = Some (Some n, s')
          /\ (has_flag (flags q) DQ_F_USR_CANCELLED = true -> n = 0)
          /\ (has_flag (flags q) DQ_F_USR_CANCELLED = false ->
              (kept_estimate E q < max_results q ->
               n = max_results q - kept_estimate E q)
              /\ (max_results q <= kept_estimate E q ->
                  has_flag (flags q) DQ_F_GOT_GUIDANCE = true ->
                  kept_results (kept_refreshed E q) < fin_results q ->
                  n = 1)
              /\ (max_results q <= kept_estimate E q ->
                  has_flag (flags q) DQ_F_GOT_GUIDANCE = false
                  \/ fin_results q <= kept_results (kept_refreshed E q) ->
                  n = 0))).
Proof.
  split.
  - intros Hm. unfold dq_get_results_wanted, bind, the_state. rewrite Hm. reflexivity.
  - intros dq q Hm Hq Hest Hmax.
    unfold dq_get_results_wanted, bind at 1, the_state. rewrite Hm.
    unfold bind at 1, get_dq at 1. rewrite Hq.
    destruct (has_flag (flags q) DQ_F_USR_CANCELLED) eqn:Hc.
    + eexists _, _. split; [reflexivity|]. split; [reflexivity|discriminate].
    + unfold bind at 1. rewrite (dq_kept_results_run E s dq q Hq).
      unfold bind, get_dq. cbn [mem set_mem]. rewrite lookup_insert_eq.
      assert (Hmr : max_results (kept_refreshed E q) = max_results q)
        by (unfold kept_refreshed; destruct (_ =? _); reflexivity).
      assert (Hfr : fin_results (kept_refreshed E q) = fin_results q)
        by (unfold kept_refreshed; destruct (_ =? _); reflexivity).
      assert (Hfl : flags (kept_refreshed E q) = flags q)
        by (unfold kept_refreshed; destruct (_ =? _); reflexivity).
      rewrite Hmr, Hfr, Hfl.
      destruct (kept_estimate E q <? max_results q) eqn:Hlt.
      * apply Z.ltb_lt in Hlt.
        eexists _, _. split; [reflexivity|]. split; [discriminate|].
        intros _. split; [|split].
        -- intros _. apply u32_small. lia.
        -- intros H. lia.
        -- intros H. lia.
      * apply Z.ltb_ge in Hlt.
        destruct (has_flag (flags q) DQ_F_GOT_GUIDANCE) eqn:Hg; cbn [andb].
        -- destruct (kept_results (kept_refreshed E q) <? fin_results q) eqn:Hf.
           ++ apply Z.ltb_lt in Hf.
              eexists _, _. split; [reflexivity|]. split; [discriminate|].
              intros _. split; [|split].
              ** intros H. lia.
              ** reflexivity.
              ** intros _ [H|H]; [discriminate|lia].
           ++ apply Z.ltb_ge in Hf.
              eexists _, _. split; [reflexivity|]. split; [discriminate|].
              intros _. split; [|split].
              ** intros H. lia.
              ** intros _ _ H. lia.
              ** reflexivity.
        -- eexists _, _. split; [reflexivity|]. split; [discriminate|].
           intros _. split; [|split].
           ++ intros H. lia.
           ++ intros _ H. discriminate.
           ++ reflexivity.
Qed.

Lemma dq_get_results_wanted_cases_witness :
  exists n s',
    dq_get_results_wanted E0 100 s0 = Some (Some n, s') /\ n = 45.
Proof.
  destruct (dq_get_results_wanted_cases E0 s0 100) as [_ H].
  destruct (H 1000 q0) as (n & s' & Hrun & _ & Hn);
    [reflexivity | reflexivity | vm_compute; discriminate | reflexivity |].
  destruct (Hn eq_refl) as (Hlt & _).
  exists n, s'. split; [exact Hrun|]. apply Hlt. reflexivity.
Defined.

(** C7, as stated, fails whichever of the two quantities its
    "kept_results" names.  Read as the [kept_results] field: the unguided
    query of the scenario has seen 5 results and its field is 0; the code
    wants 45, the claim 50.  Read as the estimate: for the guided query the
    leaf reported 1200 kept results, the estimate is 400; the code wants
    0, the claim 1. *)
Lemma dq_get_results_wanted_not_spec :
  (exists s', dq_get_results_wanted E0 100 s0 = Some (Some 45, s'))
  /\ spec_results_wanted q0 (kept_results q0) = 50
  /\ (exists s', dq_get_results_wanted E0 100 s_guided = Some (Some 0, s'))
  /\ spec_results_wanted q_guided (kept_estimate E0 q_guided) = 1.
Proof.
  split; [eexists; vm_compute; reflexivity|].
  split; [vm_compute; reflexivity|].
  split; [eexists; vm_compute; reflexivity|].
  vm_compute; reflexivity.
Qed.

(** ** OOB accounting *)

(** [dq_oob_results_got] on its own. *)
Lemma dq_oob_results_got_run (s : dq_state) (m c dq : Z) (q : dquery) :
  by_muid s !! m = Some dq -> mem s !! dq = Some q ->
  0 < c <= INT_MAX -> 0 <= oob_results q < 2 ^ 32 ->
  dq_oob_results_got m c s =
  Some (tt, set_mem (<[dq := upd F_oob_results (Z.max 0 (oob_results q - c)) q]> (mem s)) s).
Proof.
  intros Hm Hq Hc Ho.
  unfold dq_oob_results_got, bind, g_assert, the_state, get_dq, put_dq.
  test_holds ((0 <? c) && (c <=? INT_MAX)).
  rewrite Hm, Hq.
  destruct (c <? oob_results q) eqn:Hlt.
  - apply Z.ltb_lt in Hlt. rewrite u32_small by lia.
    replace (Z.max 0 (oob_results q - c)) with (oob_results q - c) by lia.
    reflexivity.
  - apply Z.ltb_ge in Hlt.
    replace (Z.max 0 (oob_results q - c)) with 0 by lia.
    reflexivity.
Qed.

(** [dq_oob_results_ind] for a query that is not lingering. *)
Lemma dq_oob_results_ind_run (E : env) (s : dq_state) (m c dq : Z) (q : dquery) :
  by_muid s !! m = Some dq -> mem s !! dq = Some q ->
  has_flag (flags q) DQ_F_LINGER = false -> 0 < c ->
  exists q1,
    dq_oob_results_ind E m c s =
      Some (negb (has_flag (flags q) DQ_F_USR_CANCELLED),
            set_mem (<[dq := q1]> (mem s)) s)
    /\ oob_results q1 = u32 (oob_results q + c).
Proof.
  intros Hm Hq Hl Hc.
  unfold dq_oob_results_ind, dq_count_results, bind, g_assert, the_state, get_dq, put_dq.
  test_holds (0 <? c).
  rewrite Hm, Hq. cbn [negb andb]. rewrite Hl.
  cbn [mem set_mem]. rewrite lookup_insert_eq.
  destruct ((19 <? dq_debug E) && _) eqn:Hd.
  - cbn. unfold ret. rewrite insert_insert_eq. eexists. split; [reflexivity|]. reflexivity.
  - unfold ret. eexists. split; [reflexivity|]. reflexivity.
Qed.

(** C8, as the code has it: for a query that is not lingering, and a
    count c > 0 that does not overflow the counter, [dq_oob_results_got]
    after [dq_oob_results_ind] leaves [oob_results] at its value before
    the indication; and for any query [dq_oob_results_got] on its own
    lowers [oob_results] by c, stopping at zero. *)
Theorem dq_oob_results_ind_got (E : env) (s : dq_state) (m c dq : Z) (q : dquery) :
  by_muid s !! m = Some dq -> mem s !! dq = Some q ->
  0 < c <= INT_MAX -> 0 <= oob_results q < 2 ^ 32 ->
  (has_flag (flags q) DQ_F_LINGER = false -> oob_results q + c < 2 ^ 32 ->
   exists claim s1 s2 q2,
     dq_oob_results_ind E m c s = Some (claim, s1)
     /\ dq_oob_results_got m c s1 = Some (tt, s2)
     /\ mem s2 !! dq = Some q2
     /\ oob_results q2 = oob_results q)
  /\ (exists s' q',
        dq_oob_results_got m c s = Some (tt, s')
        /\ mem s' !! dq = Some q'
        /\ oob_results q' = Z.max 0 (oob_results q - c)).
Proof.
  intros Hm Hq Hc Ho. split.
  - intros Hl Hsum.
    destruct (dq_oob_results_ind_run E s m c dq q Hm Hq Hl ltac:(lia))
      as (q1 & Hind & Ho1).
    rewrite u32_small in Ho1 by lia.
    eexists _, _, _, _. split; [exact Hind|].
    rewrite (dq_oob_results_got_run _ m c dq q1); cbn [by_muid mem set_mem];
      [| assumption | apply lookup_insert_eq | lia | lia].
    split; [reflexivity|]. cbn [mem set_mem].
    rewrite lookup_insert_eq. split; [reflexivity|]. cbn. lia.
  - rewrite (dq_oob_results_got_run s m c dq q) by assumption.
    eexists _, _. split; [reflexivity|]. cbn [mem set_mem].
    rewrite lookup_insert_eq. split; reflexivity.
Qed.

Lemma dq_oob_results_ind_got_witness :
  (exists claim s1 s2 q2,
     dq_oob_results_ind E0 100 2 s0 = Some (claim, s1)
     /\ dq_oob_results_got 100 2 s1 = Some (tt, s2)
     /\ mem s2 !! 1000 = Some q2
     /\ oob_results q2 = oob_results q0)
  /\ (exists s' q',
        dq_oob_results_got 100 2 s0 = Some (tt, s')
        /\ mem s' !! 1000 = Some q'
        /\ oob_results q' = Z.max 0 (oob_results q0 - 2)).
Proof.
  destruct (dq_oob_results_ind_got E0 s0 100 2 1000 q0) as [H1 H2];
    [reflexivity | reflexivity | vm_compute; split; [reflexivity | discriminate]
    | vm_compute; split; [discriminate | reflexivity] |].
  split; [apply H1; reflexivity | exact H2].
Defined.

(** C8, as stated, fails for a lingering query: the indication is added
    to [linger_results], not to [oob_results], and the claim that follows
    still lowers [oob_results], here from 5 to 3. *)
Lemma dq_oob_results_lingering_not_undone :
  has_flag (flags q_linger) DQ_F_LINGER = true
  /\ oob_results q_linger = 5
  /\ exists s1 s2 q2,
       dq_oob_results_ind E0 100 2 s_linger = Some (true, s1)
       /\ dq_oob_results_got 100 2 s1 = Some (tt, s2)
       /\ mem s2 !! 1000 = Some q2
       /\ oob_results q2 = 3.
Proof.
  split; [reflexivity|]. split; [reflexivity|].
  eexists _, _, _.
  split; [vm_compute; reflexivity|].
  split; [vm_compute; reflexivity|].
  split; [vm_compute; reflexivity|].
  reflexivity.
Qed.

(** ** Hits for a cancelled query *)

(** A hit for a registered query never changes its flags, and is answered
    with "drop" when the query is user-cancelled. *)
Lemma dq_got_results_cancelled (E : env) (s : dq_state) (m count status dq : Z)
    (q : dquery) :
  by_muid s !! m = Some dq -> mem s !! dq = Some q ->
  has_flag (flags q) DQ_F_USR_CANCELLED = true ->
  0 < s32 count ->
  exists s' q',
    dq_got_results E m count status s = Some (false, s')
    /\ by_muid s' = by_muid s
    /\ mem s' !! dq = Some q'
    /\ flags q' = flags q.
Proof.
  intros Hm Hq Hc Hcount.
  unfold dq_got_results, dq_count_results, bind, g_assert, the_state, get_dq, put_dq.
  test_holds (0 <? s32 count).
  rewrite Hm, Hq. cbn [negb andb].
  destruct (firewalled_useless E q (status mod 2 ^ 16)).
  - exists s, q. repeat split; assumption.
  - destruct (has_flag (flags q) DQ_F_LINGER);
      cbn [mem set_mem]; rewrite lookup_insert_eq; cbn [node_id sh flags upd];
      destruct ((19 <? dq_debug E) && _); unfold ret;
      cbn [mem set_mem flags upd zfield_eqb]; rewrite ?lookup_insert_eq, Hc;
      eexists _, _; (split; [reflexivity|]); cbn [by_muid mem set_mem];
      rewrite ?lookup_insert_eq; repeat split.
Qed.

Lemma dq_got_results_all_cancelled (E : env) (m dq : Z) (hits : list (Z * Z)) :
  Forall (fun h => 0 < s32 (fst h)) hits ->
  forall (s : dq_state) (q : dquery),
    by_muid s !! m = Some dq -> mem s !! dq = Some q ->
    has_flag (flags q) DQ_F_USR_CANCELLED = true ->
    exists s',
      dq_got_results_all E m hits s = Some (map (fun _ => false) hits, s').
Proof.
  induction 1 as [|[count status] rest Hhd Htl IH]; intros s q Hm Hq Hc.
  - exists s. reflexivity.
  - destruct (dq_got_results_cancelled E s m count status dq q Hm Hq Hc Hhd)
      as (s1 & q1 & Hrun & Hby & Hq1 & Hfl).
    destruct (IH s1 q1) as (s2 & Hrest).
    + rewrite Hby. assumption.
    + assumption.
    + rewrite Hfl. assumption.
    + exists s2. cbn [dq_got_results_all map]. unfold bind at 1. rewrite Hrun.
      unfold bind at 1. rewrite Hrest. reflexivity.
Qed.

(** ** Guidance: the stop request for a lingering query *)

(** C10: the stop value 0xFFFF received for a query that is already
    lingering records [kept_results] = 0xFFFF, sets the got-guidance and
    user-cancelled flags, snapshots [last_status], resets [new_results],
    and leaves the callout queue and the two events of the query as they
    were; from then on every hit accounted to the query is answered with
    "drop". *)
Theorem dq_got_query_status_stop_lingering (E : env) (s : dq_state)
    (m nid dq : Z) (q : dquery) :
  status_query s m = Some dq ->
  mem s !! dq = Some q ->
  node_id q = nid ->
  has_flag (flags q) DQ_F_LINGER = true ->
  exists s' q',
    dq_got_query_status E m nid 65535 s = Some (tt, s')
    /\ mem s' !! dq = Some q'
    /\ has_flag (flags q') DQ_F_USR_CANCELLED = true
    /\ kept_results q' = 65535
    /\ has_flag (flags q') DQ_F_GOT_GUIDANCE = true
    /\ last_status q' = up_sent q
    /\ new_results q' = 0
    /\ has_flag (flags q') DQ_F_LINGER = true
    /\ callout_queue s' = callout_queue s
    /\ expire_ev q' = expire_ev q
    /\ results_ev q' = results_ev q
    /\ by_muid s' = by_muid s
    /\ forall wire hits,
         by_muid s !! wire = Some dq ->
         Forall (fun h => 0 < s32 (fst h)) hits ->
         exists s'',
           dq_got_results_all E wire hits s' = Some (map (fun _ => false) hits, s'').
Proof.
  intros Hm Hq Hn Hl.
  assert (Hrun : exists s' q',
    dq_got_query_status E m nid 65535 s = Some (tt, s')
    /\ mem s' !! dq = Some q'
    /\ (flags q' = set_flag (set_flag (flags q) DQ_F_GOT_GUIDANCE) DQ_F_USR_CANCELLED
        \/ flags q' = set_flag (set_flag (set_flag (flags q) DQ_F_GOT_GUIDANCE)
                                  DQ_F_LEAF_GUIDED) DQ_F_USR_CANCELLED)
    /\ kept_results q' = 65535 /\ last_status q' = up_sent q /\ new_results q' = 0
    /\ callout_queue s' = callout_queue s
    /\ expire_ev q' = expire_ev q /\ results_ev q' = results_ev q
    /\ by_muid s' = by_muid s).
  { unfold dq_got_query_status, bind at 1, the_state.
    unfold status_query in Hm. rewrite Hm.
    unfold bind at 1, get_dq at 1. rewrite Hq.
    test_holds (node_id q =? nid).
    cbn [negb].
    unfold bind, put_dq, get_dq, emit, ret. cbn [mem set_mem flags upd zfield_eqb].
    destruct (negb (has_flag (set_flag (flags q) DQ_F_GOT_GUIDANCE) DQ_F_WAITING)
              && negb (has_flag (set_flag (flags q) DQ_F_GOT_GUIDANCE) DQ_F_LEAF_GUIDED)).
    - cbn [mem set_mem set_trace]. rewrite lookup_insert_eq.
      cbn [Z.eqb Pos.eqb flags upd zfield_eqb].
      rewrite !has_flag_set_flag, Hl. cbn [orb negb].
      eexists _, _. split; [reflexivity|]. cbn [mem set_mem].
      rewrite lookup_insert_eq. split; [reflexivity|].
      split; [right; reflexivity|]. repeat split.
    - cbn [mem set_mem]. rewrite lookup_insert_eq.
      cbn [Z.eqb Pos.eqb flags upd zfield_eqb].
      rewrite !has_flag_set_flag, Hl. cbn [orb negb].
      eexists _, _. split; [reflexivity|]. cbn [mem set_mem].
      rewrite lookup_insert_eq. split; [reflexivity|].
      split; [left; reflexivity|]. repeat split. }
  destruct Hrun as (s' & q' & Hrun & Hq' & Hfl & Hk & Hls & Hnr & Hcq & Hee & Hre & Hby).
  assert (Hflags : has_flag (flags q') DQ_F_USR_CANCELLED = true
                   /\ has_flag (flags q') DQ_F_GOT_GUIDANCE = true
                   /\ has_flag (flags q') DQ_F_LINGER = true).
  { destruct Hfl as [-> | ->]; rewrite !has_flag_set_flag, Hl;
      repeat split; rewrite ?orb_true_r; reflexivity. }
  destruct Hflags as (Hfc & Hfg & Hfl').
  exists s', q'. repeat (split; [assumption|]).
  intros wire hits Hw Hhits.
  apply (dq_got_results_all_cancelled E wire dq hits Hhits s' q'); try assumption.
  rewrite Hby. assumption.
Qed.

Lemma dq_got_query_status_stop_lingering_witness :
  exists s' q',
    dq_got_query_status E0 100 7 65535 s_linger = Some (tt, s')
    /\ mem s' !! 1000 = Some q'
    /\ has_flag (flags q') DQ_F_USR_CANCELLED = true
    /\ kept_results q' = 65535
    /\ callout_queue s' = callout_queue s_linger
    /\ exists s'',
         dq_got_results_all E0 100 [(3, 0); (1, 0)] s' = Some ([false; false], s'').
Proof.
  destruct (dq_got_query_status_stop_lingering E0 s_linger 100 7 1000 q_linger)
    as (s' & q' & Hrun & Hq' & Hc & Hk & _ & _ & _ & _ & Hcq & _ & _ & _ & Hhits);
    [reflexivity | reflexivity | reflexivity | reflexivity |].
  exists s', q'. repeat (split; [assumption|]).
  apply (Hhits 100 [(3, 0); (1, 0)]); [reflexivity|].
  repeat constructor.
Defined.

(** * Further properties of dq.c *)

(** ** The candidate vector *)

Lemma fill_next_up_nodes (q : dquery) (old : gmap Z next_up)
    (nodes : list gnutella_node) (room : nat) :
  map nu_node (fill_next_up q old nodes room) =
  take room (List.filter (next_up_eligible q) nodes).
Proof.
  revert room. induction nodes as [|n rest IH]; intros room.
  - destruct room; reflexivity.
  - cbn [fill_next_up List.filter].
    destruct room as [|room'].
    + destruct (next_up_eligible q n); reflexivity.
    + destruct (next_up_eligible q n).
      * cbn [map take nu_node]. f_equal. apply IH.
      * apply IH.
Qed.

Lemma fill_next_up_nid (q : dquery) (old : gmap Z next_up)
    (nodes : list gnutella_node) (room : nat) (c : next_up) :
  c ∈ fill_next_up q old nodes room ->
  nu_nid c = n_id (nu_node c)
  /\ nu_can_route c = match old !! nu_nid c with
                      | Some o => nu_can_route o
                      | None => -1
                      end.
Proof.
  revert room. induction nodes as [|n rest IH]; intros room Hc.
  - destruct room; cbn in Hc; inversion Hc.
  - cbn [fill_next_up] in Hc. destruct room as [|room'].
    + inversion Hc.
    + destruct (next_up_eligible q n).
      * apply elem_of_cons in Hc as [-> | Hc]; [split; reflexivity|].
        exact (IH _ Hc).
      * exact (IH _ Hc).
Qed.

(** The table of the previous vector, built by successive insertions. *)
Lemma old_table_absent (l : list next_up) (m0 : gmap Z next_up) (k : Z) :
  (forall o, o ∈ l -> nu_nid o <> k) ->
  foldl (fun m nup => <[nu_nid nup := nup]> m) m0 l !! k = m0 !! k.
Proof.
  revert m0. induction l as [|x l IH]; intros m0 Hno; [reflexivity|].
  cbn [foldl]. rewrite IH.
  - apply lookup_insert_ne. apply Hno. left.
  - intros o Ho. apply Hno. right. exact Ho.
Qed.

Lemma old_table_present (l : list next_up) (m0 : gmap Z next_up) (o : next_up) :
  NoDup (map nu_nid l) -> o ∈ l ->
  foldl (fun m nup => <[nu_nid nup := nup]> m) m0 l !! nu_nid o = Some o.
Proof.
  revert m0. induction l as [|x l IH]; intros m0 Hnd Ho; [inversion Ho|].
  cbn [foldl map] in *. apply list.NoDup_cons in Hnd as [Hx Hnd].
  apply elem_of_cons in Ho as [-> | Ho].
  - rewrite old_table_absent; [apply lookup_insert_eq|].
    intros o Ho Heq. apply Hx. rewrite <- Heq.
    apply list_elem_of_fmap. exists o. split; [reflexivity | exact Ho].
  - apply IH; assumption.
Qed.

(** X1: [dq_fill_next_up] selects, in the order of the node list, the
    first [ncount] nodes that are writable ultrapeers past the handshake,
    not flow-controlled and not queried yet; the vector is saved in the
    query and nothing else changes. *)
Theorem dq_fill_next_up_selects (E : env) (s : dq_state) (dq ncount : Z)
    (q : dquery) :
  mem s !! dq = Some q ->
  exists v,
    dq_fill_next_up E dq ncount s
      = Some (v, set_mem (<[dq := set_nv v q]> (mem s)) s)
    /\ map nu_node v =
       take (Z.to_nat ncount)
            (List.filter (next_up_eligible q) (node_all_nodes E))
    /\ (forall c, c ∈ v ->
          nu_nid c = n_id (nu_node c)
          /\ (n_id (nu_node c) ∉ queried q)
          /\ n_is_ultra (nu_node c) = true
          /\ n_is_writable (nu_node c) = true).
Proof.
  intros Hq. unfold dq_fill_next_up, bind, get_dq, put_dq, ret. rewrite Hq.
  eexists. split; [reflexivity|]. split; [apply fill_next_up_nodes|].
  intros c Hc.
  destruct (fill_next_up_nid _ _ _ _ _ Hc) as [Hnid _].
  split; [exact Hnid|].
  assert (Hin : nu_node c ∈ map nu_node
                  (fill_next_up q
                     (foldl (fun m nup => <[nu_nid nup := nup]> m) ∅ (nv q))
                     (node_all_nodes E) (Z.to_nat ncount))).
  { apply list_elem_of_fmap. exists c. split; [reflexivity | exact Hc]. }
  rewrite fill_next_up_nodes in Hin.
  apply elem_of_take in Hin as (i & Hi & _).
  apply list_elem_of_lookup_2, list_elem_of_In, filter_In in Hi as [_ He].
  unfold next_up_eligible in He.
  repeat (apply andb_true_iff in He as [He ?]).
  repeat split; try assumption.
  apply negb_true_iff, bool_decide_eq_false in H0. exact H0.
Qed.

Lemma dq_fill_next_up_selects_witness :
  exists v,
    dq_fill_next_up E_ups 1000 40 s_fin
      = Some (v, set_mem (<[1000 := set_nv v q_fin]> (mem s_fin)) s_fin)
    /\ map nu_node v = [node6; node8].
Proof.
  destruct (dq_fill_next_up_selects E_ups s_fin 1000 40 q_fin)
    as (v & H1 & H2 & _); [reflexivity|].
  exists v. split; [exact H1 | exact H2].
Defined.

(** X2: a candidate inherits the QRP answer cached for its node in the
    previous vector (node IDs being unique there), and starts with the
    answer unknown (-1) when the node was not in it. *)
Theorem dq_fill_next_up_inherits (E : env) (s : dq_state) (dq ncount : Z)
    (q : dquery) :
  mem s !! dq = Some q ->
  NoDup (map nu_nid (nv q)) ->
  exists v s',
    dq_fill_next_up E dq ncount s = Some (v, s')
    /\ forall c, c ∈ v ->
         (forall o, o ∈ nv q -> nu_nid o = nu_nid c ->
                    nu_can_route c = nu_can_route o)
         /\ ((forall o, o ∈ nv q -> nu_nid o <> nu_nid c) ->
             nu_can_route c = -1).
Proof.
  intros Hq Hnd. unfold dq_fill_next_up, bind, get_dq, put_dq, ret. rewrite Hq.
  eexists _, _. split; [reflexivity|].
  intros c Hc. destruct (fill_next_up_nid _ _ _ _ _ Hc) as [_ Hcr].
  split.
  - intros o Ho Heq. rewrite <- Heq in Hcr.
    rewrite (old_table_present _ _ _ Hnd Ho) in Hcr. exact Hcr.
  - intros Hno. rewrite old_table_absent in Hcr by exact Hno.
    rewrite lookup_empty in Hcr. exact Hcr.
Qed.

Lemma dq_fill_next_up_inherits_witness :
  exists v s',
    dq_fill_next_up E_ups 1000 40 s_prev = Some (v, s')
    /\ map nu_can_route v = [1; -1].
Proof.
  destruct (dq_fill_next_up_inherits E_ups s_prev 1000 40 q_prev)
    as (v & s' & H1 & _);
    [reflexivity | apply (bool_decide_unpack _); vm_compute; exact I |].
  exists v, s'. split; [exact H1|].
  assert (Hs : dq_fill_next_up E_ups 1000 40 s_prev = Some (v, s')) by exact H1.
  vm_compute in Hs. injection Hs as <- _. reflexivity.
Defined.

(** ** Dispatching a query *)

Lemma dq_send_query_run (s : dq_state) (dq t : Z) (q : dquery) (n : gnutella_node) :
  mem s !! dq = Some q ->
  n_id n ∉ queried q ->
  n_is_writable n = true ->
  0 < sent_ttl n t <= DQ_MAX_TTL ->
  dq_send_query dq n t s =
  Some (tt,
        set_trace (gmsg_mb_sendto_one n (sent_ttl n t) (walloc_next s) :: trace s)
          (set_mem (<[dq := dispatched q n t]> (mem s))
             (set_pmi_mem (<[walloc_next s := dispatch_info dq q n t]> (pmi_mem s))
                (walloc_next s + 1) s))).
Proof.
  intros Hq Hnew Hw Ht.
  unfold dq_send_query, bind at 1, get_dq at 1. rewrite Hq.
  unfold bind at 1, g_assert. rewrite (bool_decide_eq_false_2 _ Hnew). cbn [negb].
  unfold bind at 1. rewrite Hw.
  unfold dq_pmi_alloc, dq_pmsg_by_ttl, bind, get_dq, put_dq, get_pmi, the_state,
    g_assert, emit, ret.
  rewrite Hq. cbn [mem set_mem set_pmi_mem pmi_mem walloc_next].
  rewrite !lookup_insert_eq. cbn [pmi_ttl]. fold (sent_ttl n t).
  test_holds ((0 <? sent_ttl n t) && (sent_ttl n t <=? DQ_MAX_TTL)).
  repeat (cbn [mem set_mem set_trace]; rewrite ?lookup_insert_eq, ?insert_insert_eq).
  reflexivity.
Qed.

(** The free routine on a live query, as an equation on the memory: the
    query [q] becomes [q'] below, the metadata goes, and a results event
    may be rescheduled. *)
Lemma dq_pmsg_free_live (s : dq_state) (mb : pmsg) (arg : Z) (pmi : pmsg_info)
    (q : dquery) :
  pmi_mem s !! arg = Some pmi ->
  pmsg_is_extended mb = true ->
  pmi_dq pmi ∈ dqueries s ->
  mem s !! pmi_dq pmi = Some q ->
  qid q = pmi_qid pmi ->
  0 < pending q < 2 ^ 32 ->
  (pmsg_was_sent mb = false ->
   pmi_node_id pmi ∈ queried q
   /\ forall ev, results_ev q = Some ev -> is_Some (callout_queue s !! ev)) ->
  forall h, dq_get_horizon (pmi_degree pmi) (pmi_ttl pmi) = Some h ->
  exists s',
    dq_pmsg_free mb arg s = Some (tt, s')
    /\ mem s' =
       <[pmi_dq pmi :=
           if pmsg_was_sent mb
           then upd F_up_sent (u32 (up_sent q + 1))
                  (upd F_horizon (u32 (horizon q + h))
                     (upd F_pending (pending q - 1) q))
           else set_queried (queried q ∖ {[pmi_node_id pmi]})
                  (upd F_pending (pending q - 1) q)]> (mem s)
    /\ pmi_mem s' = delete arg (pmi_mem s)
    /\ dqueries s' = dqueries s
    /\ by_muid s' = by_muid s
    /\ trace s' = trace s.
Proof.
  intros Hp Hx Hin Hq Hid Hpend Hdrop h Hh.
  unfold dq_pmsg_free, bind at 1, get_pmi. rewrite Hp.
  unfold bind at 1, g_assert. rewrite Hx.
  unfold bind at 1. rewrite (dq_alive_true s _ _ q) by assumption.
  cbn [negb].
  unfold bind, get_dq, put_dq, g_assert, lift, dq_pmi_free. rewrite Hq.
  test_holds (0 <? pending q). rewrite (u32_small (pending q - 1)) by lia.
  destruct (pmsg_was_sent mb) eqn:Hs; cbn [negb].
  - rewrite Hh. cbn [mem set_mem]. rewrite insert_insert_eq.
    eexists. split; [reflexivity|]. repeat split.
  - destruct (Hdrop eq_refl) as [Hqd Hev].
    cbn [queried upd]. rewrite (bool_decide_eq_true_2 _ Hqd).
    cbn [mem set_mem results_ev upd pending zfield_eqb]. rewrite insert_insert_eq.
    destruct (results_ev q) as [ev|] eqn:Hrev.
    + destruct (pending q - 1 =? 0).
      * destruct (Hev ev eq_refl) as [ce Hce].
        unfold cq_resched. cbn [callout_queue set_mem]. rewrite Hce.
        eexists. split; [reflexivity|]. repeat split.
      * unfold ret. eexists. split; [reflexivity|]. repeat split.
    + unfold ret. eexists. split; [reflexivity|]. repeat split.
Qed.

Lemma gset_add_remove (a : Z) (Q : gset Z) :
  a ∉ Q -> ({[a]} ∪ Q) ∖ {[a]} = Q.
Proof.
  intros Ha. apply set_eq. intros x.
  rewrite elem_of_difference, elem_of_union, elem_of_singleton.
  split.
  - intros [[->|Hx] Hne]; [contradiction | exact Hx].
  - intros Hx. split; [right; exact Hx|]. intros ->. contradiction.
Qed.

(** X3: [dq_send_query] records the target as queried, counts one more
    pending message, and attaches to the message queued for the node a
    metadata block capturing the query, its ID, the degree of the node
    and the TTL used, which is the supplied TTL capped by the node's
    maximum; counters, events and tables are left alone. *)
Theorem dq_send_query_accounts (s : dq_state) (dq t : Z) (q : dquery)
    (n : gnutella_node) :
  mem s !! dq = Some q ->
  (n_id n ∉ queried q) ->
  n_is_writable n = true ->
  0 < sent_ttl n t <= DQ_MAX_TTL ->
  exists s' q',
    dq_send_query dq n t s = Some (tt, s')
    /\ mem s' !! dq = Some q'
    /\ queried q' = {[n_id n]} ∪ queried q
    /\ pending q' = u32 (pending q + 1)
    /\ up_sent q' = up_sent q /\ horizon q' = horizon q
    /\ pmi_mem s' !! walloc_next s =
       Some {| pmi_node_id := n_id n; pmi_dq := dq; pmi_qid := qid q;
               pmi_degree := n_degree n mod 2 ^ 16;
               pmi_ttl := Z.min (n_max_ttl n) t mod 2 ^ 8 |}
    /\ trace s' =
       gmsg_mb_sendto_one n (Z.min (n_max_ttl n) t mod 2 ^ 8) (walloc_next s)
         :: trace s
    /\ callout_queue s' = callout_queue s
    /\ dqueries s' = dqueries s.
Proof.
  intros Hq Hnew Hw Ht.
  rewrite (dq_send_query_run s dq t q n) by assumption.
  eexists _, _. split; [reflexivity|]. cbn [mem set_mem set_trace set_pmi_mem pmi_mem].
  rewrite !lookup_insert_eq. repeat split.
Qed.

Lemma dq_send_query_accounts_witness :
  exists s' q',
    dq_send_query 1000 node6 2 s0 = Some (tt, s')
    /\ mem s' !! 1000 = Some q'
    /\ queried q' = {[13]} ∪ queried q0
    /\ pending q' = 2.
Proof.
  destruct (dq_send_query_accounts s0 1000 2 q0 node6)
    as (s' & q' & Hrun & Hq' & Hqd & Hp & _);
    [reflexivity | vm_compute; discriminate | reflexivity
    | vm_compute; split; [reflexivity | discriminate] |].
  exists s', q'. repeat split; assumption.
Defined.

(** X4: a message that is queued by [dq_send_query] and then freed
    without having been sent leaves no trace in the accounting: the
    queried set, [pending], [up_sent], [horizon] and the metadata store
    are what they were before the dispatch, so the node can be selected
    again. *)
Theorem dq_send_query_then_dropped (s : dq_state) (dq t : Z) (q : dquery)
    (n : gnutella_node) (mb : pmsg) :
  mem s !! dq = Some q ->
  dq ∈ dqueries s ->
  (n_id n ∉ queried q) ->
  n_is_writable n = true ->
  0 < sent_ttl n t <= DQ_MAX_TTL ->
  0 < n_degree n mod 2 ^ 16 ->
  0 <= pending q < 2 ^ 32 - 1 ->
  pmi_mem s !! walloc_next s = None ->
  (forall ev, results_ev q = Some ev -> is_Some (callout_queue s !! ev)) ->
  pmsg_is_extended mb = true ->
  pmsg_was_sent mb = false ->
  exists s1 s2 q2,
    dq_send_query dq n t s = Some (tt, s1)
    /\ dq_pmsg_free mb (walloc_next s) s1 = Some (tt, s2)
    /\ mem s2 !! dq = Some q2
    /\ queried q2 = queried q
    /\ pending q2 = pending q
    /\ up_sent q2 = up_sent q /\ horizon q2 = horizon q
    /\ pmi_mem s2 = pmi_mem s.
Proof.
  intros Hq Hin Hnew Hw Ht Hdeg Hpend Hfresh Hev Hx Hs.
  pose proof (dq_send_query_run s dq t q n Hq Hnew Hw Ht) as Hsend.
  destruct (dq_get_horizon_defined (n_degree n mod 2 ^ 16) (sent_ttl n t))
    as [h Hh]; [lia | lia |].
  set (s1 := set_trace _ _) in Hsend.
  edestruct (dq_pmsg_free_live s1 mb (walloc_next s) (dispatch_info dq q n t)
               (dispatched q n t))
    as (s2 & Hrun & Hmem & Hpmi & _);
    [ apply lookup_insert_eq | exact Hx | exact Hin | apply lookup_insert_eq
    | reflexivity
    | cbn; rewrite u32_small by lia; lia
    | intros _; split;
        [cbn; apply elem_of_union_l, elem_of_singleton; reflexivity | exact Hev]
    | exact Hh | ].
  cbn [pmi_dq dispatch_info] in Hmem. rewrite Hs in Hmem.
  unfold s1 in Hpmi. cbn [pmi_mem set_trace set_mem set_pmi_mem] in Hpmi.
  rewrite delete_insert_id in Hpmi by assumption.
  eexists s1, s2, _. split; [exact Hsend|]. split; [exact Hrun|].
  rewrite Hmem, lookup_insert_eq. split; [reflexivity|].
  repeat split; try assumption.
  - cbn. apply gset_add_remove. exact Hnew.
  - cbn. rewrite u32_small by lia. lia.
Qed.

Lemma dq_send_query_then_dropped_witness :
  exists s1 s2 q2,
    dq_send_query 1000 node6 2 s0 = Some (tt, s1)
    /\ dq_pmsg_free mb_dropped 3000 s1 = Some (tt, s2)
    /\ mem s2 !! 1000 = Some q2
    /\ queried q2 = queried q0
    /\ pending q2 = pending q0.
Proof.
  destruct (dq_send_query_then_dropped s0 1000 2 q0 node6 mb_dropped)
    as (s1 & s2 & q2 & H1 & H2 & H3 & H4 & H5 & _);
    [reflexivity | vm_compute; reflexivity | vm_compute; discriminate
    | reflexivity | vm_compute; split; [reflexivity | discriminate]
    | reflexivity | vm_compute; split; [discriminate | reflexivity]
    | reflexivity
    | intros ev Hev; injection Hev as <-; eexists; reflexivity
    | reflexivity | reflexivity |].
  exists s1, s2, q2. repeat split; assumption.
Defined.

(** X5: a message that is queued by [dq_send_query] and then freed after
    having been sent counts one more UP queried and adds the horizon of
    the node at the TTL used; the node stays in the queried set and
    [pending] is back to its value before the dispatch. *)
Theorem dq_send_query_then_sent (s : dq_state) (dq t : Z) (q : dquery)
    (n : gnutella_node) (mb : pmsg) :
  mem s !! dq = Some q ->
  dq ∈ dqueries s ->
  (n_id n ∉ queried q) ->
  n_is_writable n = true ->
  0 < sent_ttl n t <= DQ_MAX_TTL ->
  0 < n_degree n mod 2 ^ 16 ->
  0 <= pending q < 2 ^ 32 - 1 ->
  pmsg_is_extended mb = true ->
  pmsg_was_sent mb = true ->
  exists s1 s2 q2 h,
    dq_send_query dq n t s = Some (tt, s1)
    /\ dq_pmsg_free mb (walloc_next s) s1 = Some (tt, s2)
    /\ mem s2 !! dq = Some q2
    /\ dq_get_horizon (n_degree n mod 2 ^ 16) (sent_ttl n t) = Some h
    /\ up_sent q2 = u32 (up_sent q + 1)
    /\ horizon q2 = u32 (horizon q + h)
    /\ pending q2 = pending q
    /\ n_id n ∈ queried q2.
Proof.
  intros Hq Hin Hnew Hw Ht Hdeg Hpend Hx Hs.
  pose proof (dq_send_query_run s dq t q n Hq Hnew Hw Ht) as Hsend.
  destruct (dq_get_horizon_defined (n_degree n mod 2 ^ 16) (sent_ttl n t))
    as [h Hh]; [lia | lia |].
  set (s1 := set_trace _ _) in Hsend.
  edestruct (dq_pmsg_free_live s1 mb (walloc_next s) (dispatch_info dq q n t)
               (dispatched q n t))
    as (s2 & Hrun & Hmem & _);
    [ apply lookup_insert_eq | exact Hx | exact Hin | apply lookup_insert_eq
    | reflexivity
    | cbn; rewrite u32_small by lia; lia
    | rewrite Hs; discriminate
    | exact Hh | ].
  cbn [pmi_dq dispatch_info] in Hmem. rewrite Hs in Hmem.
  exists s1, s2. eexists _, h. split; [exact Hsend|]. split; [exact Hrun|].
  rewrite Hmem, lookup_insert_eq. split; [reflexivity|].
  split; [exact Hh|]. cbn.
  repeat split.
  - rewrite u32_small by lia. lia.
  - apply elem_of_union_l, elem_of_singleton. reflexivity.
Qed.

Lemma dq_send_query_then_sent_witness :
  exists s1 s2 q2,
    dq_send_query 1000 node6 2 s0 = Some (tt, s1)
    /\ dq_pmsg_free mb_sent 3000 s1 = Some (tt, s2)
    /\ mem s2 !! 1000 = Some q2
    /\ up_sent q2 = 2
    /\ pending q2 = pending q0.
Proof.
  destruct (dq_send_query_then_sent s0 1000 2 q0 node6 mb_sent)
    as (s1 & s2 & q2 & h & H1 & H2 & H3 & _ & H4 & _ & H5 & _);
    [reflexivity | vm_compute; reflexivity | vm_compute; discriminate
    | reflexivity | vm_compute; split; [reflexivity | discriminate]
    | reflexivity | vm_compute; split; [discriminate | reflexivity]
    | reflexivity | reflexivity |].
  exists s1, s2, q2. repeat split; assumption.
Defined.

Ltac simpl_state :=
  cbn [mem pmi_mem walloc_next dqueries by_node_id by_muid by_leaf_muid
       callout_queue cq_next trace set_mem set_pmi_mem set_dqueries
       set_by_node_id set_by_muid set_by_leaf_muid set_callout_queue set_trace].

(** ** Single-bit flags *)

Lemma has_flag_bit (fl k : Z) :
  0 <= k -> has_flag fl (Z.shiftl 1 k) = Z.testbit fl k.
Proof.
  intros Hk. unfold has_flag. rewrite Z.shiftl_1_l.
  destruct (Z.testbit fl k) eqn:Hb.
  - apply negb_true_iff, Z.eqb_neq. intros H0.
    assert (Hc : Z.testbit (Z.land fl (2 ^ k)) k = true).
    { rewrite Z.land_spec, Hb, Z.pow2_bits_true by lia. reflexivity. }
    rewrite H0, Z.bits_0 in Hc. discriminate.
  - apply negb_false_iff, Z.eqb_eq. apply Z.bits_inj'. intros n Hn.
    rewrite Z.land_spec, Z.bits_0, Z.pow2_bits_eqb by lia.
    destruct (Z.eqb_spec k n) as [->|]; [rewrite Hb|]; cbn;
      rewrite ?andb_false_r; reflexivity.
Qed.

Lemma has_flag_clear_flag (fl j k : Z) :
  0 <= j -> 0 <= k ->
  has_flag (clear_flag fl (Z.shiftl 1 j)) (Z.shiftl 1 k)
  = has_flag fl (Z.shiftl 1 k) && negb (j =? k).
Proof.
  intros Hj Hk. rewrite !has_flag_bit by lia.
  unfold clear_flag. rewrite Z.land_spec, Z.lnot_spec, Z.shiftl_1_l by lia.
  rewrite Z.pow2_bits_eqb by lia. reflexivity.
Qed.

Lemma has_flag_set_bit (fl j k : Z) :
  0 <= j -> 0 <= k ->
  has_flag (set_flag fl (Z.shiftl 1 j)) (Z.shiftl 1 k)
  = has_flag fl (Z.shiftl 1 k) || (j =? k).
Proof.
  intros Hj Hk. rewrite !has_flag_bit by lia.
  unfold set_flag. rewrite Z.lor_spec, Z.shiftl_1_l.
  rewrite Z.pow2_bits_eqb by lia. reflexivity.
Qed.

(** ** [dq_terminate] *)

Lemma dq_terminate_resched (s : dq_state) (dq : Z) (q : dquery) (ev : Z) (ce : cevent) :
  mem s !! dq = Some q ->
  has_flag (flags q) DQ_F_LINGER = false ->
  results_ev q = None ->
  expire_ev q = Some ev ->
  callout_queue s !! ev = Some ce ->
  dq_terminate dq s =
  Some (tt,
    set_mem (<[dq := upd F_flags
                       (set_flag (clear_flag (flags q) DQ_F_WAITING) DQ_F_LINGER) q]>
               (mem s))
      (set_callout_queue
         (<[ev := {| ce_delay := if has_flag (flags q) DQ_F_USR_CANCELLED then 1
                                 else DQ_LINGER_TIMEOUT;
                     ce_fn := ce_fn ce; ce_arg := ce_arg ce |}]> (callout_queue s))
         (cq_next s) s)).
Proof.
  intros Hq Hl Hr He Hc.
  unfold dq_terminate, bind at 1, get_dq at 1. rewrite Hq, Hl, Hr, He.
  cbn [negb]. rewrite bool_decide_eq_true_2 by reflexivity.
  unfold bind, g_assert, cq_resched, get_dq, put_dq. rewrite Hc.
  simpl_state. rewrite Hq. reflexivity.
Qed.

Lemma dq_terminate_insert (s : dq_state) (dq : Z) (q : dquery) :
  mem s !! dq = Some q ->
  has_flag (flags q) DQ_F_LINGER = false ->
  results_ev q = None ->
  expire_ev q = None ->
  dq_terminate dq s =
  Some (tt,
    set_mem (<[dq := upd F_flags
                       (set_flag (clear_flag (flags q) DQ_F_WAITING) DQ_F_LINGER)
                       (set_expire_ev (Some (cq_next s)) q)]>
               (mem s))
      (set_callout_queue
         (<[cq_next s := {| ce_delay := if has_flag (flags q) DQ_F_USR_CANCELLED then 1
                                        else DQ_LINGER_TIMEOUT;
                            ce_fn := cb_dq_expired; ce_arg := dq |}]> (callout_queue s))
         (cq_next s + 1) s)).
Proof.
  intros Hq Hl Hr He.
  unfold dq_terminate, bind at 1, get_dq at 1. rewrite Hq, Hl, Hr, He.
  cbn [negb]. rewrite bool_decide_eq_true_2 by reflexivity.
  unfold bind, g_assert, cq_insert, get_dq, put_dq.
  simpl_state. rewrite lookup_insert_eq. simpl_state.
  rewrite insert_insert_eq. reflexivity.
Qed.

Lemma lingering_flags (fl : Z) :
  has_flag (set_flag (clear_flag fl DQ_F_WAITING) DQ_F_LINGER) DQ_F_LINGER = true
  /\ has_flag (set_flag (clear_flag fl DQ_F_WAITING) DQ_F_LINGER) DQ_F_WAITING = false
  /\ has_flag (set_flag (clear_flag fl DQ_F_WAITING) DQ_F_LINGER) DQ_F_USR_CANCELLED
     = has_flag fl DQ_F_USR_CANCELLED.
Proof.
  unfold DQ_F_LINGER, DQ_F_WAITING, DQ_F_USR_CANCELLED.
  rewrite !has_flag_set_bit, !has_flag_clear_flag by lia.
  cbn. rewrite ?andb_false_r, ?andb_true_r, ?orb_true_r, ?orb_false_r.
  repeat split; reflexivity.
Qed.

(** X6: [dq_terminate] turns an active query into a lingering one without
    releasing it: the LINGER flag is set, the WAITING flag is cleared, and
    the expiration event -- rescheduled if the query has one, created
    otherwise -- fires after [DQ_LINGER_TIMEOUT] (180 s), or after 1 ms when
    the user cancelled the query; no other event is touched. *)
Theorem dq_terminate_lingers (s : dq_state) (dq : Z) (q : dquery) :
  mem s !! dq = Some q ->
  has_flag (flags q) DQ_F_LINGER = false ->
  results_ev q = None ->
  (forall ev, expire_ev q = Some ev -> is_Some (callout_queue s !! ev)) ->
  exists s' q' ev ce,
    dq_terminate dq s = Some (tt, s')
    /\ mem s' !! dq = Some q'
    /\ has_flag (flags q') DQ_F_LINGER = true
    /\ has_flag (flags q') DQ_F_WAITING = false
    /\ expire_ev q' = Some ev
    /\ (forall ev0, expire_ev q = Some ev0 -> ev = ev0)
    /\ callout_queue s' !! ev = Some ce
    /\ ce_delay ce = (if has_flag (flags q) DQ_F_USR_CANCELLED then 1 else 180000)
    /\ (forall e, e <> ev -> callout_queue s' !! e = callout_queue s !! e)
    /\ dqueries s' = dqueries s
    /\ by_muid s' = by_muid s.
Proof.
  intros Hq Hl Hr Hev.
  destruct (expire_ev q) as [ev|] eqn:He.
  - destruct (Hev ev eq_refl) as [ce Hc].
    rewrite (dq_terminate_resched s dq q ev ce) by assumption.
    eexists _, _, ev, _. split; [reflexivity|]. simpl_state.
    rewrite lookup_insert_eq. split; [reflexivity|].
    cbn [flags upd zfield_eqb expire_ev].
    destruct (lingering_flags (flags q)) as (H1 & H2 & _).
    split; [exact H1|]. split; [exact H2|]. split; [exact He|].
    split; [intros ev0 [= ->]; reflexivity|].
    rewrite lookup_insert_eq. split; [reflexivity|].
    split; [reflexivity|].
    split; [intros e Hne; apply lookup_insert_ne; congruence|].
    split; reflexivity.
  - rewrite (dq_terminate_insert s dq q) by assumption.
    eexists _, _, (cq_next s), _. split; [reflexivity|]. simpl_state.
    rewrite lookup_insert_eq. split; [reflexivity|].
    cbn [flags upd zfield_eqb expire_ev set_expire_ev].
    destruct (lingering_flags (flags q)) as (H1 & H2 & _).
    split; [exact H1|]. split; [exact H2|]. split; [reflexivity|].
    split; [intros ev0 [=]|].
    rewrite lookup_insert_eq. split; [reflexivity|].
    split; [reflexivity|].
    split; [intros e Hne; apply lookup_insert_ne; congruence|].
    split; reflexivity.
Qed.

Lemma dq_terminate_lingers_witness :
  exists s' q' ev ce,
    dq_terminate 1000 s_fin = Some (tt, s')
    /\ mem s' !! 1000 = Some q'
    /\ has_flag (flags q') DQ_F_LINGER = true
    /\ expire_ev q' = Some ev
    /\ callout_queue s' !! ev = Some ce
    /\ ce_delay ce = 180000.
Proof.
  destruct (dq_terminate_lingers s_fin 1000 q_fin)
    as (s' & q' & ev & ce & H1 & H2 & H3 & _ & H4 & _ & H5 & H6 & _);
    [reflexivity | reflexivity | reflexivity
    | intros ev [= <-]; exists {| ce_delay := 600000; ce_fn := cb_dq_expired;
                                  ce_arg := 1000 |}; reflexivity |].
  exists s', q', ev, ce. repeat split; assumption.
Defined.

(** ** [dq_free] *)

Lemma dq_free_run (E : env) (s : dq_state) (dq : Z) (q : dquery) :
  mem s !! dq = Some q ->
  dq ∈ dqueries s ->
  (node_id q = NODE_ID_SELF E
   \/ has_flag (flags q) DQ_F_ID_CLEANING = true
   \/ (has_flag (flags q) DQ_F_REMOVED = false
       /\ is_Some (by_node_id s !! node_id q))) ->
  exists s',
    dq_free E dq s = Some (tt, s')
    /\ mem s' = delete dq (mem s)
    /\ pmi_mem s' = pmi_mem s /\ walloc_next s' = walloc_next s
    /\ dqueries s' = (if has_flag (flags q) DQ_F_EXITING then dqueries s
                      else dqueries s ∖ {[dq]})
    /\ callout_queue s' =
         (let cq := match results_ev q with
                    | Some e => delete e (callout_queue s)
                    | None => callout_queue s
                    end in
          match expire_ev q with Some e => delete e cq | None => cq end)
    /\ cq_next s' = cq_next s
    /\ by_muid s' = (if bool_decide (by_muid s !! muid q = Some dq)
                     then delete (muid q) (by_muid s) else by_muid s)
    /\ by_leaf_muid s' =
         match lmuid q with
         | Some l => if bool_decide (by_leaf_muid s !! l = Some dq)
                     then delete l (by_leaf_muid s) else by_leaf_muid s
         | None => by_leaf_muid s
         end
    /\ by_node_id s' =
         (if (node_id q =? NODE_ID_SELF E) || has_flag (flags q) DQ_F_ID_CLEANING
          then by_node_id s
          else match by_node_id s !! node_id q with
               | Some l =>
                   match g_slist_remove l dq with
                   | [] => delete (node_id q) (by_node_id s)
                   | l' => <[node_id q := l']> (by_node_id s)
                   end
               | None => by_node_id s
               end)
    /\ trace s' =
         (if linger_results q =? 0 then []
          else [gnet_stats_count_general
                  (if max_results q <=? results q then GNR_DYN_QUERIES_LINGER_EXTRA
                   else if u32 (max_results q - results q) <=? linger_results q
                        then GNR_DYN_QUERIES_LINGER_COMPLETED
                   else GNR_DYN_QUERIES_LINGER_RESULTS)])
         ++ gnet_stats_count_general
              (if (max_results q <=? results q)
                  || has_flag (flags q) (Z.lor DQ_F_USR_CANCELLED DQ_F_ID_CLEANING)
                  || (max_results q <=?
                        kept_results q / (if node_id q =? NODE_ID_SELF E then 1
                                          else DQ_AVG_ULTRA_NODES))
               then GNR_DYN_QUERIES_COMPLETED_FULL
               else if 0 <? results q then GNR_DYN_QUERIES_COMPLETED_PARTIAL
               else GNR_DYN_QUERIES_COMPLETED_ZERO)
         :: trace s.
Proof.
  intros Hq Hin Hnode.
  unfold dq_free, bind at 1, the_state at 1.
  unfold bind at 1, get_dq at 1. rewrite Hq.
  rewrite (bool_decide_eq_true_2 _ Hin).
  unfold bind, g_assert, cq_cancel, emit, the_state, ret.
  destruct (results_ev q) as [re|]; destruct (expire_ev q) as [ee|];
    simpl_state.
  all: destruct (linger_results q =? 0); simpl_state.
  all: destruct (has_flag (flags q) DQ_F_EXITING); simpl_state.
  all: destruct (node_id q =? NODE_ID_SELF E) eqn:Hself;
    [ cbn [negb andb orb]
    | destruct (has_flag (flags q) DQ_F_ID_CLEANING) eqn:Hcl;
      [ cbn [negb andb orb]
      | destruct Hnode as [Hn | [Hn | [Hrm [l Hl]]]];
        [ apply Z.eqb_neq in Hself; contradiction
        | discriminate
        | cbn [negb andb orb]; rewrite Hrm; cbn [negb]; simpl_state;
          rewrite !Hl; destruct (g_slist_remove l dq) ] ] ];
    simpl_state.
  all: destruct (by_muid s !! muid q) as [v|] eqn:Hv;
    [ destruct (Z.eqb_spec v dq) as [->|Hne];
      [ rewrite (bool_decide_eq_true_2 _ eq_refl)
      | rewrite bool_decide_eq_false_2 by congruence ]
    | rewrite bool_decide_eq_false_2 by congruence ];
    simpl_state.
  all: destruct (lmuid q) as [lm|];
    [ destruct (by_leaf_muid s !! lm) as [w|] eqn:Hw;
      [ destruct (Z.eqb_spec w dq) as [->|Hne'];
        [ rewrite (bool_decide_eq_true_2 _ eq_refl)
        | rewrite bool_decide_eq_false_2 by congruence ]
      | rewrite bool_decide_eq_false_2 by congruence ]
    | ];
    simpl_state.
  all: eexists; split; [reflexivity|]; simpl_state; repeat split; reflexivity.
Qed.

Lemma g_slist_remove_elem (l : list Z) (dq x : Z) :
  NoDup l -> x ∈ g_slist_remove l dq <-> x ∈ l /\ x <> dq.
Proof.
  induction l as [|y l IH]; intros Hnd; cbn [g_slist_remove].
  - split; [intros H; inversion H | intros [H _]; inversion H].
  - apply list.NoDup_cons in Hnd as [Hy Hnd]. specialize (IH Hnd).
    destruct (Z.eqb_spec y dq) as [->|Hne].
    + rewrite elem_of_cons. split.
      * intros Hx. split; [right; exact Hx|]. intros ->. contradiction.
      * intros [[->|Hx] Hne]; [contradiction | exact Hx].
    + rewrite !elem_of_cons, IH. split.
      * intros [->|[Hx Hd]]; [split; [left; reflexivity | exact Hne]|].
        split; [right; exact Hx | exact Hd].
      * intros [[->|Hx] Hd]; [left; reflexivity | right; split; assumption].
Qed.

Lemma dq_pmsg_free_stale_run (s : dq_state) (mb : pmsg) (arg : Z) (pmi : pmsg_info) :
  pmi_mem s !! arg = Some pmi ->
  pmsg_is_extended mb = true ->
  (pmi_dq pmi ∉ dqueries s
   \/ exists q, mem s !! pmi_dq pmi = Some q /\ qid q <> pmi_qid pmi) ->
  dq_pmsg_free mb arg s =
  Some (tt, set_pmi_mem (delete arg (pmi_mem s)) (walloc_next s) s).
Proof.
  intros Hp Hx Hstale.
  unfold dq_pmsg_free, bind at 1, get_pmi. rewrite Hp.
  unfold bind at 1, g_assert. rewrite Hx.
  unfold bind at 1. rewrite dq_alive_stale by assumption.
  reflexivity.
Qed.

(** X7: [dq_free] releases the query everywhere: the object is gone, it
    is no longer among the alive queries, its two timers are no longer
    scheduled, neither MUID table leads to it any more, and the other
    queries are left alone.  The metadata of the messages still in flight
    is not released: it stays until the message layer frees each
    message. *)
Theorem dq_free_releases (E : env) (s : dq_state) (dq : Z) (q : dquery) :
  mem s !! dq = Some q ->
  dq ∈ dqueries s ->
  (node_id q = NODE_ID_SELF E
   \/ has_flag (flags q) DQ_F_ID_CLEANING = true
   \/ (has_flag (flags q) DQ_F_REMOVED = false
       /\ is_Some (by_node_id s !! node_id q))) ->
  has_flag (flags q) DQ_F_EXITING = false ->
  exists s',
    dq_free E dq s = Some (tt, s')
    /\ mem s' !! dq = None
    /\ (dq ∉ dqueries s')
    /\ (forall ev, results_ev q = Some ev \/ expire_ev q = Some ev ->
        callout_queue s' !! ev = None)
    /\ by_muid s' !! muid q <> Some dq
    /\ (forall l, lmuid q = Some l -> by_leaf_muid s' !! l <> Some dq)
    /\ (forall d, d <> dq ->
        mem s' !! d = mem s !! d /\ (d ∈ dqueries s' <-> d ∈ dqueries s))
    /\ pmi_mem s' = pmi_mem s.
Proof.
  intros Hq Hin Hnode Hex.
  destruct (dq_free_run E s dq q Hq Hin Hnode)
    as (s' & Hrun & Hmem & Hpmi & _ & Hdqs & Hcq & _ & Hbm & Hbl & _ & _).
  rewrite Hex in Hdqs.
  exists s'. split; [exact Hrun|].
  split; [rewrite Hmem; apply lookup_delete_eq|].
  split; [rewrite Hdqs; apply not_elem_of_difference; right;
          apply elem_of_singleton; reflexivity|].
  split.
  { intros ev Hev. rewrite Hcq. cbn zeta.
    destruct (results_ev q) as [re|], (expire_ev q) as [ee|];
      destruct Hev as [[= <-]|[= <-]];
      rewrite ?lookup_delete_eq; try reflexivity.
    destruct (Z.eq_dec ee re) as [->|Hne];
      [apply lookup_delete_eq|].
    rewrite lookup_delete_ne by exact Hne. apply lookup_delete_eq. }
  split.
  { rewrite Hbm. destruct (bool_decide (by_muid s !! muid q = Some dq)) eqn:Hd.
    - rewrite lookup_delete_eq. discriminate.
    - apply bool_decide_eq_false_1 in Hd. exact Hd. }
  split.
  { intros l Hl. rewrite Hbl, Hl.
    destruct (bool_decide (by_leaf_muid s !! l = Some dq)) eqn:Hd.
    - rewrite lookup_delete_eq. discriminate.
    - apply bool_decide_eq_false_1 in Hd. exact Hd. }
  split; [|exact Hpmi].
  intros d Hd. rewrite Hmem, Hdqs.
  split; [apply lookup_delete_ne; congruence|].
  rewrite elem_of_difference, elem_of_singleton. tauto.
Qed.

Lemma dq_free_releases_witness :
  exists s',
    dq_free E0 1000 s0 = Some (tt, s')
    /\ mem s' !! 1000 = None
    /\ (1000 ∉ dqueries s')
    /\ callout_queue s' !! 1 = None
    /\ callout_queue s' !! 2 = None
    /\ by_muid s' !! 100 <> Some 1000
    /\ pmi_mem s' = pmi_mem s0.
Proof.
  destruct (dq_free_releases E0 s0 1000 q0)
    as (s' & H1 & H2 & H3 & H4 & H5 & _ & _ & H6);
    [ reflexivity | vm_compute; reflexivity
    | right; right; split; [reflexivity | exists [1000]; reflexivity]
    | reflexivity |].
  exists s'. split; [exact H1|]. split; [exact H2|]. split; [exact H3|].
  split; [apply H4; right; reflexivity|].
  split; [apply H4; left; reflexivity|].
  split; [exact H5 | exact H6].
Defined.

(** X8: [dq_free] removes from the MUID tables only the entries that lead
    to the query being freed: when the MUID of the query is registered
    for another query (a conflict that [dq_common_init] tolerates), that
    registration survives. *)
Theorem dq_free_keeps_foreign_muid (E : env) (s : dq_state) (dq : Z) (q : dquery) :
  mem s !! dq = Some q ->
  dq ∈ dqueries s ->
  (node_id q = NODE_ID_SELF E
   \/ has_flag (flags q) DQ_F_ID_CLEANING = true
   \/ (has_flag (flags q) DQ_F_REMOVED = false
       /\ is_Some (by_node_id s !! node_id q))) ->
  exists s',
    dq_free E dq s = Some (tt, s')
    /\ forall m d, d <> dq ->
         (by_muid s !! m = Some d -> by_muid s' !! m = Some d)
         /\ (by_leaf_muid s !! m = Some d -> by_leaf_muid s' !! m = Some d).
Proof.
  intros Hq Hin Hnode.
  destruct (dq_free_run E s dq q Hq Hin Hnode)
    as (s' & Hrun & _ & _ & _ & _ & _ & _ & Hbm & Hbl & _).
  exists s'. split; [exact Hrun|].
  intros m d Hd. split; intros Hm.
  - rewrite Hbm. destruct (bool_decide (by_muid s !! muid q = Some dq)) eqn:Hb;
      [|exact Hm].
    apply bool_decide_eq_true_1 in Hb.
    rewrite lookup_delete_ne; [exact Hm|]. intros <-. congruence.
  - rewrite Hbl. destruct (lmuid q) as [l|]; [|exact Hm].
    destruct (bool_decide (by_leaf_muid s !! l = Some dq)) eqn:Hb; [|exact Hm].
    apply bool_decide_eq_true_1 in Hb.
    rewrite lookup_delete_ne; [exact Hm|]. intros <-. congruence.
Qed.

Lemma dq_free_keeps_foreign_muid_witness :
  exists s',
    dq_free E0 1001 s_twins = Some (tt, s')
    /\ by_muid s' !! 100 = Some 1000.
Proof.
  destruct (dq_free_keeps_foreign_muid E0 s_twins 1001 q_twin)
    as (s' & Hrun & Hkeep);
    [ reflexivity | vm_compute; reflexivity
    | right; right; split; [reflexivity | exists [1000; 1001]; reflexivity] |].
  exists s'. split; [exact Hrun|].
  apply (Hkeep 100 1000); [discriminate | reflexivity].
Defined.

(** X9: for a query of a remote node, [dq_free] takes the query out of
    the list [by_node_id] keeps for that node and leaves the other queries
    of the list, and the lists of the other nodes, in place; the entry of
    the node disappears with its last query, so that the table never
    holds an empty list. *)
Theorem dq_free_by_node_id (E : env) (s : dq_state) (dq : Z) (q : dquery)
    (l : list Z) :
  mem s !! dq = Some q ->
  dq ∈ dqueries s ->
  node_id q <> NODE_ID_SELF E ->
  has_flag (flags q) DQ_F_ID_CLEANING = false ->
  has_flag (flags q) DQ_F_REMOVED = false ->
  by_node_id s !! node_id q = Some l ->
  NoDup l ->
  exists s',
    dq_free E dq s = Some (tt, s')
    /\ by_node_id s' !! node_id q <> Some []
    /\ (forall x, x ∈ default [] (by_node_id s' !! node_id q) <-> x ∈ l /\ x <> dq)
    /\ (forall n, n <> node_id q -> by_node_id s' !! n = by_node_id s !! n).
Proof.
  intros Hq Hin Hself Hcl Hrm Hl Hnd.
  destruct (dq_free_run E s dq q Hq Hin)
    as (s' & Hrun & _ & _ & _ & _ & _ & _ & _ & _ & Hbn & _).
  { right; right. split; [exact Hrm | exists l; exact Hl]. }
  apply Z.eqb_neq in Hself. rewrite Hself, Hcl, Hl in Hbn. cbn [orb] in Hbn.
  exists s'. split; [exact Hrun|].
  pose proof (g_slist_remove_elem l dq) as Hrem.
  destruct (g_slist_remove l dq) as [|y l'] eqn:Hg; rewrite Hbn.
  - rewrite lookup_delete_eq. split; [discriminate|].
    split; [intros x; exact (Hrem x Hnd)|].
    intros n Hn. apply lookup_delete_ne. congruence.
  - rewrite lookup_insert_eq. split; [discriminate|].
    split; [intros x; exact (Hrem x Hnd)|].
    intros n Hn. apply lookup_insert_ne. congruence.
Qed.

Lemma dq_free_by_node_id_witness :
  exists s',
    dq_free E0 1001 s_twins = Some (tt, s')
    /\ by_node_id s' !! 7 <> Some []
    /\ (1000 ∈ default [] (by_node_id s' !! 7)).
Proof.
  destruct (dq_free_by_node_id E0 s_twins 1001 q_twin [1000; 1001])
    as (s' & Hrun & Hne & Hl & _);
    [ reflexivity | vm_compute; reflexivity | discriminate | reflexivity
    | reflexivity | reflexivity
    | apply (bool_decide_unpack _); vm_compute; exact I |].
  exists s'. split; [exact Hrun|]. split; [exact Hne|].
  apply Hl. split; [apply elem_of_cons; left; reflexivity | discriminate].
Defined.

(** X10: [dq_free] counts the query in the statistics exactly once as
    completed and then, exactly when results came in while it lingered,
    once as lingering (the trace is most recent first); a query cancelled
    by the user, or freed because its node was removed, is counted as
    completed in full whatever its results. *)
Theorem dq_free_statistics (E : env) (s : dq_state) (dq : Z) (q : dquery) :
  mem s !! dq = Some q ->
  dq ∈ dqueries s ->
  (node_id q = NODE_ID_SELF E
   \/ has_flag (flags q) DQ_F_ID_CLEANING = true
   \/ (has_flag (flags q) DQ_F_REMOVED = false
       /\ is_Some (by_node_id s !! node_id q))) ->
  exists s' completed lingered,
    dq_free E dq s = Some (tt, s')
    /\ trace s' = map gnet_stats_count_general (lingered ++ [completed]) ++ trace s
    /\ completed ∈ [GNR_DYN_QUERIES_COMPLETED_FULL;
                     GNR_DYN_QUERIES_COMPLETED_PARTIAL;
                     GNR_DYN_QUERIES_COMPLETED_ZERO]
    /\ (has_flag (flags q) DQ_F_USR_CANCELLED = true
        \/ has_flag (flags q) DQ_F_ID_CLEANING = true ->
        completed = GNR_DYN_QUERIES_COMPLETED_FULL)
    /\ (linger_results q = 0 -> lingered = [])
    /\ (linger_results q <> 0 ->
        exists st, lingered = [st]
          /\ st ∈ [GNR_DYN_QUERIES_LINGER_EXTRA;
                    GNR_DYN_QUERIES_LINGER_COMPLETED;
                    GNR_DYN_QUERIES_LINGER_RESULTS]).
Proof.
  intros Hq Hin Hnode.
  destruct (dq_free_run E s dq q Hq Hin Hnode)
    as (s' & Hrun & _ & _ & _ & _ & _ & _ & _ & _ & _ & Htr).
  exists s'.
  eexists _, (if linger_results q =? 0 then [] else [_]).
  split; [exact Hrun|]. split.
  { rewrite Htr. destruct (linger_results q =? 0); reflexivity. }
  split.
  { destruct ((max_results q <=? results q)
              || has_flag (flags q) (Z.lor DQ_F_USR_CANCELLED DQ_F_ID_CLEANING)
              || _); [|destruct (0 <? results q)];
      rewrite !elem_of_cons; tauto. }
  split.
  { intros Hc. rewrite has_flag_either.
    destruct Hc as [-> | ->]; rewrite ?orb_true_r; reflexivity. }
  split.
  { intros ->. reflexivity. }
  intros Hne. apply Z.eqb_neq in Hne. rewrite Hne.
  eexists. split; [reflexivity|].
  destruct (max_results q <=? results q);
    [|destruct (u32 (max_results q - results q) <=? linger_results q)];
    rewrite !elem_of_cons; tauto.
Qed.

Lemma dq_free_statistics_witness :
  exists s',
    dq_free E0 1000 s0 = Some (tt, s')
    /\ trace s' = [gnet_stats_count_general GNR_DYN_QUERIES_COMPLETED_PARTIAL].
Proof.
  destruct (dq_free_statistics E0 s0 1000 q0)
    as (s' & c & l & Hrun & Htr & _ & _ & Hl & _);
    [ reflexivity | vm_compute; reflexivity
    | right; right; split; [reflexivity | exists [1000]; reflexivity] |].
  exists s'. split; [exact Hrun|].
  rewrite (Hl eq_refl) in Htr.
  assert (Hs : dq_free E0 1000 s0 = Some (tt, s')) by exact Hrun.
  vm_compute in Hs. injection Hs as <-. reflexivity.
Defined.

(** X11: a message of a freed query that the message layer frees later
    finds the query gone: the free routine takes the stale branch and
    releases the metadata only. *)
Theorem dq_free_then_pmsg_free (E : env) (s : dq_state) (dq : Z) (q : dquery)
    (mb : pmsg) (arg : Z) (pmi : pmsg_info) :
  mem s !! dq = Some q ->
  dq ∈ dqueries s ->
  (node_id q = NODE_ID_SELF E
   \/ has_flag (flags q) DQ_F_ID_CLEANING = true
   \/ (has_flag (flags q) DQ_F_REMOVED = false
       /\ is_Some (by_node_id s !! node_id q))) ->
  has_flag (flags q) DQ_F_EXITING = false ->
  pmi_mem s !! arg = Some pmi ->
  pmi_dq pmi = dq ->
  pmsg_is_extended mb = true ->
  exists s1 s2,
    dq_free E dq s = Some (tt, s1)
    /\ dq_pmsg_free mb arg s1 = Some (tt, s2)
    /\ same_queries s1 s2
    /\ pmi_mem s2 = delete arg (pmi_mem s).
Proof.
  intros Hq Hin Hnode Hex Hp Hdq Hx.
  destruct (dq_free_run E s dq q Hq Hin Hnode)
    as (s1 & Hrun & _ & Hpmi & _ & Hdqs & _).
  rewrite Hex in Hdqs.
  exists s1. eexists. split; [exact Hrun|].
  split.
  { apply (dq_pmsg_free_stale_run s1 mb arg pmi).
    - rewrite Hpmi. exact Hp.
    - exact Hx.
    - left. rewrite Hdq, Hdqs.
      apply not_elem_of_difference. right. apply elem_of_singleton. reflexivity. }
  split; [unfold same_queries; simpl_state; repeat split|].
  simpl_state. rewrite Hpmi. reflexivity.
Qed.

Lemma dq_free_then_pmsg_free_witness :
  exists s1 s2,
    dq_free E0 1000 s0 = Some (tt, s1)
    /\ dq_pmsg_free mb_dropped 2000 s1 = Some (tt, s2)
    /\ same_queries s1 s2
    /\ pmi_mem s2 = delete 2000 (pmi_mem s0).
Proof.
  apply (dq_free_then_pmsg_free E0 s0 1000 q0 mb_dropped 2000 pmi0);
    [ reflexivity | vm_compute; reflexivity
    | right; right; split; [reflexivity | exists [1000]; reflexivity]
    | reflexivity | reflexivity | reflexivity | reflexivity ].
Defined.

(** ** [dq_expired] *)

Lemma dq_expired_active_run (E : env) (s : dq_state) (dq : Z) (q : dquery) :
  mem s !! dq = Some q ->
  has_flag (flags q) DQ_F_LINGER = false ->
  dq_expired E dq s =
  Some (tt,
    set_mem (<[dq := upd F_flags
                       (set_flag (clear_flag (flags q) DQ_F_WAITING) DQ_F_LINGER)
                       (set_expire_ev (Some (cq_next s)) (set_results_ev None q))]>
               (mem s))
      (set_callout_queue
         (<[cq_next s := {| ce_delay := if has_flag (flags q) DQ_F_USR_CANCELLED then 1
                                        else DQ_LINGER_TIMEOUT;
                            ce_fn := cb_dq_expired; ce_arg := dq |}]>
            (match results_ev q with
             | Some e => delete e (callout_queue s)
             | None => callout_queue s
             end))
         (cq_next s + 1) s)).
Proof.
  intros Hq Hl.
  unfold dq_expired, bind at 1, get_dq at 1. rewrite Hq.
  unfold bind at 1, put_dq at 1. rewrite Hl.
  unfold bind at 1, get_dq at 1. simpl_state. rewrite lookup_insert_eq.
  unfold bind at 1, cq_cancel at 1. cbn [results_ev set_expire_ev].
  destruct (results_ev q) as [re|] eqn:Hre; simpl_state.
  - unfold bind at 1, put_dq at 1. simpl_state. rewrite insert_insert_eq.
    erewrite dq_terminate_insert;
      [ | simpl_state; apply lookup_insert_eq | exact Hl | reflexivity | reflexivity ].
    simpl_state. rewrite insert_insert_eq. reflexivity.
  - unfold bind at 1, put_dq at 1. simpl_state. rewrite insert_insert_eq.
    erewrite dq_terminate_insert;
      [ | simpl_state; apply lookup_insert_eq | exact Hl | reflexivity | reflexivity ].
    simpl_state. rewrite insert_insert_eq. reflexivity.
Qed.

(** X12: when the expiration timer fires for a query that is not
    lingering yet, the query is not released: its results timer is
    cancelled, it starts lingering, and a new expiration event is
    scheduled -- 180 s later, or 1 ms later if the user cancelled it. *)
Theorem dq_expired_lingers (E : env) (s : dq_state) (dq : Z) (q : dquery) :
  mem s !! dq = Some q ->
  has_flag (flags q) DQ_F_LINGER = false ->
  exists s' q',
    dq_expired E dq s = Some (tt, s')
    /\ mem s' !! dq = Some q'
    /\ has_flag (flags q') DQ_F_LINGER = true
    /\ has_flag (flags q') DQ_F_WAITING = false
    /\ results_ev q' = None
    /\ expire_ev q' = Some (cq_next s)
    /\ callout_queue s' =
       <[cq_next s :=
           {| ce_delay := if has_flag (flags q) DQ_F_USR_CANCELLED then 1 else 180000;
              ce_fn := cb_dq_expired; ce_arg := dq |}]>
         (match results_ev q with
          | Some e => delete e (callout_queue s)
          | None => callout_queue s
          end)
    /\ dqueries s' = dqueries s
    /\ by_muid s' = by_muid s.
Proof.
  intros Hq Hl. rewrite (dq_expired_active_run E s dq q Hq Hl).
  eexists _, _. split; [reflexivity|]. simpl_state.
  rewrite lookup_insert_eq. split; [reflexivity|].
  cbn [flags upd zfield_eqb results_ev expire_ev set_expire_ev set_results_ev].
  destruct (lingering_flags (flags q)) as (H1 & H2 & _).
  repeat split; assumption.
Qed.

Lemma dq_expired_lingers_witness :
  exists s' q',
    dq_expired E0 1000 s0 = Some (tt, s')
    /\ mem s' !! 1000 = Some q'
    /\ has_flag (flags q') DQ_F_LINGER = true
    /\ results_ev q' = None
    /\ expire_ev q' = Some 3
    /\ callout_queue s' !! 2 = None
    /\ callout_queue s' !! 3 =
       Some {| ce_delay := 180000; ce_fn := cb_dq_expired; ce_arg := 1000 |}.
Proof.
  destruct (dq_expired_lingers E0 s0 1000 q0)
    as (s' & q' & H1 & H2 & H3 & _ & H4 & H5 & H6 & _);
    [reflexivity | reflexivity |].
  exists s', q'. repeat (split; [assumption|]).
  rewrite H6. split; reflexivity.
Defined.

Lemma dq_expired_lingering_run (E : env) (s : dq_state) (dq : Z) (q : dquery) :
  mem s !! dq = Some q ->
  has_flag (flags q) DQ_F_LINGER = true ->
  dq_expired E dq s =
  dq_free E dq (set_mem (<[dq := set_expire_ev None q]> (mem s)) s).
Proof.
  intros Hq Hl.
  unfold dq_expired, bind at 1, get_dq at 1. rewrite Hq.
  unfold bind at 1, put_dq at 1. rewrite Hl. reflexivity.
Qed.

(** X13: when the expiration timer fires for a lingering query, the query
    is released: the object is gone, it is no longer among the alive
    queries, its MUID no longer leads to it, and the results timer it
    might have held is cancelled. *)
Theorem dq_expired_frees (E : env) (s : dq_state) (dq : Z) (q : dquery) :
  mem s !! dq = Some q ->
  has_flag (flags q) DQ_F_LINGER = true ->
  dq ∈ dqueries s ->
  (node_id q = NODE_ID_SELF E
   \/ has_flag (flags q) DQ_F_ID_CLEANING = true
   \/ (has_flag (flags q) DQ_F_REMOVED = false
       /\ is_Some (by_node_id s !! node_id q))) ->
  has_flag (flags q) DQ_F_EXITING = false ->
  exists s',
    dq_expired E dq s = Some (tt, s')
    /\ mem s' = delete dq (mem s)
    /\ dqueries s' = dqueries s ∖ {[dq]}
    /\ by_muid s' !! muid q <> Some dq
    /\ callout_queue s' =
       match results_ev q with
       | Some e => delete e (callout_queue s)
       | None => callout_queue s
       end.
Proof.
  intros Hq Hl Hin Hnode Hex.
  rewrite (dq_expired_lingering_run E s dq q Hq Hl).
  edestruct (dq_free_run E (set_mem (<[dq := set_expire_ev None q]> (mem s)) s)
               dq (set_expire_ev None q))
    as (s' & Hrun & Hmem & _ & _ & Hdqs & Hcq & _ & Hbm & _);
    [ simpl_state; apply lookup_insert_eq | exact Hin | exact Hnode |].
  exists s'. split; [exact Hrun|].
  revert Hmem Hdqs Hcq Hbm. simpl_state.
  cbn [flags results_ev expire_ev muid set_expire_ev]. rewrite Hex.
  intros Hmem Hdqs Hcq Hbm.
  split; [rewrite Hmem; apply delete_insert_eq|].
  split; [exact Hdqs|].
  split; [|exact Hcq].
  rewrite Hbm. destruct (bool_decide (by_muid s !! muid q = Some dq)) eqn:Hd.
  - rewrite lookup_delete_eq. discriminate.
  - apply bool_decide_eq_false_1 in Hd. exact Hd.
Qed.

Lemma dq_expired_frees_witness :
  exists s',
    dq_expired E0 1000 s_linger = Some (tt, s')
    /\ mem s' = delete 1000 (mem s_linger)
    /\ dqueries s' = dqueries s_linger ∖ {[1000]}.
Proof.
  destruct (dq_expired_frees E0 s_linger 1000 q_linger)
    as (s' & H1 & H2 & H3 & _);
    [ reflexivity | reflexivity | vm_compute; reflexivity
    | right; right; split; [reflexivity | exists [1000]; reflexivity]
    | reflexivity |].
  exists s'. repeat split; assumption.
Defined.

(** X14: no query outlives two expirations: the first one makes an active
    query linger under a new expiration event, the second one releases
    it. *)
Theorem dq_expired_twice (E : env) (s : dq_state) (dq : Z) (q : dquery) :
  mem s !! dq = Some q ->
  has_flag (flags q) DQ_F_LINGER = false ->
  dq ∈ dqueries s ->
  (node_id q = NODE_ID_SELF E
   \/ has_flag (flags q) DQ_F_ID_CLEANING = true
   \/ (has_flag (flags q) DQ_F_REMOVED = false
       /\ is_Some (by_node_id s !! node_id q))) ->
  has_flag (flags q) DQ_F_EXITING = false ->
  exists s1 s2,
    dq_expired E dq s = Some (tt, s1)
    /\ (dq ∈ dqueries s1)
    /\ is_Some (mem s1 !! dq)
    /\ dq_expired E dq s1 = Some (tt, s2)
    /\ (dq ∉ dqueries s2)
    /\ mem s2 = delete dq (mem s)
    /\ by_muid s2 !! muid q <> Some dq.
Proof.
  intros Hq Hl Hin Hnode Hex.
  pose proof (dq_expired_active_run E s dq q Hq Hl) as Hrun1.
  set (q1 := upd F_flags _ _) in Hrun1. set (s1 := set_mem _ _) in Hrun1.
  assert (Hq1 : mem s1 !! dq = Some q1) by apply lookup_insert_eq.
  destruct (lingering_flags (flags q)) as (Hl1 & _ & _).
  pose proof (dq_expired_lingering_run E s1 dq q1 Hq1 Hl1) as Hrun2.
  edestruct (dq_free_run E (set_mem (<[dq := set_expire_ev None q1]> (mem s1)) s1)
               dq (set_expire_ev None q1))
    as (s2 & Hrun & Hmem & _ & _ & Hdqs & _ & _ & Hbm & _);
    [ simpl_state; apply lookup_insert_eq | exact Hin | | ].
  { unfold q1, DQ_F_ID_CLEANING, DQ_F_REMOVED, DQ_F_WAITING, DQ_F_LINGER.
    cbn [flags node_id upd zfield_eqb set_expire_ev set_results_ev].
    rewrite !has_flag_set_bit, !has_flag_clear_flag by lia.
    cbn [Z.eqb Pos.eqb negb]. rewrite !andb_true_r, !orb_false_r.
    exact Hnode. }
  exists s1, s2. split; [exact Hrun1|]. split; [exact Hin|].
  split; [eexists; exact Hq1|]. split; [rewrite Hrun2; exact Hrun|].
  revert Hmem Hdqs Hbm. unfold s1, q1. simpl_state.
  cbn [flags muid upd zfield_eqb set_expire_ev set_results_ev].
  unfold DQ_F_EXITING, DQ_F_WAITING, DQ_F_LINGER.
  rewrite !has_flag_set_bit, !has_flag_clear_flag by lia.
  cbn [Z.eqb Pos.eqb negb]. rewrite !andb_true_r, !orb_false_r.
  fold DQ_F_EXITING. rewrite Hex. intros Hmem Hdqs Hbm.
  split; [rewrite Hdqs; apply not_elem_of_difference; right;
          apply elem_of_singleton; reflexivity|].
  split; [rewrite Hmem, delete_insert_eq, delete_insert_eq; reflexivity|].
  rewrite Hbm. destruct (bool_decide (by_muid s !! muid q = Some dq)) eqn:Hd.
  - rewrite lookup_delete_eq. discriminate.
  - apply bool_decide_eq_false_1 in Hd. exact Hd.
Qed.

Lemma dq_expired_twice_witness :
  exists s1 s2,
    dq_expired E0 1000 s0 = Some (tt, s1)
    /\ dq_expired E0 1000 s1 = Some (tt, s2)
    /\ (1000 ∉ dqueries s2)
    /\ mem s2 = delete 1000 (mem s0).
Proof.
  destruct (dq_expired_twice E0 s0 1000 q0)
    as (s1 & s2 & H1 & _ & _ & H2 & H3 & H4 & _);
    [ reflexivity | reflexivity | vm_compute; reflexivity
    | right; right; split; [reflexivity | exists [1000]; reflexivity]
    | reflexivity |].
  exists s1, s2. repeat split; assumption.
Defined.

(** ** [dq_node_removed] and [dq_search_closed] *)

Lemma free_cleaning_run (E : env) (l : list Z) :
  NoDup l ->
  forall s,
    (forall dq, dq ∈ l -> dq ∈ dqueries s /\ is_Some (mem s !! dq)) ->
    exists s',
      free_cleaning E l s = Some (tt, s')
      /\ by_node_id s' = by_node_id s
      /\ (forall d, mem s' !! d = if bool_decide (d ∈ l) then None else mem s !! d)
      /\ (forall d, d ∉ l -> d ∈ dqueries s' <-> d ∈ dqueries s)
      /\ pmi_mem s' = pmi_mem s.
Proof.
  induction l as [|dq l IH]; intros Hnd s Hall.
  - exists s. split; [reflexivity|]. split; [reflexivity|].
    split; [|split; [tauto | reflexivity]].
    intros d. rewrite bool_decide_eq_false_2; [reflexivity|].
    apply not_elem_of_nil.
  - apply list.NoDup_cons in Hnd as [Hdq Hnd].
    destruct (Hall dq) as [Hin [q Hq]]; [apply elem_of_cons; left; reflexivity|].
    cbn [free_cleaning].
    unfold bind at 1, get_dq at 1. rewrite Hq.
    unfold bind at 1, put_dq at 1.
    set (q1 := upd F_flags _ q). set (s1 := set_mem _ s).
    destruct (dq_free_run E s1 dq q1)
      as (s2 & Hrun & Hmem & Hpmi & _ & Hdqs & _ & _ & _ & _ & Hbn & _);
      [ apply lookup_insert_eq | exact Hin | | ].
    { right; left. unfold q1, DQ_F_ID_CLEANING. cbn [flags upd zfield_eqb].
      rewrite has_flag_set_bit by lia. apply orb_true_r. }
    assert (Hcl : has_flag (flags q1) DQ_F_ID_CLEANING = true).
    { unfold q1, DQ_F_ID_CLEANING. cbn [flags upd zfield_eqb].
      rewrite has_flag_set_bit by lia. apply orb_true_r. }
    rewrite Hcl, orb_true_r in Hbn.
    unfold bind at 1. rewrite Hrun.
    destruct (IH Hnd s2) as (s' & Hrun' & Hbn' & Hmem' & Hdqs' & Hpmi').
    { intros d Hd.
      assert (Hne : d <> dq) by (intros ->; contradiction).
      destruct (Hall d) as [Hd1 [qd Hd2]]; [apply elem_of_cons; right; exact Hd|].
      split.
      - rewrite Hdqs. destruct (has_flag (flags q1) DQ_F_EXITING); [exact Hd1|].
        apply elem_of_difference. split; [exact Hd1|].
        rewrite elem_of_singleton. exact Hne.
      - exists qd. rewrite Hmem. unfold s1. simpl_state.
        rewrite lookup_delete_ne, lookup_insert_ne by congruence. exact Hd2. }
    exists s'. split; [exact Hrun'|].
    split; [rewrite Hbn', Hbn; reflexivity|].
    split.
    { intros d. rewrite Hmem'.
      destruct (decide (d ∈ l)) as [Hd|Hd].
      - rewrite (bool_decide_eq_true_2 _ Hd).
        rewrite bool_decide_eq_true_2; [reflexivity|].
        apply elem_of_cons. right. exact Hd.
      - rewrite (bool_decide_eq_false_2 _ Hd). rewrite Hmem. unfold s1. simpl_state.
        destruct (Z.eq_dec d dq) as [->|Hne].
        + rewrite lookup_delete_eq.
          rewrite bool_decide_eq_true_2; [reflexivity|].
          apply elem_of_cons. left. reflexivity.
        + rewrite lookup_delete_ne, lookup_insert_ne by congruence.
          rewrite bool_decide_eq_false_2; [reflexivity|].
          rewrite elem_of_cons. tauto. }
    split; [|rewrite Hpmi', Hpmi; reflexivity].
    intros d Hd. rewrite elem_of_cons in Hd.
    rewrite Hdqs' by tauto. rewrite Hdqs.
    destruct (has_flag (flags q1) DQ_F_EXITING); [tauto|].
    rewrite elem_of_difference, elem_of_singleton. tauto.
Qed.

(** X15: when a node is removed, every query registered for it is
    released, whatever its state, and the entry of the node leaves
    [by_node_id]; the queries of the other nodes are left alone, and so
    is the metadata of the messages in flight.  Without an entry for the
    node nothing happens. *)
Theorem dq_node_removed_frees_all (E : env) (s : dq_state) (nid : Z) :
  (by_node_id s !! nid = None -> dq_node_removed E nid s = Some (tt, s))
  /\ (forall l,
        by_node_id s !! nid = Some l ->
        NoDup l ->
        (forall dq, dq ∈ l -> dq ∈ dqueries s /\ is_Some (mem s !! dq)) ->
        exists s',
          dq_node_removed E nid s = Some (tt, s')
          /\ by_node_id s' = delete nid (by_node_id s)
          /\ (forall dq, dq ∈ l -> mem s' !! dq = None)
          /\ (forall d, d ∉ l ->
              mem s' !! d = mem s !! d /\ (d ∈ dqueries s' <-> d ∈ dqueries s))
          /\ pmi_mem s' = pmi_mem s).
Proof.
  split.
  - intros Hn. unfold dq_node_removed, bind, the_state. rewrite Hn. reflexivity.
  - intros l Hl Hnd Hall.
    unfold dq_node_removed, bind at 1, the_state. rewrite Hl.
    unfold bind at 1.
    destruct (free_cleaning_run E l Hnd
                (set_by_node_id (delete nid (by_node_id s)) s) Hall)
      as (s' & Hrun & Hbn & Hmem & Hdqs & Hpmi).
    exists s'. split; [exact Hrun|]. split; [exact Hbn|].
    split.
    { intros dq Hdq. rewrite Hmem, (bool_decide_eq_true_2 _ Hdq). reflexivity. }
    split; [|exact Hpmi].
    intros d Hd. split; [|exact (Hdqs d Hd)].
    rewrite Hmem, (bool_decide_eq_false_2 _ Hd). reflexivity.
Qed.

Lemma dq_node_removed_frees_all_witness :
  exists s',
    dq_node_removed E0 7 s_twins = Some (tt, s')
    /\ by_node_id s' = delete 7 (by_node_id s_twins)
    /\ mem s' !! 1000 = None
    /\ mem s' !! 1001 = None.
Proof.
  destruct (dq_node_removed_frees_all E0 s_twins 7) as [_ H].
  destruct (H [1000; 1001]) as (s' & H1 & H2 & H3 & _);
    [ reflexivity | apply (bool_decide_unpack _); vm_compute; exact I | |].
  - intros dq Hdq. apply elem_of_cons in Hdq as [->|Hdq];
      [|apply elem_of_cons in Hdq as [->|Hdq]; [|apply elem_of_nil in Hdq; contradiction]].
    + split; [vm_compute; reflexivity | exists q0; reflexivity].
    + split; [vm_compute; reflexivity | exists q_twin; reflexivity].
  - exists s'. split; [exact H1|]. split; [exact H2|].
    split; apply H3; rewrite !elem_of_cons; tauto.
Defined.

Lemma cancel_local_run (E : env) (handle : Z) (s : dq_state) (keys : list Z) :
  (forall d, d ∈ keys -> is_Some (mem s !! d)) ->
  forall acc,
    cancel_local E handle keys acc s =
    Some (rev (List.filter (closing E s handle) keys) ++ acc, s).
Proof.
  induction keys as [|d keys IH]; intros Hall acc; [reflexivity|].
  destruct (Hall d) as [q Hq]; [apply elem_of_cons; left; reflexivity|].
  cbn [cancel_local List.filter]. unfold bind at 1, get_dq at 1.
  unfold closing at 1. rewrite Hq.
  assert (Hall' : forall d, d ∈ keys -> is_Some (mem s !! d)).
  { intros d' Hd'. apply Hall, elem_of_cons. right. exact Hd'. }
  destruct ((NODE_ID_SELF E =? node_id q) && (sh q =? handle)).
  - rewrite (IH Hall'). cbn [rev]. rewrite <- app_assoc. reflexivity.
  - apply (IH Hall').
Qed.

Lemma free_each_run (E : env) (l : list Z) :
  NoDup l ->
  forall s,
    (forall dq, dq ∈ l ->
       dq ∈ dqueries s
       /\ exists q, mem s !! dq = Some q /\ node_id q = NODE_ID_SELF E) ->
    exists s',
      free_each E l s = Some (tt, s')
      /\ by_node_id s' = by_node_id s
      /\ (forall d, mem s' !! d = if bool_decide (d ∈ l) then None else mem s !! d)
      /\ (forall d, d ∉ l -> d ∈ dqueries s' <-> d ∈ dqueries s)
      /\ pmi_mem s' = pmi_mem s.
Proof.
  induction l as [|dq l IH]; intros Hnd s Hall.
  - exists s. split; [reflexivity|]. split; [reflexivity|].
    split; [|split; [tauto | reflexivity]].
    intros d. rewrite bool_decide_eq_false_2; [reflexivity|].
    apply not_elem_of_nil.
  - apply list.NoDup_cons in Hnd as [Hdq Hnd].
    destruct (Hall dq) as [Hin (q & Hq & Hself)];
      [apply elem_of_cons; left; reflexivity|].
    cbn [free_each].
    destruct (dq_free_run E s dq q Hq Hin (or_introl Hself))
      as (s2 & Hrun & Hmem & Hpmi & _ & Hdqs & _ & _ & _ & _ & Hbn & _).
    rewrite Hself, Z.eqb_refl in Hbn. cbn [orb] in Hbn.
    unfold bind at 1. rewrite Hrun.
    destruct (IH Hnd s2) as (s' & Hrun' & Hbn' & Hmem' & Hdqs' & Hpmi').
    { intros d Hd.
      assert (Hne : d <> dq) by (intros ->; contradiction).
      destruct (Hall d) as [Hd1 (qd & Hd2 & Hd3)];
        [apply elem_of_cons; right; exact Hd|].
      split.
      - rewrite Hdqs. destruct (has_flag (flags q) DQ_F_EXITING); [exact Hd1|].
        apply elem_of_difference. split; [exact Hd1|].
        rewrite elem_of_singleton. exact Hne.
      - exists qd. rewrite Hmem.
        rewrite lookup_delete_ne by congruence. split; assumption. }
    exists s'. split; [exact Hrun'|].
    split; [rewrite Hbn', Hbn; reflexivity|].
    split.
    { intros d. rewrite Hmem'.
      destruct (decide (d ∈ l)) as [Hd|Hd].
      - rewrite (bool_decide_eq_true_2 _ Hd).
        rewrite bool_decide_eq_true_2; [reflexivity|].
        apply elem_of_cons. right. exact Hd.
      - rewrite (bool_decide_eq_false_2 _ Hd). rewrite Hmem.
        destruct (Z.eq_dec d dq) as [->|Hne].
        + rewrite lookup_delete_eq.
          rewrite bool_decide_eq_true_2; [reflexivity|].
          apply elem_of_cons. left. reflexivity.
        + rewrite lookup_delete_ne by congruence.
          rewrite bool_decide_eq_false_2; [reflexivity|].
          rewrite elem_of_cons. tauto. }
    split; [|rewrite Hpmi', Hpmi; reflexivity].
    intros d Hd. rewrite elem_of_cons in Hd.
    rewrite Hdqs' by tauto. rewrite Hdqs.
    destruct (has_flag (flags q) DQ_F_EXITING); [tauto|].
    rewrite elem_of_difference, elem_of_singleton. tauto.
Qed.

(** X16: closing a local search releases exactly the alive queries of the
    local node that bear the search handle, in whatever order the hash
    table hands out its keys; the queries of other searches and those
    launched for leaves stay, and so does [by_node_id]. *)
Theorem dq_search_closed_frees (E : env) (s : dq_state) (keys : list Z) (handle : Z) :
  NoDup keys ->
  (forall d, d ∈ keys <-> d ∈ dqueries s) ->
  (forall d, d ∈ dqueries s -> is_Some (mem s !! d)) ->
  exists s',
    dq_search_closed E keys handle s = Some (tt, s')
    /\ (forall d q, d ∈ dqueries s -> mem s !! d = Some q ->
        if (NODE_ID_SELF E =? node_id q) && (sh q =? handle)
        then mem s' !! d = None
        else mem s' !! d = Some q /\ d ∈ dqueries s')
    /\ by_node_id s' = by_node_id s
    /\ pmi_mem s' = pmi_mem s.
Proof.
  intros Hnd Hkeys Hmem.
  assert (Hall : forall d, d ∈ keys -> is_Some (mem s !! d)).
  { intros d Hd. apply Hmem, Hkeys, Hd. }
  unfold dq_search_closed, bind.
  rewrite (cancel_local_run E handle s keys Hall []), app_nil_r.
  set (l := rev (List.filter (closing E s handle) keys)).
  assert (Hl : forall d, d ∈ l <-> d ∈ keys /\ closing E s handle d = true).
  { intros d. unfold l. rewrite !list_elem_of_In, <- in_rev, filter_In.
    reflexivity. }
  destruct (free_each_run E l) with (s := s)
    as (s' & Hrun & Hbn & Hmem' & Hdqs & Hpmi).
  { unfold l. apply NoDup_ListNoDup, NoDup_rev, List.NoDup_filter, NoDup_ListNoDup, Hnd. }
  { intros d Hd. apply Hl in Hd as [Hk Hc].
    split; [apply Hkeys, Hk|].
    unfold closing in Hc. destruct (mem s !! d) as [q|]; [|discriminate].
    exists q. split; [reflexivity|].
    apply andb_true_iff in Hc as [Hc _]. apply Z.eqb_eq in Hc. congruence. }
  exists s'. split; [exact Hrun|]. split; [|split; assumption].
  intros d q Hd Hq. rewrite Hmem'.
  destruct ((NODE_ID_SELF E =? node_id q) && (sh q =? handle)) eqn:Hc.
  - rewrite bool_decide_eq_true_2; [reflexivity|].
    apply Hl. split; [apply Hkeys, Hd|]. unfold closing. rewrite Hq. exact Hc.
  - assert (Hnl : d ∉ l).
    { intros Hin. apply Hl in Hin as [_ Hin]. unfold closing in Hin.
      rewrite Hq in Hin. congruence. }
    rewrite (bool_decide_eq_false_2 _ Hnl). split; [exact Hq|].
    apply Hdqs; assumption.
Qed.

Lemma dq_search_closed_frees_witness :
  exists s',
    dq_search_closed E0 [1001; 1000] 5 s_local = Some (tt, s')
    /\ mem s' !! 1001 = None
    /\ mem s' !! 1000 = Some q0.
Proof.
  destruct (dq_search_closed_frees E0 s_local [1001; 1000] 5)
    as (s' & Hrun & Hd & _).
  - apply (bool_decide_unpack _); vm_compute; exact I.
  - intros d. unfold s_local. simpl_state.
    rewrite !elem_of_cons, elem_of_nil, elem_of_union, !elem_of_singleton. tauto.
  - intros d. unfold s_local. simpl_state.
    rewrite elem_of_union, !elem_of_singleton.
    intros [->| ->]; [exists q0 | exists q_local]; reflexivity.
  - exists s'. split; [exact Hrun|]. split.
    + apply (Hd 1001 q_local); [vm_compute; reflexivity | reflexivity].
    + apply (Hd 1000 q0); [vm_compute; reflexivity | reflexivity].
Defined.

(** ** [dq_got_query_status] *)

(** X17: a query status that bears an unknown MUID, or that comes from a
    node other than the one the query was launched for, is ignored:
    nothing changes. *)
Theorem dq_got_query_status_ignored (E : env) (s : dq_state) (m nid kept : Z) :
  (status_query s m = None
   \/ exists dq q, status_query s m = Some dq /\ mem s !! dq = Some q
                   /\ node_id q <> nid) ->
  dq_got_query_status E m nid kept s = Some (tt, s).
Proof.
  intros H. unfold dq_got_query_status, bind at 1, the_state.
  unfold status_query in H.
  destruct H as [H | (dq & q & H & Hq & Hn)]; rewrite H; [reflexivity|].
  unfold bind, get_dq. rewrite Hq.
  apply Z.eqb_neq in Hn. rewrite Hn. reflexivity.
Qed.

Lemma dq_got_query_status_ignored_witness :
  dq_got_query_status E0 100 8 65535 s0 = Some (tt, s0)
  /\ dq_got_query_status E0 99 7 65535 s0 = Some (tt, s0).
Proof.
  split.
  - apply dq_got_query_status_ignored. right. exists 1000, q0.
    split; [reflexivity|]. split; [reflexivity | discriminate].
  - apply dq_got_query_status_ignored. left. reflexivity.
Defined.

Lemma status_flags (fl : Z) :
  has_flag (set_flag fl DQ_F_GOT_GUIDANCE) DQ_F_WAITING = has_flag fl DQ_F_WAITING
  /\ has_flag (set_flag fl DQ_F_GOT_GUIDANCE) DQ_F_LEAF_GUIDED
     = has_flag fl DQ_F_LEAF_GUIDED
  /\ has_flag (set_flag fl DQ_F_GOT_GUIDANCE) DQ_F_LINGER = has_flag fl DQ_F_LINGER
  /\ has_flag (set_flag fl DQ_F_GOT_GUIDANCE) DQ_F_GOT_GUIDANCE = true.
Proof.
  unfold DQ_F_GOT_GUIDANCE, DQ_F_WAITING, DQ_F_LEAF_GUIDED, DQ_F_LINGER.
  rewrite !has_flag_set_bit by lia. cbn [Z.eqb Pos.eqb].
  rewrite !orb_false_r, orb_true_r. repeat split.
Qed.

(** The first half of [dq_got_query_status], up to the test of the
    value reported. *)
Lemma dq_got_query_status_recorded (E : env) (s : dq_state) (m nid kept dq : Z)
    (q : dquery) :
  status_query s m = Some dq ->
  mem s !! dq = Some q ->
  node_id q = nid ->
  dq_got_query_status E m nid kept s =
  (let q1 := if unsolicited q
             then upd F_flags (set_flag (flags (status_recorded q kept)) DQ_F_LEAF_GUIDED)
                    (status_recorded q kept)
             else status_recorded q kept in
   let s1 := set_mem (<[dq := q1]> (mem s))
               (if unsolicited q
                then set_trace (node_set_leaf_guidance nid true :: trace s) s
                else s) in
   if kept =? 65535 then
     let q2 := upd F_flags (set_flag (flags q1) DQ_F_USR_CANCELLED) q1 in
     (let* _ := put_dq dq q2 in
      if negb (has_flag (flags q2) DQ_F_LINGER) then
        let* _ := cq_cancel (results_ev q2) in
        let* _ := put_dq dq (set_results_ev None q2) in
        dq_terminate dq
      else ret tt) s1
   else if has_flag (flags q1) DQ_F_WAITING then
     (let* _ := g_assert (negb (bool_decide (results_ev q1 = None))) in
      let* _ := cq_cancel (results_ev q1) in
      let* _ := put_dq dq (upd F_flags (clear_flag (flags q1) DQ_F_WAITING)
                             (set_results_ev None q1)) in
      dq_send_next E dq) s1
   else Some (tt, s1)).
Proof.
  intros Hm Hq Hn.
  unfold dq_got_query_status, bind at 1, the_state.
  unfold status_query in Hm. rewrite Hm.
  unfold bind at 1, get_dq at 1. rewrite Hq.
  test_holds (node_id q =? nid). cbn [negb].
  unfold bind at 1, put_dq at 1.
  set (q1 := upd F_new_results 0 _).
  assert (Hq1 : q1 = status_recorded q kept) by reflexivity.
  clearbody q1. subst q1.
  destruct (status_flags (flags q)) as (Hw & Hg & _).
  assert (Hu : negb (has_flag (flags (status_recorded q kept)) DQ_F_WAITING)
               && negb (has_flag (flags (status_recorded q kept)) DQ_F_LEAF_GUIDED)
               = unsolicited q).
  { unfold unsolicited, status_recorded. cbn [flags upd zfield_eqb].
    rewrite Hw, Hg. reflexivity. }
  rewrite Hu. cbn zeta.
  destruct (unsolicited q).
  - unfold bind at 1. unfold bind at 1, emit at 1, put_dq at 1.
    simpl_state. rewrite insert_insert_eq.
    unfold bind at 1, get_dq at 1. simpl_state. rewrite lookup_insert_eq.
    destruct (kept =? 65535); [reflexivity|].
    match goal with
    | |- context [if has_flag ?a DQ_F_WAITING then _ else _] =>
        destruct (has_flag a DQ_F_WAITING)
    end; reflexivity.
  - unfold bind at 1, ret at 1.
    unfold bind at 1, get_dq at 1. simpl_state. rewrite lookup_insert_eq.
    destruct (kept =? 65535); [reflexivity|].
    destruct (has_flag (flags (status_recorded q kept)) DQ_F_WAITING); reflexivity.
Qed.

(** The sequence that [dq_expired] and [dq_got_query_status] share: the
    results timer is cancelled and the query terminated. *)
Lemma cancel_terminate_run (s : dq_state) (dq : Z) (q : dquery) :
  mem s !! dq = Some q ->
  has_flag (flags q) DQ_F_LINGER = false ->
  (forall ev, expire_ev q = Some ev ->
     is_Some (callout_queue s !! ev) /\ results_ev q <> Some ev) ->
  exists s' ev ce,
    (let* _ := cq_cancel (results_ev q) in
     let* _ := put_dq dq (set_results_ev None q) in
     dq_terminate dq) s = Some (tt, s')
    /\ mem s' =
       <[dq := upd F_flags (set_flag (clear_flag (flags q) DQ_F_WAITING) DQ_F_LINGER)
                 (set_expire_ev (Some ev) (set_results_ev None q))]> (mem s)
    /\ (forall e, expire_ev q = Some e -> ev = e)
    /\ callout_queue s' =
       <[ev := ce]> (match results_ev q with
                     | Some e => delete e (callout_queue s)
                     | None => callout_queue s
                     end)
    /\ ce_delay ce = (if has_flag (flags q) DQ_F_USR_CANCELLED then 1
                      else DQ_LINGER_TIMEOUT)
    /\ trace s' = trace s /\ dqueries s' = dqueries s /\ by_muid s' = by_muid s
    /\ by_leaf_muid s' = by_leaf_muid s /\ pmi_mem s' = pmi_mem s.
Proof.
  intros Hq Hl Hev.
  unfold bind at 1, cq_cancel at 1.
  set (cq1 := match results_ev q with
              | Some e => delete e (callout_queue s)
              | None => callout_queue s
              end).
  set (s1 := set_callout_queue cq1 (cq_next s) s).
  assert (Hs1 : match results_ev q with
                | Some e => Some (tt, set_callout_queue (delete e (callout_queue s))
                                        (cq_next s) s)
                | None => Some (tt, s)
                end = Some (tt, s1)).
  { unfold s1, cq1. destruct (results_ev q); [reflexivity|].
    destruct s; reflexivity. }
  rewrite Hs1. unfold bind at 1, put_dq at 1.
  set (s2 := set_mem _ s1).
  assert (Hq2 : mem s2 !! dq = Some (set_results_ev None q)) by apply lookup_insert_eq.
  destruct (expire_ev q) as [ev|] eqn:He.
  - destruct (Hev ev eq_refl) as [[ce Hc] Hne].
    assert (Hc2 : callout_queue s2 !! ev = Some ce).
    { unfold s2, s1, cq1. simpl_state. destruct (results_ev q) as [re|]; [|exact Hc].
      rewrite lookup_delete_ne by congruence. exact Hc. }
    rewrite (dq_terminate_resched s2 dq _ ev ce Hq2 Hl eq_refl He Hc2).
    eexists _, ev, _. split; [reflexivity|]. unfold s2, s1. simpl_state.
    rewrite insert_insert_eq.
    split.
    { f_equal. destruct q. cbn in He |- *. rewrite He. reflexivity. }
    split; [intros e [= ->]; reflexivity|].
    repeat split.
  - rewrite (dq_terminate_insert s2 dq _ Hq2 Hl eq_refl He).
    eexists _, (cq_next s), _. split; [reflexivity|]. unfold s2, s1. simpl_state.
    rewrite insert_insert_eq.
    split; [reflexivity|].
    split; [intros e [=]|].
    repeat split.
Qed.

Lemma stop_flags (fl : Z) (g : bool) :
  let fl1 := set_flag fl DQ_F_GOT_GUIDANCE in
  let fl2 := if g then set_flag fl1 DQ_F_LEAF_GUIDED else fl1 in
  let fl3 := set_flag fl2 DQ_F_USR_CANCELLED in
  has_flag fl3 DQ_F_LINGER = has_flag fl DQ_F_LINGER
  /\ has_flag fl3 DQ_F_USR_CANCELLED = true
  /\ has_flag fl2 DQ_F_LINGER = has_flag fl DQ_F_LINGER
  /\ has_flag fl2 DQ_F_GOT_GUIDANCE = true
  /\ has_flag fl2 DQ_F_WAITING = has_flag fl DQ_F_WAITING
  /\ has_flag fl2 DQ_F_LEAF_GUIDED = has_flag fl DQ_F_LEAF_GUIDED || g.
Proof.
  unfold DQ_F_GOT_GUIDANCE, DQ_F_LEAF_GUIDED, DQ_F_USR_CANCELLED, DQ_F_LINGER,
    DQ_F_WAITING.
  destruct g; cbn zeta; rewrite !has_flag_set_bit by lia; cbn [Z.eqb Pos.eqb];
    rewrite ?orb_false_r, ?orb_true_r; repeat split.
Qed.

(** X18: the value 0xffff reported for a query that is still active stops
    it at once: the query is marked as cancelled by the user, its results
    timer is cancelled, it starts lingering, and its expiration is brought
    forward to 1 ms from now. *)
Theorem dq_got_query_status_stop_active (E : env) (s : dq_state)
    (m nid dq : Z) (q : dquery) :
  status_query s m = Some dq ->
  mem s !! dq = Some q ->
  node_id q = nid ->
  has_flag (flags q) DQ_F_LINGER = false ->
  (forall ev, expire_ev q = Some ev ->
     is_Some (callout_queue s !! ev) /\ results_ev q <> Some ev) ->
  exists s' q' ev ce,
    dq_got_query_status E m nid 65535 s = Some (tt, s')
    /\ mem s' !! dq = Some q'
    /\ has_flag (flags q') DQ_F_USR_CANCELLED = true
    /\ has_flag (flags q') DQ_F_LINGER = true
    /\ has_flag (flags q') DQ_F_WAITING = false
    /\ kept_results q' = 65535
    /\ results_ev q' = None
    /\ expire_ev q' = Some ev
    /\ (forall e, expire_ev q = Some e -> ev = e)
    /\ callout_queue s' =
       <[ev := ce]> (match results_ev q with
                     | Some e => delete e (callout_queue s)
                     | None => callout_queue s
                     end)
    /\ ce_delay ce = 1
    /\ dqueries s' = dqueries s.
Proof.
  intros Hm Hq Hn Hl Hev.
  rewrite (dq_got_query_status_recorded E s m nid 65535 dq q Hm Hq Hn).
  cbn zeta. rewrite Z.eqb_refl.
  unfold bind at 1, put_dq at 1.
  set (q2 := upd F_flags _ _). set (s2 := set_mem _ _).
  destruct (stop_flags (flags q) (unsolicited q)) as (Hl2 & Hc2 & _).
  cbn zeta in Hl2, Hc2.
  assert (Hfl : flags q2 =
                set_flag (if unsolicited q
                          then set_flag (set_flag (flags q) DQ_F_GOT_GUIDANCE)
                                 DQ_F_LEAF_GUIDED
                          else set_flag (flags q) DQ_F_GOT_GUIDANCE)
                  DQ_F_USR_CANCELLED).
  { unfold q2. destruct (unsolicited q); reflexivity. }
  assert (Hl3 : has_flag (flags q2) DQ_F_LINGER = false) by (rewrite Hfl, Hl2; exact Hl).
  assert (Hc3 : has_flag (flags q2) DQ_F_USR_CANCELLED = true) by (rewrite Hfl; exact Hc2).
  rewrite Hl3. cbn [negb].
  assert (Hre : results_ev q2 = results_ev q)
    by (unfold q2; destruct (unsolicited q); reflexivity).
  assert (Hee : expire_ev q2 = expire_ev q)
    by (unfold q2; destruct (unsolicited q); reflexivity).
  assert (Hk : kept_results q2 = 65535)
    by (unfold q2; destruct (unsolicited q); reflexivity).
  assert (Hcq : callout_queue s2 = callout_queue s)
    by (unfold s2; destruct (unsolicited q); reflexivity).
  assert (Hdq : dqueries s2 = dqueries s)
    by (unfold s2; destruct (unsolicited q); reflexivity).
  destruct (cancel_terminate_run s2 dq q2)
    as (s' & ev & ce & Hrun & Hmem & Hsame & Hcq' & Hd & _ & Hdqs & _);
    [ apply lookup_insert_eq | exact Hl3
    | rewrite Hee, Hre, Hcq; exact Hev |].
  exists s'. eexists _, ev, ce. split; [exact Hrun|].
  rewrite Hmem, lookup_insert_eq. split; [reflexivity|].
  cbn [flags kept_results results_ev expire_ev upd zfield_eqb set_expire_ev
       set_results_ev].
  destruct (lingering_flags (flags q2)) as (H1 & H2 & H3).
  split; [rewrite H3; exact Hc3|]. split; [exact H1|]. split; [exact H2|].
  split; [exact Hk|]. split; [reflexivity|]. split; [reflexivity|].
  split; [rewrite <- Hee; exact Hsame|].
  split; [rewrite Hcq', Hre, Hcq; reflexivity|].
  split; [rewrite Hd, Hc3; reflexivity|].
  rewrite Hdqs, Hdq. reflexivity.
Qed.

Lemma dq_got_query_status_stop_active_witness :
  exists s' q',
    dq_got_query_status E0 100 7 65535 s0 = Some (tt, s')
    /\ mem s' !! 1000 = Some q'
    /\ has_flag (flags q') DQ_F_USR_CANCELLED = true
    /\ has_flag (flags q') DQ_F_LINGER = true
    /\ results_ev q' = None
    /\ callout_queue s' !! 2 = None
    /\ exists ce, callout_queue s' !! 1 = Some ce /\ ce_delay ce = 1.
Proof.
  destruct (dq_got_query_status_stop_active E0 s0 100 7 1000 q0)
    as (s' & q' & ev & ce & H1 & H2 & H3 & H4 & _ & _ & H5 & _ & H6 & H7 & H8 & _);
    [ reflexivity | reflexivity | reflexivity | reflexivity
    | intros ev [= <-]; split; [eexists; reflexivity | discriminate] |].
  exists s', q'. repeat (split; [assumption|]).
  rewrite H7, (H6 1 eq_refl). split.
  - rewrite lookup_insert_ne by discriminate. reflexivity.
  - exists ce. split; [apply lookup_insert_eq | exact H8].
Defined.

(** X19: guidance from the leaf while the query is not waiting for it
    records the figures -- the kept results reported, the number of UPs
    queried so far as [last_status], no new result since -- and makes the
    query leaf-guided, the node being told so only if it was not guided
    before; neither timer is touched and the query is not stepped. *)
Theorem dq_got_query_status_unsolicited (E : env) (s : dq_state)
    (m nid kept dq : Z) (q : dquery) :
  status_query s m = Some dq ->
  mem s !! dq = Some q ->
  node_id q = nid ->
  kept <> 65535 ->
  has_flag (flags q) DQ_F_WAITING = false ->
  exists s' q',
    dq_got_query_status E m nid kept s = Some (tt, s')
    /\ mem s' = <[dq := q']> (mem s)
    /\ has_flag (flags q') DQ_F_GOT_GUIDANCE = true
    /\ has_flag (flags q') DQ_F_LEAF_GUIDED = true
    /\ has_flag (flags q') DQ_F_WAITING = false
    /\ kept_results q' = kept
    /\ last_status q' = up_sent q
    /\ new_results q' = 0
    /\ trace s' = (if has_flag (flags q) DQ_F_LEAF_GUIDED then trace s
                   else node_set_leaf_guidance nid true :: trace s)
    /\ callout_queue s' = callout_queue s
    /\ results_ev q' = results_ev q
    /\ expire_ev q' = expire_ev q.
Proof.
  intros Hm Hq Hn Hk Hw.
  rewrite (dq_got_query_status_recorded E s m nid kept dq q Hm Hq Hn).
  cbn zeta. apply Z.eqb_neq in Hk. rewrite Hk.
  destruct (stop_flags (flags q) (unsolicited q)) as (_ & _ & _ & Hg & Hw2 & Hlg).
  cbn zeta in Hg, Hw2, Hlg.
  assert (Hu : unsolicited q = negb (has_flag (flags q) DQ_F_LEAF_GUIDED)).
  { unfold unsolicited. rewrite Hw. reflexivity. }
  destruct (unsolicited q) eqn:Hun; cbv iota in Hg, Hw2, Hlg.
  - cbn [flags status_recorded upd zfield_eqb]. rewrite Hw2, Hw.
    eexists _, _. split; [reflexivity|]. simpl_state.
    split; [reflexivity|].
    cbn [flags kept_results last_status new_results results_ev expire_ev upd
         zfield_eqb status_recorded].
    rewrite Hg, Hlg, Hw2, Hw, orb_true_r.
    apply (f_equal negb) in Hu. rewrite negb_involutive in Hu. cbn in Hu.
    rewrite <- Hu. repeat split.
  - cbn [flags status_recorded upd zfield_eqb]. rewrite Hw2, Hw.
    eexists _, _. split; [reflexivity|]. simpl_state.
    split; [reflexivity|].
    cbn [flags kept_results last_status new_results results_ev expire_ev upd
         zfield_eqb status_recorded].
    rewrite Hg, Hlg, Hw2, Hw, orb_false_r.
    apply (f_equal negb) in Hu. rewrite negb_involutive in Hu. cbn in Hu.
    rewrite <- Hu. repeat split.
Qed.

Lemma dq_got_query_status_unsolicited_witness :
  exists s' q',
    dq_got_query_status E0 100 7 12 s0 = Some (tt, s')
    /\ mem s' = <[1000 := q']> (mem s0)
    /\ has_flag (flags q') DQ_F_LEAF_GUIDED = true
    /\ kept_results q' = 12
    /\ trace s' = [node_set_leaf_guidance 7 true].
Proof.
  destruct (dq_got_query_status_unsolicited E0 s0 100 7 12 1000 q0)
    as (s' & q' & H1 & H2 & _ & H3 & _ & H4 & _ & _ & H5 & _);
    [reflexivity | reflexivity | reflexivity | discriminate | reflexivity |].
  exists s', q'. repeat split; assumption.
Defined.

(** X20: guidance that the query was waiting for (any value other than
    0xffff) is recorded, the timer that guarded the wait is cancelled, the
    WAITING flag is cleared, and the query is stepped at once: the routine
    goes on as [dq_send_next] does from that state. *)
Theorem dq_got_query_status_solicited (E : env) (s : dq_state)
    (m nid kept dq ev : Z) (q : dquery) :
  status_query s m = Some dq ->
  mem s !! dq = Some q ->
  node_id q = nid ->
  kept <> 65535 ->
  has_flag (flags q) DQ_F_WAITING = true ->
  results_ev q = Some ev ->
  exists s1 q1,
    dq_got_query_status E m nid kept s = dq_send_next E dq s1
    /\ mem s1 = <[dq := q1]> (mem s)
    /\ has_flag (flags q1) DQ_F_WAITING = false
    /\ has_flag (flags q1) DQ_F_GOT_GUIDANCE = true
    /\ has_flag (flags q1) DQ_F_LEAF_GUIDED = has_flag (flags q) DQ_F_LEAF_GUIDED
    /\ kept_results q1 = kept
    /\ last_status q1 = up_sent q
    /\ new_results q1 = 0
    /\ results_ev q1 = None
    /\ callout_queue s1 = delete ev (callout_queue s)
    /\ trace s1 = trace s.
Proof.
  intros Hm Hq Hn Hk Hw Hre.
  rewrite (dq_got_query_status_recorded E s m nid kept dq q Hm Hq Hn).
  cbn zeta. apply Z.eqb_neq in Hk. rewrite Hk.
  assert (Hun : unsolicited q = false) by (unfold unsolicited; rewrite Hw; reflexivity).
  rewrite Hun.
  destruct (status_flags (flags q)) as (Hw2 & Hlg & _ & Hg).
  cbn [flags status_recorded upd zfield_eqb results_ev]. rewrite Hw2, Hw, Hre.
  rewrite bool_decide_eq_false_2 by discriminate.
  unfold bind, g_assert, cq_cancel, put_dq. cbn [negb]. simpl_state.
  rewrite insert_insert_eq.
  eexists _, _. split; [reflexivity|]. simpl_state.
  split; [reflexivity|].
  cbn [flags kept_results last_status new_results results_ev upd zfield_eqb
       set_results_ev].
  unfold DQ_F_WAITING, DQ_F_GOT_GUIDANCE, DQ_F_LEAF_GUIDED.
  rewrite !has_flag_clear_flag, !has_flag_set_bit by lia.
  cbn [Z.eqb Pos.eqb negb]. rewrite ?andb_false_r, ?andb_true_r, ?orb_true_r, ?orb_false_r.
  repeat split.
Qed.

Lemma dq_got_query_status_solicited_witness :
  exists s1 q1,
    dq_got_query_status E0 100 7 12 s_waiting = dq_send_next E0 1000 s1
    /\ mem s1 = <[1000 := q1]> (mem s_waiting)
    /\ has_flag (flags q1) DQ_F_WAITING = false
    /\ results_ev q1 = None
    /\ callout_queue s1 = delete 2 (callout_queue s_waiting).
Proof.
  destruct (dq_got_query_status_solicited E0 s_waiting 100 7 12 1000 2 q_waiting)
    as (s1 & q1 & H1 & H2 & H3 & _ & _ & _ & _ & _ & H4 & H5 & _);
    [ reflexivity | reflexivity | reflexivity | discriminate | reflexivity
    | reflexivity |].
  exists s1, q1. repeat split; assumption.
Defined.

(** ** [dq_got_results] *)

(** X21: a query hit is neither counted nor held against any query when
    its MUID is not that of a dynamic query -- it is to be forwarded --
    or when the firewall test finds it useless to the requester -- it is
    to be dropped: in both cases nothing changes. *)
Theorem dq_got_results_not_counted (E : env) (s : dq_state) (m count status : Z) :
  0 < s32 count ->
  (by_muid s !! m = None -> dq_got_results E m count status s = Some (true, s))
  /\ (forall dq q,
        by_muid s !! m = Some dq -> mem s !! dq = Some q ->
        firewalled_useless E q (status mod 2 ^ 16) = true ->
        dq_got_results E m count status s = Some (false, s)).
Proof.
  intros Hc. apply Z.ltb_lt in Hc.
  split.
  - intros Hm. unfold dq_got_results, dq_count_results, bind, g_assert, the_state.
    rewrite Hc, Hm. reflexivity.
  - intros dq q Hm Hq Hfw.
    unfold dq_got_results, dq_count_results, bind, g_assert, the_state, get_dq.
    rewrite Hc, Hm, Hq, Hfw. reflexivity.
Qed.

Lemma dq_got_results_not_counted_witness :
  dq_got_results E0 99 4 0 s_fw = Some (true, s_fw)
  /\ dq_got_results E0 100 4 1 s_fw = Some (false, s_fw).
Proof.
  destruct (dq_got_results_not_counted E0 s_fw 99 4 0) as [H1 _]; [reflexivity|].
  destruct (dq_got_results_not_counted E0 s_fw 100 4 1) as [_ H2]; [reflexivity|].
  split; [apply H1; reflexivity|].
  apply (H2 1000 q_fw); reflexivity.
Defined.

(** X22: a query hit that passes the firewall test is counted for the
    query its MUID leads to: in [results] and [new_results] while the
    query is active, in [linger_results] alone once it lingers; nothing
    else changes, and the hit is to be forwarded unless the user cancelled
    the query. *)
Theorem dq_got_results_counted (E : env) (s : dq_state) (m count status dq : Z)
    (q : dquery) :
  0 < s32 count ->
  by_muid s !! m = Some dq ->
  mem s !! dq = Some q ->
  firewalled_useless E q (status mod 2 ^ 16) = false ->
  exists s' q',
    dq_got_results E m count status s
      = Some (negb (has_flag (flags q) DQ_F_USR_CANCELLED), s')
    /\ mem s' = <[dq := q']> (mem s)
    /\ (if has_flag (flags q) DQ_F_LINGER
        then linger_results q' = u32 (linger_results q + s32 count)
             /\ results q' = results q /\ new_results q' = new_results q
        else results q' = u32 (results q + s32 count)
             /\ new_results q' = u32 (new_results q + s32 count)
             /\ linger_results q' = linger_results q)
    /\ oob_results q' = oob_results q
    /\ flags q' = flags q
    /\ pending q' = pending q /\ horizon q' = horizon q /\ up_sent q' = up_sent q
    /\ callout_queue s' = callout_queue s
    /\ trace s' = trace s.
Proof.
  intros Hc Hm Hq Hfw. apply Z.ltb_lt in Hc.
  unfold dq_got_results, dq_count_results, bind at 1, g_assert. rewrite Hc.
  unfold bind at 1, the_state. rewrite Hm.
  unfold bind at 1, get_dq at 1. rewrite Hq, Hfw. cbn [negb andb].
  unfold bind, put_dq, get_dq, ret.
  destruct (has_flag (flags q) DQ_F_LINGER) eqn:Hl; simpl_state;
    rewrite lookup_insert_eq; cbn [node_id upd];
    destruct ((19 <? dq_debug E) && (node_id q =? NODE_ID_SELF E));
    simpl_state; rewrite ?insert_insert_eq;
    (eexists _, _; split; [reflexivity|]; split; [reflexivity|]);
    cbn [flags linger_results results new_results oob_results pending horizon
         up_sent upd zfield_eqb]; repeat split.
Qed.

Lemma dq_got_results_counted_witness :
  exists s' q',
    dq_got_results E0 100 4 0 s0 = Some (true, s')
    /\ mem s' = <[1000 := q']> (mem s0)
    /\ results q' = 9 /\ new_results q' = 9.
Proof.
  destruct (dq_got_results_counted E0 s0 100 4 0 1000 q0)
    as (s' & q' & H1 & H2 & H3 & _);
    [reflexivity | reflexivity | reflexivity | reflexivity |].
  exists s', q'. split; [exact H1|]. split; [exact H2|].
  destruct H3 as (H3 & H4 & _). split; assumption.
Defined.

Ltac split_ifs :=
  repeat first
    [ reflexivity
    | match goal with
      | |- context [if ?b then _ else _] => destruct b
      end ].

(** ** [dq_terminate], in general *)

Lemma dq_terminate_run (s : dq_state) (dq : Z) (q : dquery) :
  mem s !! dq = Some q ->
  has_flag (flags q) DQ_F_LINGER = false ->
  results_ev q = None ->
  (forall ev, expire_ev q = Some ev -> is_Some (callout_queue s !! ev)) ->
  exists s' ev ce,
    dq_terminate dq s = Some (tt, s')
    /\ mem s' =
       <[dq := upd F_flags (set_flag (clear_flag (flags q) DQ_F_WAITING) DQ_F_LINGER)
                 (set_expire_ev (Some ev) q)]> (mem s)
    /\ (forall e, expire_ev q = Some e -> ev = e)
    /\ callout_queue s' = <[ev := ce]> (callout_queue s)
    /\ ce_delay ce = (if has_flag (flags q) DQ_F_USR_CANCELLED then 1
                      else DQ_LINGER_TIMEOUT)
    /\ trace s' = trace s /\ dqueries s' = dqueries s /\ by_muid s' = by_muid s
    /\ by_leaf_muid s' = by_leaf_muid s /\ pmi_mem s' = pmi_mem s.
Proof.
  intros Hq Hl Hr Hev.
  destruct (expire_ev q) as [ev|] eqn:He.
  - destruct (Hev ev eq_refl) as [ce Hc].
    rewrite (dq_terminate_resched s dq q ev ce Hq Hl Hr He Hc).
    eexists _, ev, _. split; [reflexivity|]. simpl_state.
    split.
    { f_equal. destruct q. cbn in He |- *. rewrite He. reflexivity. }
    split; [intros e [= ->]; reflexivity|].
    repeat split.
  - rewrite (dq_terminate_insert s dq q Hq Hl Hr He).
    eexists _, (cq_next s), _. split; [reflexivity|]. simpl_state.
    split; [reflexivity|].
    split; [intros e [=]|].
    repeat split.
Qed.

(** ** [dq_results_expired] *)

Lemma dq_results_expired_first (E : env) (s : dq_state) (dq : Z) (q : dquery) :
  mem s !! dq = Some q ->
  has_flag (flags q) DQ_F_LINGER = false ->
  dq_results_expired E dq s =
  (let q1 := timed_out q in
   let s1 := set_mem (<[dq := q1]> (mem s))
               (if gives_up q
                then set_trace (node_set_leaf_guidance (node_id q) false :: trace s) s
                else s) in
   if negb (has_flag (flags q1) (Z.lor DQ_F_LEAF_GUIDED DQ_F_ROUTING_HITS)) then
     dq_terminate dq s1
   else if has_flag (flags q) DQ_F_WAITING
           || negb (has_flag (flags q1) DQ_F_LEAF_GUIDED)
           || (u32 (up_sent q1 - last_status q1) <? DQ_STAT_THRESHOLD)
           || (has_flag (flags q1) DQ_F_ROUTING_HITS
               && (new_results q1 <? DQ_MIN_FOR_GUIDANCE)) then
     dq_send_next E dq s1
   else
     (let* _ := g_assert (negb (node_id q1 =? NODE_ID_SELF E)) in
      match alive q1 with
      | None => g_assert false
      | Some pings =>
          match node_active_by_id E (node_id q1) with
          | None => dq_free E dq
          | Some n =>
              let q2 := upd F_flags (set_flag (flags q1) DQ_F_WAITING) q1 in
              let* _ := put_dq dq q2 in
              let* _ := emit (vmsg_send_qstat_req n
                                (match lmuid q2 with Some l => l | None => muid q2 end)) in
              let (avg, last) := alive_get_roundtrip_ms E pings in
              let timeout := Z.max (s32 (u32 (avg + last) / 2000)) DQ_STATUS_TIMEOUT in
              let* ev := cq_insert timeout cb_dq_results_expired dq in
              put_dq dq (set_results_ev (Some ev) q2)
          end
      end) s1).
Proof.
  intros Hq Hl.
  unfold dq_results_expired, bind at 1, get_dq at 1. rewrite Hq.
  unfold bind at 1, g_assert at 1. rewrite Hl. cbn [negb].
  unfold bind at 1, put_dq at 1.
  unfold timed_out, gives_up. cbn zeta.
  cbn [flags set_results_ev stat_timeouts upd zfield_eqb].
  destruct (has_flag (flags q) DQ_F_WAITING) eqn:Hw; cbn [andb orb].
  - cbn [flags set_results_ev stat_timeouts upd zfield_eqb].
    destruct (negb (has_flag (clear_flag (flags q) DQ_F_WAITING) DQ_F_GOT_GUIDANCE)
              && (DQ_MAX_STAT_TIMEOUT <=? u32 (stat_timeouts q + 1))) eqn:Hg.
    + assert (Hg' : negb (has_flag (flags q) DQ_F_GOT_GUIDANCE)
                    && (DQ_MAX_STAT_TIMEOUT <=? u32 (stat_timeouts q + 1)) = true).
      { revert Hg. unfold DQ_F_WAITING, DQ_F_GOT_GUIDANCE.
        rewrite has_flag_clear_flag by lia. cbn [Z.eqb Pos.eqb negb].
        rewrite andb_true_r. tauto. }
      rewrite Hg'.
      unfold bind at 1. unfold bind at 1, put_dq at 1, emit at 1. simpl_state.
      rewrite insert_insert_eq.
      unfold bind at 1, get_dq at 1. simpl_state. rewrite lookup_insert_eq.
      cbn [orb]. split_ifs.
    + assert (Hg' : negb (has_flag (flags q) DQ_F_GOT_GUIDANCE)
                    && (DQ_MAX_STAT_TIMEOUT <=? u32 (stat_timeouts q + 1)) = false).
      { revert Hg. unfold DQ_F_WAITING, DQ_F_GOT_GUIDANCE.
        rewrite has_flag_clear_flag by lia. cbn [Z.eqb Pos.eqb negb].
        rewrite andb_true_r. tauto. }
      rewrite Hg'.
      unfold bind at 1, put_dq at 1. simpl_state.
      rewrite insert_insert_eq.
      unfold bind at 1, get_dq at 1. simpl_state. rewrite lookup_insert_eq.
      cbn [orb]. split_ifs.
  - unfold bind at 1, ret at 1.
    unfold bind at 1, get_dq at 1. simpl_state. rewrite lookup_insert_eq.
    cbn [orb]. split_ifs.
Qed.

Lemma timed_out_flags (q : dquery) :
  has_flag (flags q) DQ_F_WAITING = true ->
  has_flag (flags (timed_out q)) DQ_F_WAITING = false
  /\ has_flag (flags (timed_out q)) DQ_F_LEAF_GUIDED
     = has_flag (flags q) DQ_F_LEAF_GUIDED && negb (gives_up q)
  /\ has_flag (flags (timed_out q)) DQ_F_ROUTING_HITS
     = has_flag (flags q) DQ_F_ROUTING_HITS
  /\ has_flag (flags (timed_out q)) DQ_F_LINGER = has_flag (flags q) DQ_F_LINGER
  /\ stat_timeouts (timed_out q) = u32 (stat_timeouts q + 1)
  /\ results_ev (timed_out q) = None
  /\ expire_ev (timed_out q) = expire_ev q.
Proof.
  intros Hw. unfold timed_out, gives_up. cbn zeta.
  cbn [flags set_results_ev stat_timeouts upd zfield_eqb]. rewrite Hw.
  cbn [flags set_results_ev stat_timeouts upd zfield_eqb andb].
  assert (Hg : has_flag (clear_flag (flags q) DQ_F_WAITING) DQ_F_GOT_GUIDANCE
               = has_flag (flags q) DQ_F_GOT_GUIDANCE).
  { unfold DQ_F_WAITING, DQ_F_GOT_GUIDANCE. rewrite has_flag_clear_flag by lia.
    apply andb_true_r. }
  rewrite Hg.
  destruct (negb (has_flag (flags q) DQ_F_GOT_GUIDANCE)
            && (DQ_MAX_STAT_TIMEOUT <=? u32 (stat_timeouts q + 1)));
    cbn [flags stat_timeouts results_ev expire_ev set_results_ev upd zfield_eqb negb];
    unfold DQ_F_WAITING, DQ_F_GOT_GUIDANCE, DQ_F_LEAF_GUIDED, DQ_F_ROUTING_HITS,
      DQ_F_LINGER;
    rewrite !has_flag_clear_flag by lia; cbn [Z.eqb Pos.eqb negb];
    rewrite ?andb_true_r, ?andb_false_r; repeat split.
Qed.

(** X23: when the wait for the leaf's status times out, the timeout is
    counted and the query stops waiting; after [DQ_MAX_STAT_TIMEOUT] (2)
    timeouts of a leaf that never gave any guidance, leaf guidance is
    turned off and the node told so.  The query then goes on with the
    next ultrapeer without asking again, unless it is left neither guided
    nor routed, in which case it is terminated. *)
Theorem dq_results_expired_timeout (E : env) (s : dq_state) (dq : Z) (q : dquery) :
  mem s !! dq = Some q ->
  has_flag (flags q) DQ_F_LINGER = false ->
  has_flag (flags q) DQ_F_WAITING = true ->
  exists s1 q1,
    mem s1 = <[dq := q1]> (mem s)
    /\ stat_timeouts q1 = u32 (stat_timeouts q + 1)
    /\ has_flag (flags q1) DQ_F_WAITING = false
    /\ results_ev q1 = None
    /\ has_flag (flags q1) DQ_F_LEAF_GUIDED
       = has_flag (flags q) DQ_F_LEAF_GUIDED && negb (gives_up q)
    /\ gives_up q = negb (has_flag (flags q) DQ_F_GOT_GUIDANCE)
                    && (2 <=? u32 (stat_timeouts q + 1))
    /\ trace s1 = (if gives_up q
                   then node_set_leaf_guidance (node_id q) false :: trace s
                   else trace s)
    /\ callout_queue s1 = callout_queue s
    /\ dq_results_expired E dq s =
       (if has_flag (flags q1) DQ_F_LEAF_GUIDED || has_flag (flags q) DQ_F_ROUTING_HITS
        then dq_send_next E dq s1
        else dq_terminate dq s1).
Proof.
  intros Hq Hl Hw.
  rewrite (dq_results_expired_first E s dq q Hq Hl). cbn zeta.
  destruct (timed_out_flags q Hw) as (H1 & H2 & H3 & _ & H4 & H5 & _).
  exists (set_mem (<[dq := timed_out q]> (mem s))
            (if gives_up q
             then set_trace (node_set_leaf_guidance (node_id q) false :: trace s) s
             else s)), (timed_out q).
  split; [reflexivity|].
  split; [exact H4|]. split; [exact H1|]. split; [exact H5|]. split; [exact H2|].
  split; [unfold gives_up; rewrite Hw; reflexivity|].
  split; [simpl_state; destruct (gives_up q); reflexivity|].
  split; [simpl_state; destruct (gives_up q); reflexivity|].
  rewrite has_flag_either, H3, Hw. cbn [orb].
  destruct (has_flag (flags (timed_out q)) DQ_F_LEAF_GUIDED
            || has_flag (flags q) DQ_F_ROUTING_HITS); reflexivity.
Qed.

Lemma dq_results_expired_timeout_witness :
  exists s1 q1,
    mem s1 = <[1000 := q1]> (mem s_waiting2)
    /\ stat_timeouts q1 = 2
    /\ has_flag (flags q1) DQ_F_LEAF_GUIDED = false
    /\ trace s1 = [node_set_leaf_guidance 7 false]
    /\ dq_results_expired E0 1000 s_waiting2 = dq_send_next E0 1000 s1.
Proof.
  destruct (dq_results_expired_timeout E0 s_waiting2 1000 q_waiting2)
    as (s1 & q1 & H1 & H2 & _ & _ & H3 & _ & H4 & _ & H5);
    [reflexivity | reflexivity | reflexivity |].
  exists s1, q1. repeat (split; [assumption|]).
  rewrite H5, H3. reflexivity.
Defined.

(** X24: when the results timer fires for a query that is neither
    leaf-guided nor routing hits, the query is terminated: it starts
    lingering, nothing being sent to anybody. *)
Theorem dq_results_expired_unguided (E : env) (s : dq_state) (dq : Z) (q : dquery) :
  mem s !! dq = Some q ->
  has_flag (flags q) DQ_F_LINGER = false ->
  has_flag (flags q) DQ_F_WAITING = false ->
  has_flag (flags q) DQ_F_LEAF_GUIDED = false ->
  has_flag (flags q) DQ_F_ROUTING_HITS = false ->
  (forall ev, expire_ev q = Some ev -> is_Some (callout_queue s !! ev)) ->
  exists s' q' ev ce,
    dq_results_expired E dq s = Some (tt, s')
    /\ mem s' = <[dq := q']> (mem s)
    /\ has_flag (flags q') DQ_F_LINGER = true
    /\ results_ev q' = None
    /\ expire_ev q' = Some ev
    /\ callout_queue s' = <[ev := ce]> (callout_queue s)
    /\ ce_delay ce = (if has_flag (flags q) DQ_F_USR_CANCELLED then 1 else 180000)
    /\ trace s' = trace s.
Proof.
  intros Hq Hl Hw Hg Hr Hev.
  rewrite (dq_results_expired_first E s dq q Hq Hl). cbn zeta.
  assert (Hg0 : gives_up q = false) by (unfold gives_up; rewrite Hw; reflexivity).
  assert (Ht : timed_out q = set_results_ev None q).
  { unfold timed_out. cbn zeta. cbn [flags set_results_ev]. rewrite Hw. reflexivity. }
  rewrite Hg0, Ht, has_flag_either. cbn [flags set_results_ev].
  rewrite Hg, Hr. cbn [orb negb].
  destruct (dq_terminate_run (set_mem (<[dq := set_results_ev None q]> (mem s)) s)
              dq (set_results_ev None q))
    as (s' & ev & ce & Hrun & Hmem & _ & Hcq & Hd & Htr & _);
    [ apply lookup_insert_eq | exact Hl | reflexivity | exact Hev |].
  exists s'. eexists _, ev, ce. split; [exact Hrun|].
  split; [rewrite Hmem; simpl_state; apply insert_insert_eq|].
  cbn [flags results_ev expire_ev upd zfield_eqb set_expire_ev set_results_ev].
  destruct (lingering_flags (flags q)) as (H1 & _).
  repeat split; assumption.
Qed.

Lemma dq_results_expired_unguided_witness :
  exists s' q',
    dq_results_expired E0 1000 s_plain = Some (tt, s')
    /\ mem s' = <[1000 := q']> (mem s_plain)
    /\ has_flag (flags q') DQ_F_LINGER = true
    /\ trace s' = [].
Proof.
  destruct (dq_results_expired_unguided E0 s_plain 1000 q_plain)
    as (s' & q' & ev & ce & H1 & H2 & H3 & _ & _ & _ & _ & H4);
    [ reflexivity | reflexivity | reflexivity | reflexivity | reflexivity
    | intros ev [= <-]; eexists; reflexivity |].
  exists s', q'. repeat split; assumption.
Defined.

(** X25: when the time has come to ask the leaf for its status and the
    leaf is no longer among the active nodes, the query is released at
    once: no status request is sent and no timer is left behind. *)
Theorem dq_results_expired_dead_node (E : env) (s : dq_state) (dq : Z) (q : dquery)
    (pings : Z) :
  mem s !! dq = Some q ->
  has_flag (flags q) DQ_F_LINGER = false ->
  has_flag (flags q) DQ_F_WAITING = false ->
  has_flag (flags q) DQ_F_LEAF_GUIDED = true ->
  DQ_STAT_THRESHOLD <= u32 (up_sent q - last_status q) ->
  (has_flag (flags q) DQ_F_ROUTING_HITS = false \/ DQ_MIN_FOR_GUIDANCE <= new_results q) ->
  node_id q <> NODE_ID_SELF E ->
  alive q = Some pings ->
  node_active_by_id E (node_id q) = None ->
  dq ∈ dqueries s ->
  has_flag (flags q) DQ_F_ID_CLEANING = true
  \/ (has_flag (flags q) DQ_F_REMOVED = false
      /\ is_Some (by_node_id s !! node_id q)) ->
  has_flag (flags q) DQ_F_EXITING = false ->
  exists s',
    dq_results_expired E dq s = Some (tt, s')
    /\ mem s' = delete dq (mem s)
    /\ dqueries s' = dqueries s ∖ {[dq]}
    /\ callout_queue s' =
       match expire_ev q with
       | Some e => delete e (callout_queue s)
       | None => callout_queue s
       end
    /\ (forall n mu, vmsg_send_qstat_req n mu ∈ trace s' ->
        vmsg_send_qstat_req n mu ∈ trace s).
Proof.
  intros Hq Hl Hw Hg Hth Hnr Hself Hal Hdead Hin Hnode Hex.
  rewrite (dq_results_expired_first E s dq q Hq Hl). cbn zeta.
  assert (Hg0 : gives_up q = false) by (unfold gives_up; rewrite Hw; reflexivity).
  assert (Ht : timed_out q = set_results_ev None q).
  { unfold timed_out. cbn zeta. cbn [flags set_results_ev]. rewrite Hw. reflexivity. }
  rewrite Hg0, Ht, has_flag_either.
  cbn [flags up_sent last_status new_results node_id alive set_results_ev].
  rewrite Hg, Hw, Hal, Hdead. cbn [orb negb].
  test_fails (u32 (up_sent q - last_status q) <? DQ_STAT_THRESHOLD).
  replace (has_flag (flags q) DQ_F_ROUTING_HITS
           && (new_results q <? DQ_MIN_FOR_GUIDANCE)) with false.
  2:{ symmetry. destruct Hnr as [-> | Hnr]; [reflexivity|].
      apply andb_false_iff. right. apply Z.ltb_ge. exact Hnr. }
  unfold bind, g_assert. apply Z.eqb_neq in Hself. rewrite Hself. cbn [negb].
  destruct (dq_free_run E (set_mem (<[dq := set_results_ev None q]> (mem s)) s)
              dq (set_results_ev None q))
    as (s' & Hrun & Hmem & _ & _ & Hdqs & Hcq & _ & _ & _ & _ & Htr);
    [ apply lookup_insert_eq | exact Hin | right; exact Hnode |].
  exists s'. split; [exact Hrun|].
  revert Hmem Hdqs Hcq Htr. simpl_state.
  cbn [flags results_ev expire_ev set_results_ev]. rewrite Hex.
  intros Hmem Hdqs Hcq Htr.
  split; [rewrite Hmem; apply delete_insert_eq|].
  split; [exact Hdqs|]. split; [exact Hcq|].
  intros n mu. rewrite Htr.
  destruct (linger_results _ =? 0); cbn [app];
    rewrite ?elem_of_cons; intros H;
    repeat match type of H with
           | _ \/ _ => destruct H as [H|H]; [discriminate H|]
           end; exact H.
Qed.

Lemma dq_results_expired_dead_node_witness :
  exists s',
    dq_results_expired E_dead 1000 s_ask = Some (tt, s')
    /\ mem s' = delete 1000 (mem s_ask)
    /\ dqueries s' = dqueries s_ask ∖ {[1000]}.
Proof.
  destruct (dq_results_expired_dead_node E_dead s_ask 1000 q_ask 1)
    as (s' & H1 & H2 & H3 & _);
    [ reflexivity | reflexivity | reflexivity | reflexivity
    | vm_compute; discriminate | left; reflexivity | discriminate
    | reflexivity | reflexivity | vm_compute; reflexivity
    | right; split; [reflexivity | exists [1000]; reflexivity]
    | reflexivity |].
  exists s'. repeat split; assumption.
Defined.

(** ** [dq_send_next] *)

(** X26: with [DQ_MAX_PENDING] (3) messages or more still in the queues
    and none of the stop tests holding, [dq_send_next] sends nothing and
    selects nobody: it only arms the results timer for [result_timeout]
    ms, to look again later. *)
Theorem dq_send_next_waits (E : env) (s : dq_state) (dq : Z) (q : dquery) :
  mem s !! dq = Some q ->
  results_ev q = None ->
  current_peermode_ultra E = true ->
  ~ stop_test E q ->
  DQ_MAX_PENDING <= pending q ->
  exists s' q',
    dq_send_next E dq s = Some (tt, s')
    /\ mem s' = <[dq := q']> (mem s)
    /\ results_ev q' = Some (cq_next s)
    /\ callout_queue s' =
       <[cq_next s := {| ce_delay := result_timeout q;
                         ce_fn := cb_dq_results_expired; ce_arg := dq |}]>
         (callout_queue s)
    /\ trace s' = trace s
    /\ pmi_mem s' = pmi_mem s
    /\ pending q' = pending q
    /\ queried q' = queried q
    /\ flags q' = flags q.
Proof.
  intros Hq Hre Hu Hstop Hp.
  destruct (dq_send_next_checks E s dq q Hq Hre) as (_ & _ & Hwait & _).
  rewrite (Hwait Hu Hstop Hp).
  unfold wait_for_pending, bind, cq_insert, put_dq, refreshed. simpl_state.
  eexists _, _. split; [reflexivity|]. simpl_state.
  rewrite insert_insert_eq. split; [reflexivity|].
  unfold kept_refreshed.
  destruct (node_id q =? NODE_ID_SELF E); repeat split.
Qed.

Lemma dq_send_next_waits_witness :
  exists s' q',
    dq_send_next E0 1000 s_fin = Some (tt, s')
    /\ mem s' = <[1000 := q']> (mem s_fin)
    /\ results_ev q' = Some 3
    /\ trace s' = [].
Proof.
  destruct (dq_send_next_waits E0 s_fin 1000 q_fin)
    as (s' & q' & H1 & H2 & H3 & _ & H4 & _);
    [ reflexivity | reflexivity | reflexivity
    | unfold stop_test; intros [H|[H|[H|H]]]; vm_compute in H;
      first [discriminate H | apply H; reflexivity]
    | vm_compute; discriminate |].
  exists s', q'. repeat split; assumption.
Defined.

Lemma fill_next_up_none (q : dquery) (old : gmap Z next_up)
    (nodes : list gnutella_node) (room : nat) :
  (forall n, n ∈ nodes -> next_up_eligible q n = false) ->
  fill_next_up q old nodes room = [].
Proof.
  revert room. induction nodes as [|n rest IH]; intros room Hno.
  - destruct room; reflexivity.
  - cbn [fill_next_up]. destruct room; [reflexivity|].
    rewrite (Hno n) by (apply elem_of_cons; left; reflexivity).
    apply IH. intros n' Hn'. apply Hno, elem_of_cons. right. exact Hn'.
Qed.

(** X27: when no connected node is a candidate -- an ultrapeer that is
    writable, has completed its handshake, is not flow-controlled and was
    not queried yet -- the selection step terminates the query: it starts
    lingering with an empty candidate vector, nothing being sent. *)
Theorem dq_send_next_select_none (E : env) (s : dq_state) (dq res : Z) (q : dquery) :
  mem s !! dq = Some q ->
  has_flag (flags q) DQ_F_LINGER = false ->
  results_ev q = None ->
  (forall ev, expire_ev q = Some ev -> is_Some (callout_queue s !! ev)) ->
  (forall n, n ∈ node_all_nodes E -> next_up_eligible q n = false) ->
  exists s' q' ev ce,
    dq_send_next_select E dq res s = Some (tt, s')
    /\ mem s' = <[dq := q']> (mem s)
    /\ has_flag (flags q') DQ_F_LINGER = true
    /\ nv q' = []
    /\ queried q' = queried q
    /\ pending q' = pending q
    /\ expire_ev q' = Some ev
    /\ callout_queue s' = <[ev := ce]> (callout_queue s)
    /\ ce_delay ce = (if has_flag (flags q) DQ_F_USR_CANCELLED then 1 else 180000)
    /\ trace s' = trace s.
Proof.
  intros Hq Hl Hre Hev Hno.
  unfold dq_send_next_select, bind at 1, dq_fill_next_up.
  unfold bind at 1, get_dq at 1. rewrite Hq.
  rewrite (fill_next_up_none q _ _ _ Hno).
  unfold bind at 1, put_dq at 1, ret. cbn [length Z.of_nat Z.eqb].
  destruct (dq_terminate_run (set_mem (<[dq := set_nv [] q]> (mem s)) s)
              dq (set_nv [] q))
    as (s' & ev & ce & Hrun & Hmem & _ & Hcq & Hd & Htr & _);
    [ apply lookup_insert_eq | exact Hl | exact Hre | exact Hev |].
  exists s'. eexists _, ev, ce. split; [exact Hrun|].
  split; [rewrite Hmem; simpl_state; apply insert_insert_eq|].
  cbn [flags nv queried pending expire_ev upd zfield_eqb set_expire_ev set_nv].
  destruct (lingering_flags (flags q)) as (H1 & _).
  repeat split; assumption.
Qed.

Lemma dq_send_next_select_none_witness :
  exists s' q',
    dq_send_next_select E0 1000 5 s_fin = Some (tt, s')
    /\ mem s' = <[1000 := q']> (mem s_fin)
    /\ has_flag (flags q') DQ_F_LINGER = true
    /\ trace s' = [].
Proof.
  destruct (dq_send_next_select_none E0 s_fin 1000 5 q_fin)
    as (s' & q' & ev & ce & H1 & H2 & H3 & _ & _ & _ & _ & _ & _ & H4);
    [ reflexivity | reflexivity | reflexivity
    | intros ev [= <-]; eexists; reflexivity
    | intros n Hn; apply list_elem_of_singleton in Hn as ->; reflexivity |].
  exists s', q'. repeat split; assumption.
Defined.

(** ** [dq_common_init] *)

Lemma dq_common_init_run (E : env) (s : dq_state) (id dq : Z) (q : dquery) :
  mem s !! dq = Some q ->
  by_node_id s !! node_id q <> Some [] ->
  exists s',
    dq_common_init E id dq s = Some (u32 (id + 1), s')
    /\ mem s' =
       <[dq := set_expire_ev (Some (cq_next s))
                 (upd F_result_timeout DQ_QUERY_TIMEOUT
                    (set_queried ∅ (set_qid id q)))]> (mem s)
    /\ callout_queue s' =
       <[cq_next s := {| ce_delay := DQ_MAX_LIFETIME; ce_fn := cb_dq_expired;
                         ce_arg := dq |}]> (callout_queue s)
    /\ cq_next s' = cq_next s + 1
    /\ dqueries s' = {[dq]} ∪ dqueries s
    /\ by_muid s' = match by_muid s !! muid q with
                    | Some _ => by_muid s
                    | None => <[muid q := dq]> (by_muid s)
                    end
    /\ by_leaf_muid s' =
       match lmuid q with
       | Some l => match by_leaf_muid s !! l with
                   | Some _ => by_leaf_muid s
                   | None => <[l := dq]> (by_leaf_muid s)
                   end
       | None => by_leaf_muid s
       end
    /\ by_node_id s' =
       (if node_id q =? NODE_ID_SELF E then by_node_id s
        else match by_node_id s !! node_id q with
             | Some (head :: rest) => <[node_id q := head :: dq :: rest]> (by_node_id s)
             | _ => <[node_id q := [dq]]> (by_node_id s)
             end)
    /\ pmi_mem s' = pmi_mem s /\ trace s' = trace s.
Proof.
  intros Hq Hne.
  unfold dq_common_init, bind at 1, get_dq at 1. rewrite Hq.
  unfold bind, cq_insert, put_dq, ret.
  cbn [node_id muid lmuid set_expire_ev upd set_queried set_qid]. simpl_state.
  destruct (node_id q =? NODE_ID_SELF E); cbn [negb]; simpl_state;
    [| destruct (by_node_id s !! node_id q) as [[|head rest]|];
       [contradiction| |]; simpl_state ].
  all: destruct (by_muid s !! muid q); simpl_state.
  all: destruct (lmuid q) as [l|]; simpl_state.
  all: try (destruct (by_leaf_muid s !! l); simpl_state).
  all: eexists; split; [reflexivity|]; simpl_state; repeat split.
Qed.

(** X28: [dq_common_init] makes the record the launcher has filled an
    alive query: it bears the current value of the ID counter, which is
    incremented modulo 2^32 and so differs for the next query, nobody is
    recorded as queried, the per-UP timeout is [DQ_QUERY_TIMEOUT] (3700
    ms), and the expiration is scheduled [DQ_MAX_LIFETIME] (600 s) ahead.
    The query is registered under its MUID and leaf MUID unless these are
    taken: a conflicting registration is left as it is. *)
Theorem dq_common_init_alive (E : env) (s : dq_state) (id dq : Z) (q : dquery) :
  mem s !! dq = Some q ->
  by_node_id s !! node_id q <> Some [] ->
  0 <= id < 2 ^ 32 ->
  exists id' s' q',
    dq_common_init E id dq s = Some (id', s')
    /\ id' = (id + 1) mod 2 ^ 32 /\ id' <> id
    /\ mem s' = <[dq := q']> (mem s)
    /\ qid q' = id
    /\ dq_alive dq id s' = Some (true, s')
    /\ queried q' = ∅
    /\ result_timeout q' = 3700
    /\ expire_ev q' = Some (cq_next s)
    /\ callout_queue s' =
       <[cq_next s := {| ce_delay := 600000; ce_fn := cb_dq_expired; ce_arg := dq |}]>
         (callout_queue s)
    /\ by_muid s' !! muid q = Some (default dq (by_muid s !! muid q))
    /\ (forall l, lmuid q = Some l ->
        by_leaf_muid s' !! l = Some (default dq (by_leaf_muid s !! l)))
    /\ (forall m d, by_muid s !! m = Some d -> by_muid s' !! m = Some d)
    /\ (forall m d, by_leaf_muid s !! m = Some d -> by_leaf_muid s' !! m = Some d).
Proof.
  intros Hq Hne Hid.
  destruct (dq_common_init_run E s id dq q Hq Hne)
    as (s' & Hrun & Hmem & Hcq & _ & Hdqs & Hbm & Hbl & _).
  exists (u32 (id + 1)), s'. eexists. split; [exact Hrun|].
  split; [reflexivity|].
  split.
  { unfold u32. destruct (Z.eq_dec (id + 1) (2 ^ 32)) as [He|Hn].
    - rewrite He, Z.mod_same by lia. lia.
    - rewrite Z.mod_small by lia. lia. }
  split; [exact Hmem|].
  split; [reflexivity|].
  split.
  { eapply dq_alive_true.
    - rewrite Hdqs. apply elem_of_union_l, elem_of_singleton. reflexivity.
    - rewrite Hmem. apply lookup_insert_eq.
    - reflexivity. }
  split; [reflexivity|]. split; [reflexivity|]. split; [reflexivity|].
  split; [exact Hcq|].
  split.
  { rewrite Hbm. destruct (by_muid s !! muid q) eqn:Hm; cbn [default].
    - exact Hm.
    - apply lookup_insert_eq. }
  split.
  { intros l Hl. rewrite Hbl, Hl.
    destruct (by_leaf_muid s !! l) eqn:Hm; cbn [default].
    - exact Hm.
    - apply lookup_insert_eq. }
  split.
  { intros m d Hm. rewrite Hbm. destruct (by_muid s !! muid q) eqn:Hmq; [exact Hm|].
    rewrite lookup_insert_ne; [exact Hm|]. intros <-. congruence. }
  intros m d Hm. rewrite Hbl. destruct (lmuid q) as [l|]; [|exact Hm].
  destruct (by_leaf_muid s !! l) eqn:Hmq; [exact Hm|].
  rewrite lookup_insert_ne; [exact Hm|]. intros <-. congruence.
Qed.

Lemma dq_common_init_alive_witness :
  exists s' q',
    dq_common_init E0 4 1001 s_new = Some (5, s')
    /\ mem s' = <[1001 := q']> (mem s_new)
    /\ qid q' = 4
    /\ dq_alive 1001 4 s' = Some (true, s')
    /\ by_muid s' !! 100 = Some 1000
    /\ by_leaf_muid s' !! 55 = Some 1001.
Proof.
  destruct (dq_common_init_alive E0 s_new 4 1001 q_new)
    as (id' & s' & q' & H1 & H2 & _ & H3 & H4 & H5 & _ & _ & _ & _ & H6 & H7 & _);
    [ reflexivity | discriminate | lia |].
  exists s', q'. rewrite H2 in H1. split; [exact H1|].
  split; [exact H3|]. split; [exact H4|]. split; [exact H5|].
  split; [exact H6 | exact (H7 55 eq_refl)].
Defined.

(** X29: a query initialised at an address where an earlier query lived
    is not disturbed by the messages of that earlier query: when the
    message layer frees one of them, the ID it captured differs from that
    of the new query, and only the metadata is released. *)
Theorem dq_common_init_then_stale (E : env) (s : dq_state) (id dq : Z) (q : dquery)
    (mb : pmsg) (arg : Z) (pmi : pmsg_info) :
  mem s !! dq = Some q ->
  by_node_id s !! node_id q <> Some [] ->
  pmi_mem s !! arg = Some pmi ->
  pmi_dq pmi = dq ->
  pmi_qid pmi <> id ->
  pmsg_is_extended mb = true ->
  exists id' s1 s2,
    dq_common_init E id dq s = Some (id', s1)
    /\ dq_alive dq id s1 = Some (true, s1)
    /\ dq_pmsg_free mb arg s1 = Some (tt, s2)
    /\ same_queries s1 s2
    /\ pmi_mem s2 = delete arg (pmi_mem s).
Proof.
  intros Hq Hne Hp Hdq Hid Hx.
  destruct (dq_common_init_run E s id dq q Hq Hne)
    as (s1 & Hrun & Hmem & _ & _ & Hdqs & _ & _ & _ & Hpmi & _).
  exists (u32 (id + 1)), s1. eexists. split; [exact Hrun|].
  split.
  { eapply dq_alive_true.
    - rewrite Hdqs. apply elem_of_union_l, elem_of_singleton. reflexivity.
    - rewrite Hmem. apply lookup_insert_eq.
    - reflexivity. }
  split.
  { apply (dq_pmsg_free_stale_run s1 mb arg pmi).
    - rewrite Hpmi. exact Hp.
    - exact Hx.
    - right. eexists. rewrite Hdq, Hmem, lookup_insert_eq.
      split; [reflexivity|]. cbn. congruence. }
  split; [unfold same_queries; simpl_state; repeat split|].
  simpl_state. rewrite Hpmi. reflexivity.
Qed.

Lemma dq_common_init_then_stale_witness :
  exists s1 s2,
    dq_common_init E0 4 1000 s0 = Some (5, s1)
    /\ dq_pmsg_free mb_sent 2000 s1 = Some (tt, s2)
    /\ same_queries s1 s2
    /\ pmi_mem s2 = delete 2000 (pmi_mem s0).
Proof.
  destruct (dq_common_init_then_stale E0 s0 4 1000 q0 mb_sent 2000 pmi0)
    as (id' & s1 & s2 & H1 & _ & H2 & H3 & H4);
    [ reflexivity | discriminate | reflexivity | reflexivity | discriminate
    | reflexivity |].
  exists s1, s2.
  assert (Hid : id' = 5).
  { assert (Hs : dq_common_init E0 4 1000 s0 = Some (id', s1)) by exact H1.
    vm_compute in Hs. injection Hs as <- _. reflexivity. }
  rewrite Hid in H1.
  split; [exact H1|]. split; [exact H2|]. split; [exact H3 | exact H4].
Defined.

(** ** The probe *)

Lemma fill_probe_up_sublist (E : env) (q : dquery) (nodes : list gnutella_node) :
  forall (room : nat) (v : list gnutella_node),
    fill_probe_up E q nodes room = Some v ->
    v `sublist_of` nodes
    /\ (length v <= room)%nat
    /\ Forall (fun n => probe_eligible E q n = true /\ n_is_writable n = true) v.
Proof.
  induction nodes as [|n rest IH]; intros room v Hv.
  - destruct room; injection Hv as <-; (split; [constructor|]);
      (split; [cbn; lia | constructor]).
  - cbn [fill_probe_up] in Hv. destruct room as [|room'].
    + injection Hv as <-. split; [apply sublist_nil_l|].
      split; [cbn; lia | constructor].
    + destruct (probe_eligible E q n) eqn:He.
      * destruct (n_is_writable n) eqn:Hw; [|discriminate].
        destruct (fill_probe_up E q rest room') as [v'|] eqn:Hv'; [|discriminate].
        injection Hv as <-. destruct (IH room' v' Hv') as (H1 & H2 & H3).
        split; [apply sublist_skip; exact H1|].
        split; [cbn; lia|]. constructor; [split; assumption | exact H3].
      * destruct (IH (S room') v Hv) as (H1 & H2 & H3).
        split; [apply sublist_cons; exact H1|]. split; assumption.
Qed.

Lemma send_probe_loop_run (dq t : Z) (v : list gnutella_node) :
  forall (s : dq_state) (q : dquery),
    mem s !! dq = Some q ->
    NoDup (n_id <$> v) ->
    (forall n, n ∈ v ->
       (n_id n ∉ queried q) /\ n_is_writable n = true
       /\ 0 < sent_ttl n t <= DQ_MAX_TTL) ->
    0 <= pending q ->
    pending q + Z.of_nat (length v) < 2 ^ 32 ->
    exists s' q' sends,
      send_probe_loop dq v t s = Some (tt, s')
      /\ mem s' = <[dq := q']> (mem s)
      /\ pending q' = pending q + Z.of_nat (length v)
      /\ (forall x, x ∈ queried q' <-> x ∈ queried q \/ x ∈ n_id <$> v)
      /\ trace s' = sends ++ trace s
      /\ length sends = length v
      /\ Forall (fun c => exists n p, c = gmsg_mb_sendto_one n (sent_ttl n t) p
                                      /\ n ∈ v) sends
      /\ callout_queue s' = callout_queue s /\ cq_next s' = cq_next s
      /\ results_ev q' = results_ev q /\ result_timeout q' = result_timeout q
      /\ up_sent q' = up_sent q /\ horizon q' = horizon q
      /\ flags q' = flags q.
Proof.
  induction v as [|n rest IH]; intros s q Hq Hnd Hall Hp0 Hp.
  - exists s, q, []. split; [reflexivity|].
    split; [symmetry; apply insert_id; exact Hq|].
    split; [cbn; lia|].
    split; [intros x; rewrite fmap_nil, elem_of_nil; tauto|].
    repeat split. constructor.
  - rewrite fmap_cons in Hnd. apply list.NoDup_cons in Hnd as [Hn Hnd].
    destruct (Hall n) as (Hnew & Hw & Ht); [apply elem_of_cons; left; reflexivity|].
    cbn [send_probe_loop]. unfold bind at 1.
    rewrite (dq_send_query_run s dq t q n Hq Hnew Hw Ht).
    set (s1 := set_trace _ _).
    cbn [length] in Hp. rewrite Nat2Z.inj_succ in Hp.
    destruct (IH s1 (dispatched q n t)) as (s' & q' & sends & Hrun & Hmem & Hpend
      & Hqd & Htr & Hlen & Hsends & Hcq & Hcn & Hre & Hrt & Hus & Hh & Hfl).
    { apply lookup_insert_eq. }
    { exact Hnd. }
    { intros n' Hn'. destruct (Hall n') as (Hnew' & Hw' & Ht');
        [apply elem_of_cons; right; exact Hn'|].
      split; [|split; assumption].
      cbn [queried dispatched upd set_by_ttl set_queried].
      rewrite elem_of_union, elem_of_singleton. intros [Heq|Hin]; [|contradiction].
      apply Hn. rewrite <- Heq. apply list_elem_of_fmap. exists n'. split; [reflexivity|exact Hn']. }
    { cbn [pending dispatched upd zfield_eqb]. rewrite u32_small by lia. lia. }
    { cbn [pending dispatched upd zfield_eqb]. rewrite u32_small by lia. lia. }
    exists s', q', (sends ++ [gmsg_mb_sendto_one n (sent_ttl n t) (walloc_next s)]).
    split; [exact Hrun|].
    split; [rewrite Hmem; unfold s1; simpl_state; apply insert_insert_eq|].
    split.
    { rewrite Hpend. cbn [pending dispatched upd zfield_eqb length].
      rewrite u32_small by lia. lia. }
    split.
    { intros x. rewrite Hqd. cbn [queried dispatched upd set_by_ttl set_queried].
      rewrite fmap_cons, elem_of_cons, elem_of_union, elem_of_singleton. tauto. }
    split; [rewrite Htr; unfold s1; simpl_state; rewrite <- app_assoc; reflexivity|].
    split; [rewrite length_app, Hlen; cbn; lia|].
    split.
    { apply list.Forall_app. split.
      - eapply list.Forall_impl; [exact Hsends|].
        intros c (n' & p & -> & Hn'). exists n', p. split; [reflexivity|].
        apply elem_of_cons. right. exact Hn'.
      - constructor; [|constructor]. exists n, (walloc_next s).
        split; [reflexivity|]. apply elem_of_cons. left. reflexivity. }
    rewrite Hcq, Hcn, Hre, Hrt, Hus, Hh, Hfl. repeat split.
Qed.

Lemma probe_ttl_range (t found : Z) :
  1 <= t -> 1 <= probe_ttl t found <= t.
Proof.
  intros Ht. unfold probe_ttl, DQ_PROBE_UP.
  destruct (6 * 3 <? found), (3 * 3 <? found); lia.
Qed.

(** X30: the probe queries the nodes that come first once the candidates
    -- the connected ultrapeers whose routing table may match, found by
    [dq_fill_probe_up] -- are sorted by queue size: [DQ_PROBE_UP] (3) of
    them at most, each at the TTL of the query lowered by one when more
    than 9 candidates were found and by two when more than 18, never
    below 1 nor above what the node accepts.  Each message queued is
    counted as pending and its target as queried, but not yet as sent,
    and the results timer is armed for as many times [DQ_PROBE_TIMEOUT]
    plus the per-UP timeout as there are messages. *)
Theorem dq_send_probe_sends (E : env)
    (qsort_node_mq : list gnutella_node -> list gnutella_node)
    (s : dq_state) (dq : Z) (q : dquery) (v : list gnutella_node) :
  mem s !! dq = Some q ->
  results_ev q = None ->
  fill_probe_up E q (node_all_nodes E) (Z.to_nat (s32 (max_connections E))) = Some v ->
  v <> [] ->
  qsort_node_mq v ≡ₚ v ->
  NoDup (n_id <$> node_all_nodes E) ->
  (forall n, n ∈ node_all_nodes E -> (n_id n ∉ queried q) /\ 1 <= n_max_ttl n) ->
  1 <= ttl q <= DQ_MAX_TTL ->
  0 <= pending q < 2 ^ 32 - 3 ->
  0 <= result_timeout q < 2 ^ 30 ->
  let chosen := take 3 (qsort_node_mq v) in
  let k := Z.min (Z.of_nat (length v)) 3 in
  let t := probe_ttl (ttl q) (Z.of_nat (length v)) in
  exists s' q' sends,
    dq_send_probe E qsort_node_mq dq s = Some (tt, s')
    /\ mem s' = <[dq := q']> (mem s)
    /\ Z.of_nat (length chosen) = k
    /\ pending q' = pending q + k
    /\ (forall x, x ∈ queried q' <-> x ∈ queried q \/ x ∈ n_id <$> chosen)
    /\ up_sent q' = up_sent q /\ horizon q' = horizon q
    /\ trace s' = sends ++ trace s
    /\ Z.of_nat (length sends) = k
    /\ Forall (fun c => exists n p,
                  c = gmsg_mb_sendto_one n (Z.min (n_max_ttl n) t) p
                  /\ n ∈ chosen /\ 1 <= Z.min (n_max_ttl n) t <= ttl q) sends
    /\ results_ev q' = Some (cq_next s)
    /\ callout_queue s' =
       <[cq_next s := {| ce_delay := k * (1500 + result_timeout q);
                         ce_fn := cb_dq_results_expired; ce_arg := dq |}]>
         (callout_queue s).
Proof.
  intros Hq Hre Hfill Hnz Hperm Hids Hnodes Httl Hpend Hrt chosen k t.
  destruct (fill_probe_up_sublist E q _ _ _ Hfill) as (Hsub & _ & Hel).
  assert (Hlen : Z.of_nat (length chosen) = k).
  { unfold chosen, k. rewrite length_take, (Permutation_length Hperm). lia. }
  assert (Hchosen : forall n, n ∈ chosen -> n ∈ v).
  { intros n Hn. unfold chosen in Hn.
    apply (elem_of_sublist _ (qsort_node_mq v)) in Hn; [|apply sublist_take].
    rewrite Hperm in Hn. exact Hn. }
  assert (Hv_nodes : forall n, n ∈ v -> n ∈ node_all_nodes E).
  { intros n Hn. exact (elem_of_sublist _ _ _ Hn Hsub). }
  assert (Htr : 1 <= t <= ttl q) by (apply probe_ttl_range; lia).
  assert (Hst : forall n, n ∈ chosen ->
            sent_ttl n t = Z.min (n_max_ttl n) t /\ 1 <= Z.min (n_max_ttl n) t <= ttl q).
  { intros n Hn. destruct (Hnodes n (Hv_nodes n (Hchosen n Hn))) as [_ Hm].
    unfold sent_ttl, DQ_MAX_TTL in *. rewrite Z.mod_small by lia. lia. }
  assert (Hnd : NoDup (n_id <$> chosen)).
  { apply (sublist_NoDup _ (n_id <$> qsort_node_mq v)).
    - rewrite Hperm. apply (sublist_NoDup _ _ Hids), fmap_sublist, Hsub.
    - apply fmap_sublist, sublist_take. }
  unfold dq_send_probe, bind at 1, get_dq at 1. rewrite Hq.
  unfold bind at 1, g_assert at 1. rewrite Hre.
  rewrite bool_decide_eq_true_2 by reflexivity.
  unfold bind at 1, dq_fill_probe_up. unfold bind at 1, get_dq at 1. rewrite Hq.
  unfold lift. rewrite Hfill.
  assert (Hfound : (Z.of_nat (length v) =? 0) = false).
  { apply Z.eqb_neq. destruct v; [contradiction | cbn [length]; lia]. }
  rewrite Hfound.
  fold t. change (Z.to_nat DQ_PROBE_UP) with 3%nat. fold chosen.
  destruct (send_probe_loop_run dq t chosen s q Hq Hnd)
    as (s1 & q1 & sends & Hrun & Hmem & Hp1 & Hqd & Htrace & Hsl & Hsends
        & Hcq & Hcn & Hre1 & Hrt1 & Hus & Hh & _).
  { intros n Hn. destruct (Hnodes n (Hv_nodes n (Hchosen n Hn))) as [Hnew _].
    split; [exact Hnew|]. split.
    - pose proof (proj1 (list.Forall_forall _ _) Hel n (Hchosen n Hn)) as [_ Hw]. exact Hw.
    - destruct (Hst n Hn) as [-> Hr]. unfold DQ_MAX_TTL in *. lia. }
  { lia. }
  { lia. }
  unfold bind at 1. rewrite Hrun.
  unfold bind, get_dq, cq_insert, put_dq. rewrite Hmem, lookup_insert_eq.
  simpl_state. rewrite Hmem, insert_insert_eq.
  eexists _, _, sends. split; [reflexivity|]. simpl_state.
  split; [reflexivity|]. split; [exact Hlen|].
  cbn [pending queried up_sent horizon results_ev set_results_ev].
  split; [lia|]. split; [exact Hqd|]. split; [exact Hus|]. split; [exact Hh|].
  split; [exact Htrace|]. split; [lia|].
  split.
  { eapply list.Forall_impl; [exact Hsends|].
    intros c (n & p & -> & Hn). exists n, p. destruct (Hst n Hn) as [-> Hr].
    split; [reflexivity|]. split; [exact Hn | exact Hr]. }
  split; [rewrite Hcn; reflexivity|].
  rewrite Hcq, Hcn, Hrt1. f_equal. f_equal.
  unfold DQ_PROBE_UP, DQ_PROBE_TIMEOUT. fold k.
  rewrite (u32_small (1500 + result_timeout q)) by lia.
  apply u32_small. unfold k. nia.
Qed.

Lemma dq_send_probe_sends_witness :
  exists s' q',
    dq_send_probe E_ups (fun v => v) 1000 s_fin = Some (tt, s')
    /\ mem s' = <[1000 := q']> (mem s_fin)
    /\ pending q' = 5
    /\ results_ev q' = Some 3
    /\ callout_queue s' !! 3 =
       Some {| ce_delay := 10400; ce_fn := cb_dq_results_expired; ce_arg := 1000 |}.
Proof.
  destruct (dq_send_probe_sends E_ups (fun v => v) s_fin 1000 q_fin [node6; node8])
    as (s' & q' & sends & H1 & H2 & _ & H3 & _ & _ & _ & _ & _ & _ & H4 & H5).
  - reflexivity.
  - reflexivity.
  - reflexivity.
  - discriminate.
  - reflexivity.
  - apply (bool_decide_unpack _); vm_compute; exact I.
  - intros n Hn.
    repeat (apply elem_of_cons in Hn as [->|Hn];
            [split; [apply (bool_decide_unpack _); vm_compute; exact I
                    | vm_compute; discriminate]|]).
    apply elem_of_nil in Hn. contradiction.
  - vm_compute. split; discriminate.
  - vm_compute. split; [discriminate | reflexivity].
  - vm_compute. split; [discriminate | reflexivity].
  - exists s', q'. split; [exact H1|]. split; [exact H2|]. split; [exact H3|].
    split; [exact H4|]. rewrite H5. apply lookup_insert_eq.
Defined.
